(** * zerodha-kite-app: the intraday trading core, embedded and verified

    A shallow embedding of the decision-and-control pipeline of the
    repository:

    - [RiskManager]        src/lib/trading/RiskManager.js, class RiskManager
    - [OrderManager]       class OrderManager (OrderManager.js)
    - [TradingStrategy]    src/lib/trading/TradingStrategy.js
    - [MarketDataService]  class MarketDataService (MarketDataService.js),
                           the candle store and the aggregator
    - [TradingLogger]      class TradingLogger (the logger that precedes
                           MarketDataService.js): the stored entries
    - [Backtester]         src/lib/trading/RiskManager.js, class Backtester:
                           simulated fills, the equity curve and its
                           drawdown, runs of wins and losses

    Conventions of the embedding.

    - A JavaScript number is an exact rational ([Q]).  [NaN], the
      infinities and rounding of binary floating point are outside the
      model; [Math.floor] is [Qfloor], [Math.abs] is [Qabs], and the
      comparison operators are the boolean tests [geb], [gtb], [leb],
      [ltb] below.  A statement that depends on the value of an
      arithmetic result, and not only on comparisons that rounding
      preserves, is made for inputs on which the operations of the source
      are exact ([Js.exact]).  Counters that the code only ever resets to
      0 and increments by 1 are [nat].
    - An object with mutable fields is a record; a method is a function
      from the record before the call to the record after it (and the
      returned value, when there is one).
    - A [Date] is the number of milliseconds since a local-time epoch
      that falls on a midnight, as an integer ([Z]); one call of a method
      reads the clock at one instant, passed in as [now].
    - A template string is a constructor of an inductive type carrying
      the interpolated values; logging has no effect on the model.
    - An [await] is sequential composition: the scheduler runs one tick at
      a time. *)

From stdpp Require Import gmap list strings sorting.
From Stdlib Require Import QArith Qround Qabs Qminmax Lia Lqa ZArith.
From Equations Require Import Equations.

(* ===================================================================== *)
(** * Part I.  The embedding                                             *)
(* ===================================================================== *)

(** A value together with the equation that names it: lets a definition
    by well-founded recursion remember the test it branched on. *)
Definition inspect {A} (a : A) : {b : A | a = b} := exist _ a eq_refl.

(** ** JavaScript numbers *)

Module Js.
Local Open Scope Q_scope.

(** [a >= b] *)
Definition geb (a b : Q) : bool := Qle_bool b a.
(** [a <= b] *)
Definition leb (a b : Q) : bool := Qle_bool a b.
(** [a > b] *)
Definition gtb (a b : Q) : bool := negb (Qle_bool a b).
(** [a < b] *)
Definition ltb (a b : Q) : bool := negb (Qle_bool b a).

(** [Math.floor(x)], as a number again. *)
Definition floor (x : Q) : Q := inject_Z (Qfloor x).

(** A counter read as a number. *)
Definition ofNat (n : nat) : Q := inject_Z (Z.of_nat n).

(** [x || d] on numbers: [0] is falsy. *)
Definition orElse (x d : Q) : Q := if Qeq_bool x 0 then d else x.

(** The constructors' [{ key: config.key || d, ...config }]: the spread
    comes last, so a key present in [config] wins whatever its value, and
    an absent key gets the default. *)
Definition keyOr (x : option Q) (d : Q) : Q := default d x.

(** The rationals that a binary64 number holds exactly, among those below
    2^53 in magnitude: m / 2^k with |m| < 2^53 and k <= 1074.  An
    arithmetic operation of the source whose operands and whose exact
    result are such numbers returns that result, unrounded. *)
Definition exactb (x : Q) : bool :=
  let x := Qred x in
  let d := Z.pos (Qden x) in
  (Z.abs (Qnum x) <? 2 ^ 53)%Z
  && (d =? 2 ^ Z.log2 d)%Z
  && (Z.log2 d <=? 1074)%Z.

Definition exact (x : Q) : Prop := exactb x = true.

(** [Math.max(...xs)] and [Math.min(...xs)] on a non-empty array whose
    first element is [x]. *)
Definition maxOf (x : Q) (xs : list Q) : Q := foldl Qmax x xs.
Definition minOf (x : Q) (xs : list Q) : Q := foldl Qmin x xs.

(** Comparisons of closed rationals, by evaluation: one that holds, and
    one that fails. *)
Ltac qcompute :=
  vm_compute; first [ reflexivity | discriminate | intro; discriminate ].
Ltac qrefute :=
  let H := fresh in intro H; vm_compute in H; apply H; reflexivity.

End Js.

(** ** RiskManager.js, class RiskManager *)

Module RiskManager.
Local Open Scope Q_scope.

(** The [config] argument of the constructor: any key may be absent. *)
Record Options := {
  opt_maxDailyLossPercent : option Q;
  opt_maxTradesPerDay : option Q;
  opt_maxPositionSizePercent : option Q;
  opt_initialCapital : option Q;
  opt_emergencyStopLossPercent : option Q;
  opt_maxConsecutiveLosses : option Q
}.

Definition noOptions : Options :=
  {| opt_maxDailyLossPercent := None; opt_maxTradesPerDay := None;
     opt_maxPositionSizePercent := None; opt_initialCapital := None;
     opt_emergencyStopLossPercent := None; opt_maxConsecutiveLosses := None |}.

(** [this.config] *)
Record Config := {
  maxDailyLossPercent : Q;
  maxTradesPerDay : Q;
  maxPositionSizePercent : Q;
  initialCapital : Q;
  emergencyStopLossPercent : Q;
  maxConsecutiveLosses : Q
}.

(** [this.dailyStats] *)
Record DailyStats := {
  totalPnL : Q;
  tradesCount : nat;
  consecutiveLosses : nat;
  maxDrawdown : Q;
  startingCapital : Q
}.

(** [this.riskLimits] *)
Record RiskLimits := {
  dailyLossLimit : Q;
  emergencyStopLimit : Q
}.

(** A [RiskManager] instance. *)
Record t := {
  config : Config;
  dailyStats : DailyStats;
  riskLimits : RiskLimits
}.

(** [constructor(config = {})] *)
Definition new (o : Options) : t :=
  let config :=
    {| maxDailyLossPercent := Js.keyOr (opt_maxDailyLossPercent o) 2;
       maxTradesPerDay := Js.keyOr (opt_maxTradesPerDay o) 5;
       maxPositionSizePercent := Js.keyOr (opt_maxPositionSizePercent o) 10;
       initialCapital := Js.keyOr (opt_initialCapital o) 100000;
       emergencyStopLossPercent := Js.keyOr (opt_emergencyStopLossPercent o) 5;
       maxConsecutiveLosses := Js.keyOr (opt_maxConsecutiveLosses o) 3 |} in
  {| config := config;
     dailyStats :=
       {| totalPnL := 0; tradesCount := 0; consecutiveLosses := 0;
          maxDrawdown := 0; startingCapital := initialCapital config |};
     riskLimits :=
       {| dailyLossLimit :=
            initialCapital config * maxDailyLossPercent config / 100;
          emergencyStopLimit :=
            initialCapital config * emergencyStopLossPercent config / 100 |} |}.

(** The [reason] strings of [checkDailyLimits], with their interpolated
    values. *)
Inductive Reason :=
| NoReason                                   (* '' *)
| DailyLossLimitReached (loss : Q)           (* `Daily loss limit reached: ...` *)
| EmergencyStopLossTriggered (loss : Q)      (* `Emergency stop loss triggered: ...` *)
| MaximumTradesPerDayReached (trades : Q)    (* `Maximum trades per day reached: ...` *)
| MaximumConsecutiveLossesReached (n : nat). (* `Maximum consecutive losses reached: ...` *)

Inductive Warning :=
| ApproachingDailyLossLimit (lossPercentage : Q)
| ApproachingDailyTradeLimit (trades limit : Q).

(** The [checks] object. *)
Record Checks := {
  canTrade : bool;
  reason : Reason;
  warnings : list Warning
}.

Definition blocked (checks : Checks) (r : Reason) : Checks :=
  {| canTrade := false; reason := r; warnings := warnings checks |}.

Definition pushWarning (checks : Checks) (w : Warning) : Checks :=
  {| canTrade := canTrade checks; reason := reason checks;
     warnings := warnings checks ++ [w] |}.

(** [async checkDailyLimits(currentPnL, tradesCount)] *)
Definition checkDailyLimits (rm : t) (currentPnL tradesCount : Q) : Checks :=
  let checks := {| canTrade := true; reason := NoReason; warnings := [] |} in
  (* Check daily loss limit *)
  if Js.geb (Qabs currentPnL) (dailyLossLimit (riskLimits rm)) then
    blocked checks (DailyLossLimitReached (Qabs currentPnL))
  (* Check emergency stop loss *)
  else if Js.geb (Qabs currentPnL) (emergencyStopLimit (riskLimits rm)) then
    blocked checks (EmergencyStopLossTriggered (Qabs currentPnL))
  (* Check maximum trades per day *)
  else if Js.geb tradesCount (maxTradesPerDay (config rm)) then
    blocked checks (MaximumTradesPerDayReached tradesCount)
  (* Check consecutive losses *)
  else if Js.geb (Js.ofNat (consecutiveLosses (dailyStats rm)))
                 (maxConsecutiveLosses (config rm)) then
    blocked checks
      (MaximumConsecutiveLossesReached (consecutiveLosses (dailyStats rm)))
  else
    (* Add warnings for approaching limits *)
    let lossPercentage :=
      Qabs currentPnL / initialCapital (config rm) * 100 in
    let checks :=
      if Js.gtb lossPercentage (maxDailyLossPercent (config rm) * 0.7)
      then pushWarning checks (ApproachingDailyLossLimit lossPercentage)
      else checks in
    let checks :=
      if Js.geb tradesCount (maxTradesPerDay (config rm) * 0.8)
      then pushWarning checks
             (ApproachingDailyTradeLimit tradesCount (maxTradesPerDay (config rm)))
      else checks in
    checks.

Definition withDailyStats (rm : t) (ds : DailyStats) : t :=
  {| config := config rm; dailyStats := ds; riskLimits := riskLimits rm |}.

(** [updateDailyStats(trade)]; only [trade.pnl] is read. *)
Definition updateDailyStats (rm : t) (pnl : Q) : t :=
  let ds := dailyStats rm in
  (* this.dailyStats.totalPnL += trade.pnl; this.dailyStats.tradesCount += 1 *)
  let totalPnL1 := totalPnL ds + pnl in
  let tradesCount1 := S (tradesCount ds) in
  (* Track consecutive losses *)
  let consecutiveLosses1 :=
    if Js.ltb pnl 0 then S (consecutiveLosses ds) else 0%nat in
  (* Update max drawdown *)
  let maxDrawdown1 :=
    if Js.ltb totalPnL1 (maxDrawdown ds) then totalPnL1 else maxDrawdown ds in
  withDailyStats rm
    {| totalPnL := totalPnL1; tradesCount := tradesCount1;
       consecutiveLosses := consecutiveLosses1; maxDrawdown := maxDrawdown1;
       startingCapital := startingCapital ds |}.

(** [shouldTriggerEmergencyStop()] *)
Definition shouldTriggerEmergencyStop (rm : t) : bool :=
  let currentLoss := Qabs (totalPnL (dailyStats rm)) in
  Js.geb currentLoss (emergencyStopLimit (riskLimits rm)).

(** [resetDailyStats()]: the three statements in the order of the source.
    The object literal is evaluated before [this.dailyStats] is assigned, so
    its [startingCapital] reads the day's closing [totalPnL]. *)
Definition resetDailyStats (rm : t) : t :=
  let dailyStats1 :=
    {| totalPnL := 0; tradesCount := 0; consecutiveLosses := 0;
       maxDrawdown := 0;
       startingCapital := initialCapital (config rm) + totalPnL (dailyStats rm) |} in
  (* Update capital for new day *)
  let config1 :=
    {| maxDailyLossPercent := maxDailyLossPercent (config rm);
       maxTradesPerDay := maxTradesPerDay (config rm);
       maxPositionSizePercent := maxPositionSizePercent (config rm);
       initialCapital := startingCapital dailyStats1;
       emergencyStopLossPercent := emergencyStopLossPercent (config rm);
       maxConsecutiveLosses := maxConsecutiveLosses (config rm) |} in
  let riskLimits1 :=
    {| dailyLossLimit :=
         initialCapital config1 * maxDailyLossPercent config1 / 100;
       emergencyStopLimit :=
         initialCapital config1 * emergencyStopLossPercent config1 / 100 |} in
  {| config := config1; dailyStats := dailyStats1; riskLimits := riskLimits1 |}.

(** The four blocking conditions of [checkDailyLimits], as propositions. *)
Definition dailyLossHit (rm : t) (currentPnL : Q) : Prop :=
  dailyLossLimit (riskLimits rm) <= Qabs currentPnL.
Definition emergencyStopHit (rm : t) (currentPnL : Q) : Prop :=
  emergencyStopLimit (riskLimits rm) <= Qabs currentPnL.
Definition tradeCapHit (rm : t) (tradesCount : Q) : Prop :=
  maxTradesPerDay (config rm) <= tradesCount.
Definition lossStreakHit (rm : t) : Prop :=
  maxConsecutiveLosses (config rm) <= Js.ofNat (consecutiveLosses (dailyStats rm)).

(** Options that put the emergency stop (2%) below the daily loss limit
    (5%). *)
Definition emergencyFirst : Options :=
  {| opt_maxDailyLossPercent := Some 5; opt_maxTradesPerDay := None;
     opt_maxPositionSizePercent := None; opt_initialCapital := None;
     opt_emergencyStopLossPercent := Some 2; opt_maxConsecutiveLosses := None |}.

(** The default manager after three losing trades of 10 each. *)
Definition afterThreeLosses : t :=
  updateDailyStats (updateDailyStats (updateDailyStats (new noOptions) (-10)) (-10)) (-10).

(** The two records of the capital agree. *)
Definition capitalInSync (rm : t) : Prop :=
  startingCapital (dailyStats rm) = initialCapital (config rm).

(** What a blocked verdict looks like: no warning is attached. *)
Definition verdictBlocked (r : Reason) : Checks :=
  {| canTrade := false; reason := r; warnings := [] |}.

(** *** The other methods of the class *)

(** [calculatePositionSize(entryPrice, stopLossPrice, riskAmount)].  The
    two divisions are by [riskPerShare] and by [entryPrice]; where one of
    them is 0 the source leaves the rationals. *)
Definition calculatePositionSize (rm : t) (entryPrice stopLossPrice riskAmount : Q)
    : Q :=
  let riskPerShare := Qabs (entryPrice - stopLossPrice) in
  let maxShares := Js.floor (riskAmount / riskPerShare) in
  (* Ensure position doesn't exceed maximum position size *)
  let maxPositionValue :=
    initialCapital (config rm) * maxPositionSizePercent (config rm) / 100 in
  let maxSharesByValue := Js.floor (maxPositionValue / entryPrice) in
  Qmin maxShares maxSharesByValue.










(** *** A day of trades *)

(** [updateDailyStats] called for each trade of the list, in order. *)
Definition recordAll (rm : t) (pnls : list Q) : t := foldl updateDailyStats rm pnls.

(** The cumulative profit and loss after each trade of the list, from
    [start]. *)
Fixpoint runningTotals (start : Q) (pnls : list Q) : list Q :=
  match pnls with
  | [] => []
  | p :: pnls' => (start + p) :: runningTotals (start + p) pnls'
  end.

(** The sum of the trades' results. *)
Definition sumPnL (pnls : list Q) : Q := foldr Qplus 0 pnls.

(** The length of the run of losses a list starts with, and of the run
    the day's trades end with. *)
Fixpoint leadingLosses (pnls : list Q) : nat :=
  match pnls with
  | [] => 0
  | p :: pnls' => if Js.ltb p 0 then S (leadingLosses pnls') else 0
  end.

Definition losingRun (pnls : list Q) : nat := leadingLosses (reverse pnls).

(** The counters of the day are at their start. *)
Definition startOfDay (rm : t) : Prop :=
  totalPnL (dailyStats rm) = 0 /\ tradesCount (dailyStats rm) = 0%nat
  /\ consecutiveLosses (dailyStats rm) = 0%nat /\ maxDrawdown (dailyStats rm) = 0.

End RiskManager.

(** ** OrderManager.js, class OrderManager *)

Module OrderManager.
Local Open Scope Q_scope.

(** The [orderParams] object.  A string field that is absent or empty is
    [EmptyString] (both are falsy); an absent number is [None]. *)
Record OrderParams := {
  symbol : string;
  exchange : string;
  transaction_type : string;
  quantity : Q;
  order_type : string;
  product : string;
  validity : string;
  price : option Q;
  trigger_price : option Q
}.

Inductive ValidationError :=
| MissingRequiredField (field : string)
| QuantityMustBeGreaterThanZero
| PriceRequiredForLimitOrders
| TriggerPriceRequiredForStopLossOrders.

(** [error.message] of what [placeOrder] catches. *)
Inductive ErrorMessage :=
| OrderValidationFailed (errors : list ValidationError)
| NoOrderIdReceived
| VenueError (message : string).

(** What [this.kite.placeOrder('regular', orderParams)] does: it throws, or
    resolves to a response whose [order_id] may be missing. *)
Inductive VenueReply :=
| Throws (message : string)
| Responds (order_id : option string).

(** The venue collaborator: how it answers its [n]-th submission (counted
    from 0), and how many submissions it has received. *)
Record Kite := {
  answer : nat -> OrderParams -> VenueReply;
  submissions : nat
}.

Record Config := {
  retryAttempts : nat;
  retryDelay : Z;
  orderTimeout : Z
}.

Inductive OrderStatus := PENDING | COMPLETE | CANCELLED | REJECTED.

(** An entry of [activeOrders] and [orderHistory]. *)
Record Order := {
  orderId : string;
  params : OrderParams;
  status : OrderStatus;
  placedAt : Z;
  attempts : nat
}.

Record t := {
  kite : Kite;
  config : Config;
  activeOrders : gmap string Order;
  orderHistory : list Order
}.

(** [constructor(kiteConnect, config = {})] with the default retry policy. *)
Definition new (k : Kite) (retries : option nat) : t :=
  {| kite := k;
     config := {| retryAttempts := default 3%nat retries;
                  retryDelay := 1000; orderTimeout := 30000 |};
     activeOrders := ∅;
     orderHistory := [] |}.

Definition truthy (s : string) : bool :=
  match s with EmptyString => false | _ => true end.

(** [x && x > 0] on an optional number. *)
Definition isPositive (x : option Q) : bool :=
  match x with
  | None => false
  | Some v => negb (Qeq_bool v 0) && negb (Js.leb v 0)
  end.

(** [validateOrderParams(params)]: the errors it collects, in order. *)
Definition validateOrderParams (p : OrderParams) : list ValidationError :=
  let missing (field value : string) :=
    if truthy value then [] else [MissingRequiredField field] in
  (* Required fields *)
  missing "symbol"%string (symbol p)
  ++ missing "exchange"%string (exchange p)
  ++ missing "transaction_type"%string (transaction_type p)
  ++ (if Qeq_bool (quantity p) 0
      then [MissingRequiredField "quantity"%string] else [])
  ++ missing "order_type"%string (order_type p)
  ++ missing "product"%string (product p)
  (* Validate quantity *)
  ++ (if negb (Qeq_bool (quantity p) 0) && Js.leb (quantity p) 0
      then [QuantityMustBeGreaterThanZero] else [])
  (* Validate price for limit orders *)
  ++ (if String.eqb (order_type p) "LIMIT" && negb (isPositive (price p))
      then [PriceRequiredForLimitOrders] else [])
  (* Validate trigger price for stop loss orders *)
  ++ (if String.eqb (order_type p) "SL" && negb (isPositive (trigger_price p))
      then [TriggerPriceRequiredForStopLossOrders] else []).

Definition isValid (p : OrderParams) : bool :=
  match validateOrderParams p with [] => true | _ => false end.

(** One call of the venue: its answer, and the venue one submission on. *)
Definition submit (k : Kite) (p : OrderParams) : VenueReply * Kite :=
  (answer k (submissions k) p,
   {| answer := answer k; submissions := S (submissions k) |}).

(** The [try] block of [placeOrder]: the order id it returns, or the
    message of the error it throws; with the order manager afterwards.
    (The status polling started by [monitorOrder] runs in later turns of
    the event loop and is not part of the call.) *)
Definition tryPlaceOrder (om : t) (orderParams : OrderParams) (now : Z)
    (retryCount : nat) : (ErrorMessage + string) * t :=
  (* Validate order parameters *)
  match validateOrderParams orderParams with
  | (_ :: _) as errors => (inl (OrderValidationFailed errors), om)
  | [] =>
    (* Place order via Kite API *)
    let '(reply, kite1) := submit (kite om) orderParams in
    let om1 := {| kite := kite1; config := config om;
                  activeOrders := activeOrders om;
                  orderHistory := orderHistory om |} in
    match reply with
    | Throws message => (inl (VenueError message), om1)
    | Responds None => (inl NoOrderIdReceived, om1)
    | Responds (Some order_id) =>
      match truthy order_id with
      | false => (inl NoOrderIdReceived, om1)
      | true =>
        let order := {| orderId := order_id; params := orderParams;
                        status := PENDING; placedAt := now;
                        attempts := retryCount + 1 |} in
        (inr order_id,
         {| kite := kite1; config := config om;
            activeOrders := <[order_id := order]> (activeOrders om);
            orderHistory := orderHistory om ++ [order] |})
      end
    end
  end.

(** The object [placeOrder] resolves to. *)
Inductive PlaceOrderResult :=
| Placed (order_id : string)
| NotPlaced (error : ErrorMessage) (attempts : nat).

Definition success (r : PlaceOrderResult) : bool :=
  match r with Placed _ => true | NotPlaced _ _ => false end.

(** [result.attempts] ([undefined] on success). *)
Definition resultAttempts (r : PlaceOrderResult) : option nat :=
  match r with Placed _ => None | NotPlaced _ n => Some n end.

Lemma tryPlaceOrder_config om p now retryCount :
  config (tryPlaceOrder om p now retryCount).2 = config om.
Proof.
  unfold tryPlaceOrder, submit.
  destruct (validateOrderParams p); [|reflexivity].
  destruct (answer _ _ _) as [|[oid|]]; try reflexivity.
  destruct (truthy oid); reflexivity.
Defined.

(** [async placeOrder(orderParams, retryCount = 0)].  Each retry comes
    [retryDelay] milliseconds later. *)
Equations? placeOrder (om : t) (orderParams : OrderParams) (now : Z)
    (retryCount : nat) : PlaceOrderResult * t
    by wf (retryAttempts (config om) - retryCount)%nat lt :=
placeOrder om orderParams now retryCount
  with inspect (tryPlaceOrder om orderParams now retryCount) := {
  | exist _ (inr order_id, om1) _ => (Placed order_id, om1)
  | exist _ (inl error, om1) Htry
      with inspect (retryCount <? retryAttempts (config om))%nat := {
      (* Retry logic *)
      | exist _ true Hlt =>
          placeOrder om1 orderParams (now + retryDelay (config om)) (S retryCount)
      | exist _ false _ => (NotPlaced error (retryCount + 1), om1) } }.
Proof.
  pose proof (tryPlaceOrder_config om orderParams now retryCount) as Hc.
  rewrite Htry in Hc. simpl in Hc. rewrite Hc.
  apply Nat.ltb_lt in Hlt. lia.
Defined.

(** *** Venues *)

(** A reply from which [placeOrder] gets no order id. *)
Definition noOrderId (r : VenueReply) : bool :=
  match r with
  | Throws _ => true
  | Responds None => true
  | Responds (Some order_id) => negb (truthy order_id)
  end.

(** A venue on which every submission fails. *)
Definition refusesEverything (k : Kite) : Prop :=
  forall n p, noOrderId (answer k n p) = true.

(** How many times one attempt contacts the venue: validation comes
    first, and a rejected order is never submitted. *)
Definition contacts (p : OrderParams) : nat := if isValid p then 1 else 0.

(** The venue is down: every call throws. *)
Definition venueDown : Kite :=
  {| answer := fun _ _ => Throws "Network error"; submissions := 0 |}.

(** The venue accepts every order under the same id. *)
Definition venueUp : Kite :=
  {| answer := fun _ _ => Responds (Some "240101000000001"%string);
     submissions := 0 |}.

(** A market order for 20 units. *)
Definition marketBuy : OrderParams :=
  {| symbol := "NIFTY"; exchange := "NSE"; transaction_type := "BUY";
     quantity := 20; order_type := "MARKET"; product := "MIS";
     validity := "DAY"; price := None; trigger_price := None |}.

(** *** Reading the books *)

(** [getOrderHistory(limit = 50)]: [this.orderHistory.slice(-limit)]. *)
Definition getOrderHistory (om : t) (limit : nat) : list Order :=
  match limit with
  | O => orderHistory om
  | _ => drop (length (orderHistory om) - limit) (orderHistory om)
  end.

(** The order manager one failed submission later. *)
Definition afterFailedSubmission (om : t) : t :=
  {| kite := {| answer := answer (kite om); submissions := S (submissions (kite om)) |};
     config := config om;
     activeOrders := activeOrders om;
     orderHistory := orderHistory om |}.

(** The order [placeOrder] registers. *)
Definition registered (order_id : string) (p : OrderParams) (at_ : Z) (n : nat) : Order :=
  {| orderId := order_id; params := p; status := PENDING; placedAt := at_;
     attempts := n |}.

(** The venue fails the next [n] submissions of [p] and then answers with
    the order id [order_id]. *)
Definition recoversAfter (k : Kite) (p : OrderParams) (n : nat)
    (order_id : string) : Prop :=
  (forall i, (i < n)%nat -> noOrderId (answer k (submissions k + i)%nat p) = true)
  /\ answer k (submissions k + n)%nat p = Responds (Some order_id)
  /\ truthy order_id = true.

(** The venue fails twice, then accepts. *)
Definition venueFlaky : Kite :=
  {| answer := fun n _ =>
       if (n <? 2)%nat then Throws "Gateway timeout"
       else Responds (Some "240101000000002"%string);
     submissions := 0 |}.

(** A market order with no quantity. *)
Definition emptyOrder : OrderParams :=
  {| symbol := "NIFTY"; exchange := "NSE"; transaction_type := "BUY";
     quantity := 0; order_type := "MARKET"; product := "MIS";
     validity := "DAY"; price := None; trigger_price := None |}.

End OrderManager.

(** ** TradingStrategy.js, class TradingStrategy *)

Module TradingStrategy.
Local Open Scope Q_scope.

(** ['HH:MM'.split(':').map(Number)] *)
Record TimeOfDay := { hours : Z; minutes : Z }.

(** [this.config] *)
Record Config := {
  initialCapital : Q;
  positionSizePercent : Q;
  initialProfitTarget : Q;
  initialStopLoss : Q;
  followUpProfitTarget : Q;
  followUpStopLoss : Q;
  followUpSizeReduction : Q;
  maxTradesPerDay : Q;
  maxDailyLossPercent : Q;
  tradingStartTime : TimeOfDay;
  tradingEndTime : TimeOfDay;
  instrument : string;
  exchange : string
}.

(** The configuration of [new TradingStrategy()]. *)
Definition defaultConfig : Config :=
  {| initialCapital := 100000;
     positionSizePercent := 2;
     initialProfitTarget := 0.75;
     initialStopLoss := 0.35;
     followUpProfitTarget := 0.35;
     followUpStopLoss := 0.15;
     followUpSizeReduction := 0.5;
     maxTradesPerDay := 5;
     maxDailyLossPercent := 2;
     tradingStartTime := {| hours := 10; minutes := 0 |};
     tradingEndTime := {| hours := 15; minutes := 15 |};
     instrument := "NIFTY";
     exchange := "NSE" |}.

(** [this.state.currentPosition] *)
Record Position := {
  orderId : string;
  entryPrice : Q;
  quantity : Q;
  direction : string;
  targetPrice : Q;
  stopLossPrice : Q;
  entryTime : Z;
  isFollowUp : bool
}.

Inductive ExitReason := TARGET_HIT | STOP_LOSS_HIT.

(** An entry of [this.state.dailyTrades]: [{...position, exitTime,
    exitReason, pnl}]. *)
Record Trade := {
  position : Position;
  exitTime : Z;
  exitReason : ExitReason;
  pnl : Q
}.

(** [this.state]; [nextPositionSizeMultiplier] is absent until the first
    exit. *)
Record State := {
  currentPosition : option Position;
  dailyTrades : list Trade;
  dailyPnL : Q;
  state_isMarketHours : bool;
  lastTradeTime : option Z;
  waitingForCandle : bool;
  candleEndTime : option Z;
  nextPositionSizeMultiplier : option Q
}.

Record t := { config : Config; state : State }.

(** [constructor(config)] *)
Definition new (c : Config) : t :=
  {| config := c;
     state := {| currentPosition := None; dailyTrades := []; dailyPnL := 0;
                 state_isMarketHours := false; lastTradeTime := None;
                 waitingForCandle := false; candleEndTime := None;
                 nextPositionSizeMultiplier := None |} |}.

(** The [marketData] argument; only [ltp] and [open] are read. *)
Record MarketData := { ltp : Q; open : Q }.

Inductive SignalReason := PriceAboveOpening | PriceBelowOpening.

Record Signal := {
  shouldEnter : bool;
  signal_direction : string;
  signal_entryPrice : Q;
  signal_reason : SignalReason
}.

Inductive NoActionReason :=
| OutsideTradingHours
| RiskLimit (r : RiskManager.Reason)
| NoEntrySignal.

(** The objects [execute] resolves to, by their [action]. *)
Module Action.
Inductive t :=
| NO_ACTION (reason : NoActionReason)
| WAITING
| POSITION_ENTERED (position : Position) (reason : SignalReason)
| TARGET_HIT (trade : Position) (waitingUntil : Z)
| STOP_LOSS_HIT (trade : Position) (waitingUntil : Z)
| MONITORING (position : Position)
| ERROR (message : string).
End Action.

(** *** Dates *)

Definition msPerMinute : Z := 60000.
Definition msPerHour : Z := 3600000.
Definition msPerDay : Z := 86400000.

Definition startOfDay (d : Z) : Z := (d - d mod msPerDay)%Z.
Definition getHours (d : Z) : Z := ((d mod msPerDay) / msPerHour)%Z.
Definition getMinutes (d : Z) : Z := ((d mod msPerHour) / msPerMinute)%Z.

(** [parseTime(timeString)]: today at [hours:minutes:00.000]. *)
Definition parseTime (now : Z) (time : TimeOfDay) : Z :=
  (startOfDay now + hours time * msPerHour + minutes time * msPerMinute)%Z.

(** [isMarketHours()] *)
Definition isMarketHours (s : t) (now : Z) : bool :=
  let startTime := parseTime now (tradingStartTime (config s)) in
  let endTime := parseTime now (tradingEndTime (config s)) in
  (startTime <=? now)%Z && (now <=? endTime)%Z.

(** [isCandleComplete()]; a [null] end time compares as 0. *)
Definition isCandleComplete (s : t) (now : Z) : bool :=
  (default 0%Z (candleEndTime (state s)) <=? now)%Z.

(** [getNextCandleEndTime()]: the next top of the hour. *)
Definition getNextCandleEndTime (now : Z) : Z :=
  (startOfDay now + (getHours now + 1) * msPerHour)%Z.

(** *** State updates *)

Definition setState (s : t) (st : State) : t :=
  {| config := config s; state := st |}.

Definition set_currentPosition (st : State) (p : option Position) : State :=
  {| currentPosition := p; dailyTrades := dailyTrades st;
     dailyPnL := dailyPnL st; state_isMarketHours := state_isMarketHours st;
     lastTradeTime := lastTradeTime st; waitingForCandle := waitingForCandle st;
     candleEndTime := candleEndTime st;
     nextPositionSizeMultiplier := nextPositionSizeMultiplier st |}.

Definition set_waitingForCandle (st : State) (b : bool) : State :=
  {| currentPosition := currentPosition st; dailyTrades := dailyTrades st;
     dailyPnL := dailyPnL st; state_isMarketHours := state_isMarketHours st;
     lastTradeTime := lastTradeTime st; waitingForCandle := b;
     candleEndTime := candleEndTime st;
     nextPositionSizeMultiplier := nextPositionSizeMultiplier st |}.

Definition set_candleEndTime (st : State) (d : Z) : State :=
  {| currentPosition := currentPosition st; dailyTrades := dailyTrades st;
     dailyPnL := dailyPnL st; state_isMarketHours := state_isMarketHours st;
     lastTradeTime := lastTradeTime st; waitingForCandle := waitingForCandle st;
     candleEndTime := Some d;
     nextPositionSizeMultiplier := nextPositionSizeMultiplier st |}.

Definition set_nextPositionSizeMultiplier (st : State) (m : Q) : State :=
  {| currentPosition := currentPosition st; dailyTrades := dailyTrades st;
     dailyPnL := dailyPnL st; state_isMarketHours := state_isMarketHours st;
     lastTradeTime := lastTradeTime st; waitingForCandle := waitingForCandle st;
     candleEndTime := candleEndTime st;
     nextPositionSizeMultiplier := Some m |}.

(** *** Methods *)

(** [this.state.currentPosition] as a condition: [null] is falsy. *)
Definition truthy (p : option Position) : bool :=
  match p with Some _ => true | None => false end.

(** [calculatePositionSize()]; the divisor 100 is the source's assumed
    price per unit. *)
Definition calculatePositionSize (s : t) : Q :=
  let baseSize :=
    Js.floor
      ((initialCapital (config s) * positionSizePercent (config s) / 100) / 100) in
  let multiplier :=
    match nextPositionSizeMultiplier (state s) with
    | Some m => Js.orElse m 1
    | None => 1
    end in
  Js.floor (baseSize * multiplier).

(** [position.exitReason]: a position object has no such property. *)
Definition position_exitReason (p : Position) : option ExitReason := None.

(** [calculatePnL(position)] *)
Definition calculatePnL (s : t) (p : Position) : Q :=
  let targetHit :=
    match position_exitReason p with Some TARGET_HIT => true | _ => false end in
  let profitPercent :=
    if targetHit
    then (if isFollowUp p then followUpProfitTarget (config s)
          else initialProfitTarget (config s))
    else - (if isFollowUp p then followUpStopLoss (config s)
            else initialStopLoss (config s)) in
  entryPrice p * quantity p * profitPercent / 100.

(** [recordTrade(position, exitReason)] *)
Definition recordTrade (s : t) (p : Position) (reason : ExitReason) (now : Z)
    : Trade * t :=
  let trade := {| position := p; exitTime := now; exitReason := reason;
                  pnl := calculatePnL s p |} in
  let st := state s in
  (trade,
   setState s
     {| currentPosition := None;
        dailyTrades := dailyTrades st ++ [trade];
        dailyPnL := dailyPnL st + pnl trade;
        state_isMarketHours := state_isMarketHours st;
        lastTradeTime := lastTradeTime st;
        waitingForCandle := waitingForCandle st;
        candleEndTime := candleEndTime st;
        nextPositionSizeMultiplier := nextPositionSizeMultiplier st |}).

(** [handleTargetHit(orderManager)], called with the open position. *)
Definition handleTargetHit (s : t) (p : Position) (now : Z) : Action.t * t :=
  (* Close current position: closePosition has an empty body *)
  (* Record the trade *)
  let s1 := (recordTrade s p TARGET_HIT now).2 in
  (* Wait for candle completion before next trade *)
  let st := set_waitingForCandle (state s1) true in
  let st := set_candleEndTime st (getNextCandleEndTime now) in
  (* Reduce position size for next trade *)
  let st := set_nextPositionSizeMultiplier st (followUpSizeReduction (config s)) in
  (Action.TARGET_HIT p (getNextCandleEndTime now), setState s1 st).

(** [handleStopLossHit(orderManager)] *)
Definition handleStopLossHit (s : t) (p : Position) (now : Z) : Action.t * t :=
  let s1 := (recordTrade s p STOP_LOSS_HIT now).2 in
  (* Wait for candle completion before re-entry *)
  let st := set_waitingForCandle (state s1) true in
  let st := set_candleEndTime st (getNextCandleEndTime now) in
  (* Reset position size multiplier for re-entry *)
  let st := set_nextPositionSizeMultiplier st 1 in
  (Action.STOP_LOSS_HIT p (getNextCandleEndTime now), setState s1 st).

(** [manageExistingPosition(marketData, orderManager)] *)
Definition manageExistingPosition (s : t) (p : Position) (marketData : MarketData)
    (now : Z) : Action.t * t :=
  let currentPrice := ltp marketData in
  if String.eqb (direction p) "BUY" then
    if Js.geb currentPrice (targetPrice p) then handleTargetHit s p now
    else if Js.leb currentPrice (stopLossPrice p) then handleStopLossHit s p now
    else (Action.MONITORING p, s)
  else (Action.MONITORING p, s).

(** [generateEntrySignal(marketData)] *)
Definition generateEntrySignal (marketData : MarketData) : Signal :=
  let currentPrice := ltp marketData in
  let openPrice := open marketData in
  let shouldEnter := Js.gtb currentPrice openPrice in
  {| shouldEnter := shouldEnter;
     signal_direction := "BUY";
     signal_entryPrice := currentPrice;
     signal_reason := if shouldEnter then PriceAboveOpening else PriceBelowOpening |}.

(** [enterPosition(signal, orderManager)].  [None] is the [undefined] the
    method returns when the order was not placed; the order manager
    catches its own errors and [placeExitOrders] has an empty body, so the
    [catch] branch is never taken. *)
Definition enterPosition (s : t) (signal : Signal) (om : OrderManager.t)
    (now : Z) : option Action.t * t * OrderManager.t :=
  let positionSize := calculatePositionSize s in
  let entryPrice := signal_entryPrice signal in
  (* Calculate targets and stop loss *)
  let profitTarget :=
    if truthy (currentPosition (state s)) then followUpProfitTarget (config s)
    else initialProfitTarget (config s) in
  let stopLossPercent :=
    if truthy (currentPosition (state s)) then followUpStopLoss (config s)
    else initialStopLoss (config s) in
  let targetPrice := entryPrice * (1 + profitTarget / 100) in
  let stopLossPrice := entryPrice * (1 - stopLossPercent / 100) in
  let order :=
    {| OrderManager.symbol := instrument (config s);
       OrderManager.exchange := exchange (config s);
       OrderManager.transaction_type := signal_direction signal;
       OrderManager.quantity := positionSize;
       OrderManager.order_type := "MARKET";
       OrderManager.product := "MIS";
       OrderManager.validity := "DAY";
       OrderManager.price := None;
       OrderManager.trigger_price := None |} in
  let '(orderResult, om1) := OrderManager.placeOrder om order now 0 in
  match orderResult with
  | OrderManager.Placed order_id =>
    let position :=
      {| orderId := order_id;
         entryPrice := entryPrice;
         quantity := positionSize;
         direction := signal_direction signal;
         targetPrice := targetPrice;
         stopLossPrice := stopLossPrice;
         entryTime := now;
         isFollowUp := truthy (currentPosition (state s)) |} in
    (Some (Action.POSITION_ENTERED position (signal_reason signal)),
     setState s (set_currentPosition (state s) (Some position)), om1)
  | OrderManager.NotPlaced _ _ => (None, s, om1)
  end.

(** [lookForEntry(marketData, orderManager)] *)
Definition lookForEntry (s : t) (marketData : MarketData) (om : OrderManager.t)
    (now : Z) : option Action.t * t * OrderManager.t :=
  let startTime := parseTime now (tradingStartTime (config s)) in
  (* Only enter at 10:00 AM or after stop loss re-entry *)
  if (getHours now =? getHours startTime)%Z
     && (getMinutes now =? getMinutes startTime)%Z then
    let signal := generateEntrySignal marketData in
    if shouldEnter signal then enterPosition s signal om now
    else (Some (Action.NO_ACTION NoEntrySignal), s, om)
  else (Some (Action.NO_ACTION NoEntrySignal), s, om).

(** The last statement of [execute], "Check current position status":
    manage the open position, or look for an entry. *)
Definition checkPosition (s : t) (marketData : MarketData) (om : OrderManager.t)
    (now : Z) : option Action.t * t * OrderManager.t :=
  match currentPosition (state s) with
  | Some p =>
    let '(action, s1) := manageExistingPosition s p marketData now in
    (Some action, s1, om)
  | None => lookForEntry s marketData om now
  end.

(** [execute(marketData, orderManager, riskManager)], one scheduler tick
    at time [now].  No statement of the [try] block throws in the model,
    so the [catch] branch (the ERROR action) is not taken. *)
Definition execute (s : t) (marketData : MarketData) (om : OrderManager.t)
    (rm : RiskManager.t) (now : Z) : option Action.t * t * OrderManager.t :=
  (* Check if we're in trading hours *)
  if negb (isMarketHours s now) then
    (Some (Action.NO_ACTION OutsideTradingHours), s, om)
  else
    (* Check daily risk limits *)
    let riskCheck :=
      RiskManager.checkDailyLimits rm (dailyPnL (state s))
        (Js.ofNat (length (dailyTrades (state s)))) in
    if negb (RiskManager.canTrade riskCheck) then
      (Some (Action.NO_ACTION (RiskLimit (RiskManager.reason riskCheck))), s, om)
    else
      (* If waiting for candle completion, check if we can proceed *)
      if waitingForCandle (state s) then
        if negb (isCandleComplete s now) then (Some Action.WAITING, s, om)
        else
          checkPosition (setState s (set_waitingForCandle (state s) false))
            marketData om now
      else checkPosition s marketData om now.

(** The position [enterPosition] opens for a signal. *)
Definition openedPosition (s : t) (signal : Signal) (order_id : string)
    (now : Z) : Position :=
  let follow := truthy (currentPosition (state s)) in
  {| orderId := order_id;
     entryPrice := signal_entryPrice signal;
     quantity := calculatePositionSize s;
     direction := signal_direction signal;
     targetPrice :=
       signal_entryPrice signal
       * (1 + (if follow then followUpProfitTarget (config s)
               else initialProfitTarget (config s)) / 100);
     stopLossPrice :=
       signal_entryPrice signal
       * (1 - (if follow then followUpStopLoss (config s)
               else initialStopLoss (config s)) / 100);
     entryTime := now;
     isFollowUp := follow |}.

(** *** The sizing rule as the design states it *)

(** floor((startingCapital * positionSizePercent/100) / unitPrice) *
    sizeMultiplier. *)
Definition statedPositionSize (capital percent unitPrice multiplier : Q) : Q :=
  Js.floor ((capital * percent / 100) / unitPrice) * multiplier.

(** *** The trading window *)

(** [now] is inside the window, its two ends included. *)
Definition withinTradingHours (s : t) (now : Z) : Prop :=
  (parseTime now (tradingStartTime (config s)) <= now
   /\ now <= parseTime now (tradingEndTime (config s)))%Z.

(** [now] is inside the window and at neither end. *)
Definition strictlyInsideTradingHours (s : t) (now : Z) : Prop :=
  (parseTime now (tradingStartTime (config s)) < now
   /\ now < parseTime now (tradingEndTime (config s)))%Z.

(** *** Sizing, read off the state *)

(** [floor((initialCapital * positionSizePercent / 100) / 100)] *)
Definition baseSize (s : t) : Q :=
  Js.floor ((initialCapital (config s) * positionSizePercent (config s) / 100) / 100).

(** The reason of the latest exit of the day, if any. *)
Definition lastExit (s : t) : option ExitReason :=
  exitReason <$> last (dailyTrades (state s)).




(** The strategies a scheduler can hold: a fresh one, ticked any number of
    times with any quotes, order manager and risk manager. *)
Inductive reachable : t -> Prop :=
| reachable_new c : reachable (new c)
| reachable_tick s marketData om rm now :
    reachable s -> reachable (execute s marketData om rm now).1.2.

(** *** A run over two days *)

Definition at_ (day h m sec : Z) : Z :=
  (day * msPerDay + h * msPerHour + m * msPerMinute + sec * 1000)%Z.

Definition quote (ltp open : Q) : MarketData := {| ltp := ltp; open := open |}.

Definition omUp : OrderManager.t := OrderManager.new OrderManager.venueUp None.
Definition omDown : OrderManager.t :=
  OrderManager.new OrderManager.venueDown (Some 3%nat).
Definition rmDefault : RiskManager.t := RiskManager.new RiskManager.noOptions.

(** Day 0, 10:00:00: the price is above the open, the strategy enters. *)
Definition firstEntry : option Action.t * t * OrderManager.t :=
  execute (new defaultConfig) (quote 101 100) omUp rmDefault (at_ 0 10 0 0).

(** Day 0, 10:00:30: the price has passed the target, the strategy exits. *)
Definition targetExit : option Action.t * t * OrderManager.t :=
  execute firstEntry.1.2 (quote 102 100) firstEntry.2 rmDefault (at_ 0 10 0 30).

(** Day 1, 10:00:00: the entry that follows the profit-target exit. *)
Definition entryAfterTarget : option Action.t * t * OrderManager.t :=
  execute targetExit.1.2 (quote 101 100) targetExit.2 rmDefault (at_ 1 10 0 0).

(** Day 0, 10:00:30 on another path: the price has fallen to the stop. *)
Definition stopExit : option Action.t * t * OrderManager.t :=
  execute firstEntry.1.2 (quote 100 100) firstEntry.2 rmDefault (at_ 0 10 0 30).

(** Day 1, 10:00:00: the re-entry that follows the stop-loss exit. *)
Definition entryAfterStop : option Action.t * t * OrderManager.t :=
  execute stopExit.1.2 (quote 101 100) stopExit.2 rmDefault (at_ 1 10 0 0).





(** The position an action reports as entered. *)
Definition entered (a : option Action.t) : option Position :=
  match a with
  | Some (Action.POSITION_ENTERED p _) => Some p
  | _ => None
  end.

(** *** Exits and the ledger *)

(** The trade [recordTrade] writes for a position. *)
Definition tradeOf (s : t) (p : Position) (reason : ExitReason) (now : Z) : Trade :=
  {| position := p; exitTime := now; exitReason := reason; pnl := calculatePnL s p |}.

(** What an exit leaves behind: no position, one more trade, a wait until
    the next top of the hour, and the multiplier for the next entry. *)
Definition closedBy (s s' : t) (p : Position) (reason : ExitReason) (now : Z)
    (multiplier : Q) : Prop :=
  currentPosition (state s') = None
  /\ dailyTrades (state s') = dailyTrades (state s) ++ [tradeOf s p reason now]
  /\ dailyPnL (state s') = dailyPnL (state s) + calculatePnL s p
  /\ waitingForCandle (state s') = true
  /\ candleEndTime (state s') = Some (getNextCandleEndTime now)
  /\ nextPositionSizeMultiplier (state s') = Some multiplier
  /\ config s' = config s.

(** The sum of the results of the day's trades. *)
Definition sumTradePnL (trades : list Trade) : Q := foldr Qplus 0 (pnl <$> trades).

(** The daily result is the sum of the recorded trades. *)
Definition ledgerBalanced (s : t) : Prop :=
  (dailyPnL (state s) == sumTradePnL (dailyTrades (state s))).

(** The percentage [calculatePnL] books for a position. *)
Definition bookedLossPercent (s : t) (p : Position) : Q :=
  if isFollowUp p then followUpStopLoss (config s) else initialStopLoss (config s).

(** The risk manager lets the strategy trade. *)
Definition riskAllows (s : t) (rm : RiskManager.t) : Prop :=
  RiskManager.canTrade
    (RiskManager.checkDailyLimits rm (dailyPnL (state s))
       (Js.ofNat (length (dailyTrades (state s))))) = true.

(** The start time is a time of day. *)
Definition startIsTimeOfDay (c : Config) : Prop :=
  (0 <= hours (tradingStartTime c) <= 23
   /\ 0 <= minutes (tradingStartTime c) <= 59)%Z.

(** The strategies a scheduler whose clock never runs backwards can hold
    after a tick at time [last]. *)
Inductive reachedAt : Z -> t -> Prop :=
| reachedAt_new c now : reachedAt now (new c)
| reachedAt_tick s last marketData om rm now :
    reachedAt last s -> (last <= now)%Z ->
    reachedAt now (execute s marketData om rm now).1.2.

(** The calendar day of a date. *)
Definition dayOf (d : Z) : Z := (d / msPerDay)%Z.

(** A configuration whose position size is 0: 2% of 4000 buys no unit at
    100. *)
Definition config4000 : Config :=
  {| initialCapital := 4000;
     positionSizePercent := positionSizePercent defaultConfig;
     initialProfitTarget := initialProfitTarget defaultConfig;
     initialStopLoss := initialStopLoss defaultConfig;
     followUpProfitTarget := followUpProfitTarget defaultConfig;
     followUpStopLoss := followUpStopLoss defaultConfig;
     followUpSizeReduction := followUpSizeReduction defaultConfig;
     maxTradesPerDay := maxTradesPerDay defaultConfig;
     maxDailyLossPercent := maxDailyLossPercent defaultConfig;
     tradingStartTime := tradingStartTime defaultConfig;
     tradingEndTime := tradingEndTime defaultConfig;
     instrument := instrument defaultConfig;
     exchange := exchange defaultConfig |}.

(** Arithmetic of dates: the divisions and remainders by the lengths of a
    day, an hour and a minute, as their Euclidean equations. *)
Ltac zdivmod :=
  unfold getNextCandleEndTime, startOfDay, getHours, getMinutes, parseTime,
    dayOf, msPerDay, msPerHour, msPerMinute in *;
  Z.to_euclidean_division_equations; lia.

(** What the state remembers of the latest exit, at time [now]: the exits
    are in the past and in time order, the latest one was made inside the
    trading window, and the wait it started is either pending until the
    top of the hour that followed it, or over. *)
Definition exitsRemembered (now : Z) (s : t) : Prop :=
  match last (dailyTrades (state s)) with
  | None => dailyTrades (state s) = []
  | Some latest =>
    let x := exitTime latest in
    (x <= now)%Z
    /\ Forall (fun trade => (exitTime trade <= x)%Z) (dailyTrades (state s))
    /\ (parseTime x (tradingStartTime (config s)) <= x)%Z
    /\ (waitingForCandle (state s) = true ->
        candleEndTime (state s) = Some (getNextCandleEndTime x))
    /\ (waitingForCandle (state s) = false -> (getNextCandleEndTime x <= now)%Z)
  end.

End TradingStrategy.

(** ** A JavaScript [Map] with number keys

    The entries in insertion order: [set] on a present key replaces the
    value where it stands, on a fresh key appends. *)

Module JsMap.
Section JsMap.
Context {V : Type}.

Fixpoint get (m : list (Z * V)) (k : Z) : option V :=
  match m with
  | [] => None
  | (k', v) :: m' => if (k' =? k)%Z then Some v else get m' k
  end.

Fixpoint set (m : list (Z * V)) (k : Z) (v : V) : list (Z * V) :=
  match m with
  | [] => [(k, v)]
  | (k', v') :: m' =>
    if (k' =? k)%Z then (k, v) :: m' else (k', v') :: set m' k v
  end.

Fixpoint delete (m : list (Z * V)) (k : Z) : list (Z * V) :=
  match m with
  | [] => []
  | (k', v) :: m' => if (k' =? k)%Z then m' else (k', v) :: delete m' k
  end.

Definition size (m : list (Z * V)) : nat := length m.
Definition keys (m : list (Z * V)) : list Z := m.*1.
Definition values (m : list (Z * V)) : list V := m.*2.

(** [Math.min(...m.keys())] on a non-empty map. *)
Definition minKey (m : list (Z * V)) : option Z :=
  match keys m with
  | [] => None
  | k :: ks => Some (foldl Z.min k ks)
  end.

End JsMap.
End JsMap.

(** ** MarketDataService.js, class MarketDataService: the candle store *)

Module MarketDataService.
Local Open Scope Q_scope.

Record Candle := {
  timestamp : Z;
  open : Q;
  high : Q;
  low : Q;
  close : Q;
  volume : Q
}.

(** What [updateCandleData] reads of a tick. *)
Record Tick := { ltp : Q; tick_volume : Q }.

(** [this.marketData] (its symbols, in insertion order) and
    [this.candleData]. *)
Record t := {
  symbols : list string;
  candleData : gmap string (list (Z * Candle))
}.

Definition setCandles (svc : t) (symbol : string) (m : list (Z * Candle)) : t :=
  {| symbols := symbols svc; candleData := <[symbol := m]> (candleData svc) |}.

(** [new Date(y, m, d, h, min)]: [now] truncated to its minute. *)
Definition currentMinute (now : Z) : Z := (now - now mod 60000)%Z.

(** The candle store of [symbol], created empty when there is none. *)
Definition symbolCandles (svc : t) (symbol : string) : list (Z * Candle) :=
  default [] (candleData svc !! symbol).

(** [updateCandleData(symbol, data)] on the store of one symbol. *)
Definition updateCandles (m : list (Z * Candle)) (data : Tick) (now : Z)
    : list (Z * Candle) :=
  let key := currentMinute now in
  let m1 :=
    match JsMap.get m key with
    | Some currentCandle =>
      (* Update existing candle *)
      JsMap.set m key
        {| timestamp := timestamp currentCandle;
           open := open currentCandle;
           high := Qmax (high currentCandle) (ltp data);
           low := Qmin (low currentCandle) (ltp data);
           close := ltp data;
           volume := tick_volume data |}
    | None =>
      (* Create new candle *)
      JsMap.set m key
        {| timestamp := key; open := ltp data; high := ltp data;
           low := ltp data; close := ltp data; volume := tick_volume data |}
    end in
  (* Keep only last 1000 candles *)
  if (1000 <? JsMap.size m1)%nat then
    match JsMap.minKey m1 with
    | Some oldestKey => JsMap.delete m1 oldestKey
    | None => m1
    end
  else m1.

(** [updateCandleData(symbol, data)] *)
Definition updateCandleData (svc : t) (symbol : string) (data : Tick) (now : Z) : t :=
  setCandles svc symbol (updateCandles (symbolCandles svc symbol) data now).

(** The [forEach] of [loadHistoricalData]: every candle of the venue's
    answer is stored under its own timestamp. *)
Definition storeHistory (m : list (Z * Candle)) (historicalData : list Candle)
    : list (Z * Candle) :=
  foldl (fun m candle => JsMap.set m (timestamp candle) candle) m historicalData.

(** [loadHistoricalData()]; [history symbol] is the venue's answer for a
    symbol, [None] when the request throws (the symbol is then skipped). *)
Definition loadHistoricalData (svc : t)
    (history : string -> option (list Candle)) : t :=
  foldl
    (fun svc symbol =>
       match history symbol with
       | Some historicalData =>
         setCandles svc symbol
           (storeHistory (symbolCandles svc symbol) historicalData)
       | None => svc
       end)
    svc (symbols svc).

(** The body of the loop of [aggregateCandles]: one batch, non-empty. *)
Definition aggregatedCandle (c0 : Candle) (rest : list Candle) : Candle :=
  let batch := c0 :: rest in
  {| timestamp := timestamp c0;
     open := open c0;
     high := Js.maxOf (high c0) (high <$> rest);
     low := Js.minOf (low c0) (low <$> rest);
     close := close (List.last batch c0);
     volume := foldl (fun sum c => sum + volume c) 0 batch |}.

(** [candles.slice(i, j)] *)
Definition slice (candles : list Candle) (i j : nat) : list Candle :=
  take (j - i) (drop i candles).

(** [for (let i = 0; i < candles.length; i += minutes)] with
    [minutes = S m], from index [i] on; [aggregated] is the array being
    filled. *)
Equations? aggregateLoop (candles : list Candle) (m : nat) (i : nat)
    (aggregated : list Candle) : list Candle
    by wf (length candles - i)%nat lt :=
aggregateLoop candles m i aggregated
  with inspect (i <? length candles)%nat := {
  | exist _ true Hlt =>
    match slice candles i (i + S m) with
    | [] => aggregateLoop candles m (i + S m) aggregated
    | c0 :: rest =>
      aggregateLoop candles m (i + S m) (aggregated ++ [aggregatedCandle c0 rest])
    end
  | exist _ false _ => aggregated }.
Proof.
  all: apply Nat.ltb_lt in Hlt; lia.
Defined.

(** [aggregateCandles(candles, minutes)].  With [minutes = 0] and a
    non-empty array the loop of the source never ends: [None]. *)
Definition aggregateCandles (candles : list Candle) (minutes : nat)
    : option (list Candle) :=
  match minutes with
  | O => match candles with [] => Some [] | _ => None end
  | S m => Some (aggregateLoop candles m 0 [])
  end.

Inductive Timeframe := minute | hour | day.

(** [.slice(-limit)] *)
Definition lastN (limit : nat) (candles : list Candle) : list Candle :=
  match limit with
  | O => candles
  | _ => drop (length candles - limit) candles
  end.

(** [.sort((a, b) => a.timestamp - b.timestamp)]: a stable sort. *)
Definition byTimestamp (a b : Candle) : Prop := (timestamp a <= timestamp b)%Z.

#[global] Instance byTimestamp_dec : RelDecision byTimestamp.
Proof. intros a b. unfold byTimestamp. apply _. Defined.

(** [getCandleData(symbol, timeframe = 'minute', limit = 100)] *)
Definition getCandleData (svc : t) (symbol : string) (timeframe : Timeframe)
    (limit : nat) : option (list Candle) :=
  match candleData svc !! symbol with
  | None => Some []
  | Some symbolCandles =>
    let candles :=
      lastN limit (merge_sort byTimestamp (JsMap.values symbolCandles)) in
    (* Aggregate candles based on timeframe if needed *)
    match timeframe with
    | hour => aggregateCandles candles 60
    | day => aggregateCandles candles (60 * 24)
    | minute => Some candles
    end
  end.

(** *** Reading the aggregate: extremes and totals of a batch *)

(** [x] is the greatest of [xs]: one of them, and no smaller than any. *)
Definition greatestOf (x : Q) (xs : list Q) : Prop :=
  x ∈ xs /\ Forall (fun y => y <= x) xs.

(** [x] is the least of [xs]. *)
Definition leastOf (x : Q) (xs : list Q) : Prop :=
  x ∈ xs /\ Forall (fun y => x <= y) xs.

(** The sum of [xs]. *)
Definition total (xs : list Q) : Q := foldr Qplus 0 xs.

(** *** Sample data: [n] one-minute candles, a minute apart *)

Definition minuteCandle (i : nat) : Candle :=
  let p := inject_Z (Z.of_nat i) in
  {| timestamp := (Z.of_nat i * 60000)%Z;
     open := 100 + p; high := 102 + p; low := 99 + p; close := 101 + p;
     volume := 10 |}.

Definition minuteCandles (n : nat) : list Candle := minuteCandle <$> seq 0 n.

(** A service that follows the default instrument and holds no candle. *)
Definition emptyService : t :=
  {| symbols := ["NSE:NIFTY 50"%string]; candleData := ∅ |}.

(** The venue's history: the first 1001 minutes of the epoch. *)
Definition history1001 (symbol : string) : option (list Candle) :=
  Some (minuteCandles 1001).

(** The service after [loadHistoricalData]. *)
Definition loadedService : t := loadHistoricalData emptyService history1001.

(** A tick in minute 1001. *)
Definition tick1001 : Tick := {| ltp := 150; tick_volume := 10 |}.

(** *** Reading the store *)

(** A candle whose open and close lie between its low and its high. *)
Definition wellFormed (c : Candle) : Prop :=
  low c <= open c /\ open c <= high c /\ low c <= close c /\ close c <= high c.

(** Every candle sits under its own timestamp, the start of a minute, and
    no key comes twice. *)
Definition keyedByMinute (m : list (Z * Candle)) : Prop :=
  NoDup (JsMap.keys m)
  /\ Forall (fun entry => timestamp entry.2 = entry.1
                          /\ (entry.1 mod 60000 = 0)%Z) m.

(** What a tick keeps true of an entry of the store. *)
Definition tickEntry (entry : Z * Candle) : Prop :=
  timestamp entry.2 = entry.1 /\ (entry.1 mod 60000 = 0)%Z /\ wellFormed entry.2.

(** The store of one symbol after a run of [updateCandleData] calls, each
    tick with the clock reading at its arrival. *)
Definition afterTicks (m : list (Z * Candle)) (ticks : list (Tick * Z))
    : list (Z * Candle) :=
  foldl (fun m tick => updateCandles m tick.1 tick.2) m ticks.

(** The candles of a batch. *)
Definition batchCandles (batch : Candle * list Candle) : list Candle :=
  batch.1 :: batch.2.

(** The number of batches of [minutes] candles that [n] candles fill, the
    last one possibly in part. *)
Definition batchCount (n minutes : nat) : nat := ((n + (minutes - 1)) / minutes)%nat.

(** How many candles [.slice(-limit)] keeps of [n]. *)
Definition selected (limit n : nat) : nat :=
  match limit with
  | O => n
  | _ => Nat.min limit n
  end.

(** A full store: the candles of minutes 1 to 1000. *)
Definition fullStore : list (Z * Candle) :=
  storeHistory [] (minuteCandle <$> seq 1 1000).

End MarketDataService.

(** ** class TradingLogger: the stored log *)

Module TradingLogger.

(** The levels of the convenience methods [debug], [info], [warn] and
    [error], which are how the class itself calls [log]. *)
Inductive Level := DEBUG | INFO | WARN | ERROR.

(** The [config] argument of the constructor.  [maxLogSize] is taken to be
    an integer. *)
Record Options := {
  opt_logLevel : option string;
  opt_enableConsole : option bool;
  opt_enableFile : option bool;
  opt_maxLogSize : option Z
}.

(** [this.config] *)
Record Config := {
  logLevel : string;
  enableConsole : bool;
  enableFile : bool;
  maxLogSize : Z
}.

(** [this.logLevels[name]]: [None] is [undefined], or a member that the
    object inherits; compared with a number, both give [false]. *)
Definition logLevels (name : string) : option nat :=
  if String.eqb name "DEBUG" then Some 0%nat
  else if String.eqb name "INFO" then Some 1%nat
  else if String.eqb name "WARN" then Some 2%nat
  else if String.eqb name "ERROR" then Some 3%nat
  else None.

(** [this.logLevels[level]] for the level of a convenience method. *)
Definition rank (level : Level) : nat :=
  match level with
  | DEBUG => 0 | INFO => 1 | WARN => 2 | ERROR => 3
  end%nat.

Section Logger.
Context {Data : Type}.

Record LogEntry := {
  timestamp : Z;
  level : Level;
  message : string;
  data : Data;
  id : string
}.

(** A [TradingLogger] instance. *)
Record t := {
  config : Config;
  logs : list LogEntry
}.

(** [constructor(config = {})]: the spread comes last, so a key that is
    present wins whatever its value. *)
Definition new (options : Options) : t :=
  {| config :=
       {| logLevel := default "INFO"%string (opt_logLevel options);
          enableConsole := default true (opt_enableConsole options);
          enableFile := default false (opt_enableFile options);
          maxLogSize := default 1000%Z (opt_maxLogSize options) |};
     logs := [] |}.

(** [array.slice(start)] *)
Definition slice (start : Z) (entries : list LogEntry) : list LogEntry :=
  let len := Z.of_nat (length entries) in
  let k := if (start <? 0)%Z then Z.max (len + start) 0 else Z.min start len in
  drop (Z.to_nat k) entries.

(** [addToLogs(logEntry)] *)
Definition addToLogs (lg : t) (logEntry : LogEntry) : t :=
  let logs1 := logs lg ++ [logEntry] in
  (* Maintain max log size *)
  {| config := config lg;
     logs := if (maxLogSize (config lg) <? Z.of_nat (length logs1))%Z
             then slice (- maxLogSize (config lg)) logs1
             else logs1 |}.

(** [log(level, message, data)], with the clock reading and the generated
    id of the call; the output to the console and to a file leaves the
    logger as it is. *)
Definition log (lg : t) (level : Level) (message : string) (data : Data)
    (now : Z) (id : string) : t :=
  let logEntry :=
    {| timestamp := now; level := level; message := message;
       data := data; id := id |} in
  (* Check if log level meets threshold *)
  match logLevels (logLevel (config lg)) with
  | Some threshold =>
    if (threshold <=? rank level)%nat then addToLogs lg logEntry else lg
  | None => lg
  end.

(** *** Reading the log *)

(** A call of [log]: its arguments, the clock and the id. *)
Record LogCall := {
  call_level : Level;
  call_message : string;
  call_data : Data;
  call_now : Z;
  call_id : string
}.

Definition entryOf (call : LogCall) : LogEntry :=
  {| timestamp := call_now call; level := call_level call;
     message := call_message call; data := call_data call;
     id := call_id call |}.

(** The logger after a run of calls of [log]. *)
Definition afterCalls (lg : t) (calls : list LogCall) : t :=
  foldl (fun lg call =>
           log lg (call_level call) (call_message call) (call_data call)
             (call_now call) (call_id call))
        lg calls.

(** The newest [n] of the entries, all of them for [n = 0], none for a
    negative [n]. *)
Definition newest (n : Z) (entries : list LogEntry) : list LogEntry :=
  if (n <? 0)%Z then []
  else if (n =? 0)%Z then entries
  else drop (length entries - Z.to_nat n) entries.

End Logger.
End TradingLogger.

(** ** RiskManager.js, class Backtester *)

Module Backtester.
Local Open Scope Q_scope.

(** The [config] argument of the constructor: any key may be absent. *)
Record Options := {
  opt_initialCapital : option Q;
  opt_commission : option Q;
  opt_slippage : option Q
}.

(** [this.config] *)
Record Config := {
  initialCapital : Q;
  commission : Q;
  slippage : Q
}.

(** What [simulateOrder] reads of a bar of historical data. *)
Record Bar := { timestamp : Z; close : Q }.

(** [this.currentPosition]; its [direction] is always 'BUY'. *)
Record Position := {
  id : nat;
  symbol : string;
  quantity : Q;
  entryPrice : Q;
  entryTime : Z;
  position_commission : Q
}.

(** An entry of [this.results.trades]: the position spread out ([opened]),
    its [commission] replaced by the total of both legs; [exitReason] is
    always 'STRATEGY_EXIT'. *)
Record Trade := {
  opened : Position;
  exitPrice : Q;
  exitTime : Z;
  grossPnL : Q;
  netPnL : Q;
  trade_commission : Q
}.

(** An entry of [this.results.equity]. *)
Record EquityPoint := { point_timestamp : Z; value : Q }.

(** A [Backtester] instance; [trades] and [equity] are those of
    [this.results]. *)
Record t := {
  config : Config;
  trades : list Trade;
  equity : list EquityPoint;
  currentCapital : Q;
  currentPosition : option Position;
  tradeId : nat
}.

(** [constructor(config = {})] *)
Definition new (options : Options) : t :=
  let config :=
    {| initialCapital := Js.keyOr (opt_initialCapital options) 100000;
       commission := Js.keyOr (opt_commission options) 0.0003;
       slippage := Js.keyOr (opt_slippage options) 0.0001 |} in
  {| config := config; trades := []; equity := [];
     currentCapital := initialCapital config;
     currentPosition := None; tradeId := 1 |}.

(** [resetBacktest()] *)
Definition resetBacktest (b : t) : t :=
  {| config := config b; trades := []; equity := [];
     currentCapital := initialCapital (config b);
     currentPosition := None; tradeId := 1 |}.

(** [calculateExecutionPrice(order, marketData)]; [None] for a LIMIT order
    without a price, where the source computes with [undefined]. *)
Definition calculateExecutionPrice (b : t) (order : OrderManager.OrderParams)
    (marketData : Bar) : option Q :=
  let basePrice :=
    if String.eqb (OrderManager.order_type order) "MARKET" then
      Some (close marketData)
    else if String.eqb (OrderManager.order_type order) "LIMIT" then
      OrderManager.price order
    else Some (close marketData) in
  match basePrice with
  | None => None
  | Some basePrice =>
    (* Apply slippage *)
    let slippageAmount := basePrice * slippage (config b) in
    let slippage :=
      if String.eqb (OrderManager.transaction_type order) "BUY"
      then slippageAmount else - slippageAmount in
    Some (basePrice + slippage)
  end.

(** [calculateCommission(quantity, price)] *)
Definition calculateCommission (b : t) (quantity price : Q) : Q :=
  quantity * price * commission (config b).

(** [simulateOrder(order, marketData)]: the backtester afterwards (the
    returned object always reports success).  [None] when the execution
    price is not a number and the order is one that uses it. *)
Definition simulateOrder (b : t) (order : OrderManager.OrderParams)
    (marketData : Bar) : option t :=
  let quantity := OrderManager.quantity order in
  if String.eqb (OrderManager.transaction_type order) "BUY" then
    match calculateExecutionPrice b order marketData with
    | None => None
    | Some executionPrice =>
      let commission := calculateCommission b quantity executionPrice in
      (* Enter position *)
      Some {| config := config b; trades := trades b; equity := equity b;
              currentCapital :=
                currentCapital b - (quantity * executionPrice + commission);
              currentPosition :=
                Some {| id := tradeId b;
                        symbol := OrderManager.symbol order;
                        quantity := quantity;
                        entryPrice := executionPrice;
                        entryTime := timestamp marketData;
                        position_commission := commission |};
              tradeId := S (tradeId b) |}
    end
  else if String.eqb (OrderManager.transaction_type order) "SELL" then
    match currentPosition b with
    | Some position =>
      match calculateExecutionPrice b order marketData with
      | None => None
      | Some executionPrice =>
        (* Exit position *)
        let exitPrice := executionPrice in
        let exitCommission := calculateCommission b quantity exitPrice in
        let grossPnL := (exitPrice - entryPrice position) * quantity in
        let netPnL := grossPnL - position_commission position - exitCommission in
        let trade :=
          {| opened := position; exitPrice := exitPrice;
             exitTime := timestamp marketData;
             grossPnL := grossPnL; netPnL := netPnL;
             trade_commission := position_commission position + exitCommission |} in
        Some {| config := config b; trades := trades b ++ [trade];
                equity := equity b;
                currentCapital :=
                  currentCapital b + (quantity * exitPrice - exitCommission);
                currentPosition := None;
                tradeId := tradeId b |}
      end
    | None => Some b
    end
  else Some b.

(** [updateEquityCurve(timestamp)] *)
Definition updateEquityCurve (b : t) (timestamp : Z) : t :=
  let totalValue := currentCapital b in
  (* Add unrealized P&L if in position *)
  let totalValue :=
    match currentPosition b with
    | Some _ => totalValue + 0
    | None => totalValue
    end in
  {| config := config b; trades := trades b;
     equity := equity b ++ [{| point_timestamp := timestamp; value := totalValue |}];
     currentCapital := currentCapital b;
     currentPosition := currentPosition b;
     tradeId := tradeId b |}.

(** The callback of the [forEach] of [calculateDrawdown], on its three
    variables [peak], [maxDrawdown] and [maxDrawdownPercent].  (With a
    peak of 0 the percentage of the source is not a number; [maxDrawdown]
    does not depend on it.) *)
Definition drawdownStep (vars : Q * Q * Q) (point : EquityPoint) : Q * Q * Q :=
  let '(peak, maxDrawdown, maxDrawdownPercent) := vars in
  let peak := if Js.gtb (value point) peak then value point else peak in
  let drawdown := peak - value point in
  let drawdownPercent := (drawdown / peak) * 100 in
  if Js.gtb drawdown maxDrawdown
  then (peak, drawdown, drawdownPercent)
  else (peak, maxDrawdown, maxDrawdownPercent).

(** [calculateDrawdown()]: [maxDrawdown] and [maxDrawdownPercent]. *)
Definition calculateDrawdown (b : t) : Q * Q :=
  let '(_, maxDrawdown, maxDrawdownPercent) :=
    foldl drawdownStep (initialCapital (config b), 0, 0) (equity b) in
  (maxDrawdown, maxDrawdownPercent).

(** [findMaxConsecutive(trades, condition)] *)
Definition findMaxConsecutive (trades : list Trade) (condition : Trade -> bool)
    : nat :=
  (foldl
     (fun '(maxConsecutive, currentConsecutive) trade =>
        if condition trade
        then (Nat.max maxConsecutive (S currentConsecutive), S currentConsecutive)
        else (maxConsecutive, 0%nat))
     (0%nat, 0%nat) trades).1.

(** The two conditions [analyzeTradePatterns] counts runs of. *)
Definition isWin (trade : Trade) : bool := Js.gtb (netPnL trade) 0.
Definition isLoss (trade : Trade) : bool := Js.ltb (netPnL trade) 0.

(** [analyzeTradePatterns()]: [consecutiveWins] and [consecutiveLosses]. *)
Definition analyzeTradePatterns (b : t) : nat * nat :=
  (findMaxConsecutive (trades b) isWin, findMaxConsecutive (trades b) isLoss).

(** *** Reading the backtest *)

(** The equity curve, or the initial capital, has been as high as the
    current capital. *)
Definition capitalSeen (b : t) : Prop :=
  currentCapital b <= initialCapital (config b)
  \/ Exists (fun point => currentCapital b <= value point) (equity b).

(** [run] is a run of consecutive trades of [trades] that all satisfy
    [condition]. *)
Definition isRun (condition : Trade -> bool) (trades run : list Trade) : Prop :=
  (exists before after, trades = before ++ run ++ after)
  /\ Forall (fun trade => condition trade = true) run.

(** *** Sample data *)

Definition marketOrder (side : string) (quantity : Q) : OrderManager.OrderParams :=
  {| OrderManager.symbol := "NIFTY";
     OrderManager.exchange := "NSE";
     OrderManager.transaction_type := side;
     OrderManager.quantity := quantity;
     OrderManager.order_type := "MARKET";
     OrderManager.product := "MIS";
     OrderManager.validity := "DAY";
     OrderManager.price := None;
     OrderManager.trigger_price := None |}.

Definition noOptions : Options :=
  {| opt_initialCapital := None; opt_commission := None; opt_slippage := None |}.

Definition bar (timestamp : Z) (close : Q) : Bar :=
  {| timestamp := timestamp; close := close |}.

End Backtester.

(* ===================================================================== *)
(** * Part II.  Properties                                               *)
(* ===================================================================== *)

(** ** The comparison operators *)

Module JsFacts.
Import Js.
Local Open Scope Q_scope.

Lemma geb_true (a b : Q) : geb a b = true <-> b <= a.
Proof. unfold geb. apply Qle_bool_iff. Qed.

Lemma geb_false (a b : Q) : geb a b = false <-> ~ b <= a.
Proof.
  unfold geb. split; intros H.
  - intros Hle. apply Qle_bool_iff in Hle. congruence.
  - destruct (Qle_bool b a) eqn:E; [|done].
    apply Qle_bool_iff in E. contradiction.
Qed.

Lemma leb_true (a b : Q) : leb a b = true <-> a <= b.
Proof. unfold leb. apply Qle_bool_iff. Qed.

Lemma ltb_true (a b : Q) : ltb a b = true <-> a < b.
Proof.
  unfold ltb. rewrite negb_true_iff. split.
  - intros H. apply Qnot_le_lt. intros Hle.
    apply Qle_bool_iff in Hle. congruence.
  - intros H. destruct (Qle_bool b a) eqn:E; [|done].
    apply Qle_bool_iff in E. exfalso. eapply Qlt_not_le; eauto.
Qed.

Lemma ltb_false (a b : Q) : ltb a b = false <-> b <= a.
Proof.
  unfold ltb. rewrite negb_false_iff. apply Qle_bool_iff.
Qed.

Lemma gtb_true (a b : Q) : gtb a b = true <-> b < a.
Proof. apply (ltb_true b a). Qed.

Lemma gtb_false (a b : Q) : gtb a b = false <-> a <= b.
Proof. apply (ltb_false b a). Qed.

Lemma Qmax_cases (x y : Q) : Qmax x y = x \/ Qmax x y = y.
Proof.
  unfold Qmax, GenericMinMax.gmax. destruct (x ?= y); auto.
Qed.

Lemma Qmin_cases (x y : Q) : Qmin x y = x \/ Qmin x y = y.
Proof.
  unfold Qmin, GenericMinMax.gmin. destruct (x ?= y); auto.
Qed.

End JsFacts.

(** ** The risk governor *)

Module RiskManagerSpec.
Import Js JsFacts RiskManager.
Local Open Scope Q_scope.

(** A manager straight out of the constructor has its limits at the
    stated percentages of the capital. *)
Lemma new_limits (o : Options) :
  let rm := new o in
  dailyLossLimit (riskLimits rm)
    = initialCapital (config rm) * maxDailyLossPercent (config rm) / 100
  /\ emergencyStopLimit (riskLimits rm)
    = initialCapital (config rm) * emergencyStopLossPercent (config rm) / 100
  /\ startingCapital (dailyStats rm) = initialCapital (config rm).
Proof. cbv zeta. unfold new. simpl. auto. Qed.

Example default_limits :
  dailyLossLimit (riskLimits (new noOptions)) == 2000
  /\ emergencyStopLimit (riskLimits (new noOptions)) == 5000.
Proof. split; qcompute. Qed.

(** The four tests of [checkDailyLimits] decide the four conditions. *)
Lemma dailyLossHit_test rm pnl :
  geb (Qabs pnl) (dailyLossLimit (riskLimits rm)) = true <-> dailyLossHit rm pnl.
Proof. apply geb_true. Qed.

Lemma emergencyStopHit_test rm pnl :
  geb (Qabs pnl) (emergencyStopLimit (riskLimits rm)) = true
  <-> emergencyStopHit rm pnl.
Proof. apply geb_true. Qed.

Lemma tradeCapHit_test rm n :
  geb n (maxTradesPerDay (config rm)) = true <-> tradeCapHit rm n.
Proof. apply geb_true. Qed.

Lemma lossStreakHit_test rm :
  geb (ofNat (consecutiveLosses (dailyStats rm))) (maxConsecutiveLosses (config rm))
    = true <-> lossStreakHit rm.
Proof. apply geb_true. Qed.

Lemma test_false (b : bool) (P : Prop) : (b = true <-> P) -> ~ P -> b = false.
Proof. intros H HP. destruct b; [|done]. exfalso. apply HP, H. done. Qed.

(** Warnings never change the verdict. *)
Lemma pushWarning_verdict checks w :
  canTrade (pushWarning checks w) = canTrade checks
  /\ reason (pushWarning checks w) = reason checks.
Proof. done. Qed.

(** C1.  [checkDailyLimits] tries the daily loss limit, the emergency
    stop limit, the trade cap and the losing streak in this order: the
    first condition that holds blocks trading with its own reason and an
    empty list of warnings, whatever the later conditions are; when none
    holds, trading is allowed. *)
Theorem checkDailyLimits_first_hit_decides (rm : t) (currentPnL tradesCount : Q) :
  let r := checkDailyLimits rm currentPnL tradesCount in
  (dailyLossHit rm currentPnL ->
     r = verdictBlocked (DailyLossLimitReached (Qabs currentPnL)))
  /\ (~ dailyLossHit rm currentPnL -> emergencyStopHit rm currentPnL ->
     r = verdictBlocked (EmergencyStopLossTriggered (Qabs currentPnL)))
  /\ (~ dailyLossHit rm currentPnL -> ~ emergencyStopHit rm currentPnL ->
      tradeCapHit rm tradesCount ->
     r = verdictBlocked (MaximumTradesPerDayReached tradesCount))
  /\ (~ dailyLossHit rm currentPnL -> ~ emergencyStopHit rm currentPnL ->
      ~ tradeCapHit rm tradesCount -> lossStreakHit rm ->
     r = verdictBlocked
           (MaximumConsecutiveLossesReached (consecutiveLosses (dailyStats rm))))
  /\ (~ dailyLossHit rm currentPnL -> ~ emergencyStopHit rm currentPnL ->
      ~ tradeCapHit rm tradesCount -> ~ lossStreakHit rm ->
     canTrade r = true /\ reason r = NoReason).
Proof.
  cbv zeta. unfold checkDailyLimits.
  pose proof (dailyLossHit_test rm currentPnL) as H1.
  pose proof (emergencyStopHit_test rm currentPnL) as H2.
  pose proof (tradeCapHit_test rm tradesCount) as H3.
  pose proof (lossStreakHit_test rm) as H4.
  split; [|split; [|split; [|split]]].
  - intros Hd. apply H1 in Hd. rewrite Hd. reflexivity.
  - intros Nd He. rewrite (test_false _ _ H1 Nd).
    apply H2 in He. rewrite He. reflexivity.
  - intros Nd Ne Ht. rewrite (test_false _ _ H1 Nd), (test_false _ _ H2 Ne).
    apply H3 in Ht. rewrite Ht. reflexivity.
  - intros Nd Ne Nt Hs.
    rewrite (test_false _ _ H1 Nd), (test_false _ _ H2 Ne), (test_false _ _ H3 Nt).
    apply H4 in Hs. rewrite Hs. reflexivity.
  - intros Nd Ne Nt Ns.
    rewrite (test_false _ _ H1 Nd), (test_false _ _ H2 Ne),
      (test_false _ _ H3 Nt), (test_false _ _ H4 Ns).
    split; repeat case_match; reflexivity.
Qed.

(** Each of the five outcomes, on the default limits (2000 and 5000, five
    trades, three losses) and on limits with the emergency stop first. *)
Lemma checkDailyLimits_first_hit_decides_samples :
  checkDailyLimits (new noOptions) (-2500) 0
    = verdictBlocked (DailyLossLimitReached (Qabs (-2500)))
  /\ checkDailyLimits (new emergencyFirst) (-3000) 0
    = verdictBlocked (EmergencyStopLossTriggered (Qabs (-3000)))
  /\ checkDailyLimits (new noOptions) (-100) 5
    = verdictBlocked (MaximumTradesPerDayReached 5)
  /\ checkDailyLimits afterThreeLosses (-30) 3
    = verdictBlocked (MaximumConsecutiveLossesReached 3)
  /\ canTrade (checkDailyLimits (new noOptions) (-100) 1) = true.
Proof.
  split; [|split; [|split; [|split]]].
  - apply (checkDailyLimits_first_hit_decides (new noOptions) (-2500) 0).
    unfold dailyLossHit. qcompute.
  - apply (checkDailyLimits_first_hit_decides (new emergencyFirst) (-3000) 0).
    + unfold dailyLossHit. qrefute.
    + unfold emergencyStopHit. qcompute.
  - apply (checkDailyLimits_first_hit_decides (new noOptions) (-100) 5).
    + unfold dailyLossHit. qrefute.
    + unfold emergencyStopHit. qrefute.
    + unfold tradeCapHit. qcompute.
  - apply (checkDailyLimits_first_hit_decides afterThreeLosses (-30) 3).
    + unfold dailyLossHit. qrefute.
    + unfold emergencyStopHit. qrefute.
    + unfold tradeCapHit. qrefute.
    + unfold lossStreakHit. qcompute.
  - apply (checkDailyLimits_first_hit_decides (new noOptions) (-100) 1).
    + unfold dailyLossHit. qrefute.
    + unfold emergencyStopHit. qrefute.
    + unfold tradeCapHit. qrefute.
    + unfold lossStreakHit. qrefute.
Defined.

(** Trading is blocked exactly when one of the four conditions holds. *)
Lemma checkDailyLimits_blocked_iff (rm : t) (currentPnL tradesCount : Q) :
  canTrade (checkDailyLimits rm currentPnL tradesCount) = false
  <-> dailyLossHit rm currentPnL \/ emergencyStopHit rm currentPnL
      \/ tradeCapHit rm tradesCount \/ lossStreakHit rm.
Proof.
  rewrite <- dailyLossHit_test, <- emergencyStopHit_test,
    <- (tradeCapHit_test rm tradesCount), <- lossStreakHit_test.
  unfold checkDailyLimits.
  destruct (geb (Qabs currentPnL) (dailyLossLimit _)); [simpl; tauto|].
  destruct (geb (Qabs currentPnL) (emergencyStopLimit _)); [simpl; tauto|].
  destruct (geb tradesCount _); [simpl; tauto|].
  destruct (geb (ofNat _) _); [simpl; tauto|].
  split.
  - repeat case_match; simpl; discriminate.
  - intros [|[|[|]]]; discriminate.
Qed.

(** The emergency-stop reason is produced by the second test only. *)
Lemma emergency_reason_inv rm pnl n loss :
  reason (checkDailyLimits rm pnl n) = EmergencyStopLossTriggered loss ->
  geb (Qabs pnl) (dailyLossLimit (riskLimits rm)) = false
  /\ geb (Qabs pnl) (emergencyStopLimit (riskLimits rm)) = true.
Proof.
  unfold checkDailyLimits.
  destruct (geb (Qabs pnl) (dailyLossLimit _)); [discriminate|].
  destruct (geb (Qabs pnl) (emergencyStopLimit _)); [done|].
  repeat case_match; discriminate.
Qed.

(** C10.  When the daily loss limit does not exceed the emergency stop
    limit, no profit-and-loss figure and no trade count make
    [checkDailyLimits] answer with the emergency-stop reason: a loss that
    reaches the emergency limit has already reached the daily limit. *)
Theorem emergency_stop_reason_unreachable (rm : t) (currentPnL tradesCount : Q) :
  dailyLossLimit (riskLimits rm) <= emergencyStopLimit (riskLimits rm) ->
  forall loss,
    reason (checkDailyLimits rm currentPnL tradesCount)
      <> EmergencyStopLossTriggered loss.
Proof.
  intros Hle loss Hr.
  apply emergency_reason_inv in Hr as [Hd He].
  apply geb_false in Hd. apply geb_true in He.
  apply Hd. eapply Qle_trans; eauto.
Qed.

Lemma emergency_stop_reason_unreachable_default :
  dailyLossLimit (riskLimits (new noOptions))
    <= emergencyStopLimit (riskLimits (new noOptions))
  /\ (forall loss,
        reason (checkDailyLimits (new noOptions) (-6000) 0)
          <> EmergencyStopLossTriggered loss)
  /\ reason (checkDailyLimits (new noOptions) (-6000) 0)
       = DailyLossLimitReached (Qabs (-6000)).
Proof.
  assert (H : dailyLossLimit (riskLimits (new noOptions))
              <= emergencyStopLimit (riskLimits (new noOptions)))
    by qcompute.
  split; [exact H|]. split; [|reflexivity].
  exact (emergency_stop_reason_unreachable (new noOptions) (-6000) 0 H).
Defined.

(** C9.  A trade that closes at exactly zero takes the winning branch:
    the losing streak goes back to 0, the trade is counted, and the
    cumulative profit and loss keeps its value. *)
Theorem zero_pnl_resets_losing_streak (rm : t) (pnl : Q) :
  pnl == 0 ->
  let rm' := updateDailyStats rm pnl in
  consecutiveLosses (dailyStats rm') = 0%nat
  /\ tradesCount (dailyStats rm') = S (tradesCount (dailyStats rm))
  /\ totalPnL (dailyStats rm') == totalPnL (dailyStats rm).
Proof.
  intros Hz. cbv zeta. unfold updateDailyStats. simpl.
  assert (Hl : ltb pnl 0 = false).
  { apply ltb_false. rewrite Hz. apply Qle_refl. }
  rewrite Hl. split; [reflexivity|]. split; [reflexivity|].
  rewrite Hz. apply Qplus_0_r.
Qed.

Lemma zero_pnl_resets_losing_streak_after_two_losses :
  let rm := updateDailyStats (updateDailyStats (new noOptions) (-100)) (-50) in
  consecutiveLosses (dailyStats rm) = 2%nat
  /\ consecutiveLosses (dailyStats (updateDailyStats rm 0)) = 0%nat
  /\ tradesCount (dailyStats (updateDailyStats rm 0)) = 3%nat
  /\ totalPnL (dailyStats (updateDailyStats rm 0)) == -150.
Proof.
  cbv zeta.
  pose proof (zero_pnl_resets_losing_streak
                (updateDailyStats (updateDailyStats (new noOptions) (-100)) (-50))
                0 (Qeq_refl 0)) as (H1 & H2 & H3).
  split; [reflexivity|]. split; [exact H1|]. split; [exact H2|].
  rewrite H3. qcompute.
Defined.

(** A losing trade lengthens the streak, a winning one clears it. *)
Lemma updateDailyStats_streak (rm : t) (pnl : Q) :
  consecutiveLosses (dailyStats (updateDailyStats rm pnl))
  = if ltb pnl 0 then S (consecutiveLosses (dailyStats rm)) else 0%nat.
Proof. reflexivity. Qed.

(** The constructor and the rollover keep the two records of the capital
    equal; recording a trade does not touch them. *)
Lemma capitalInSync_new o : capitalInSync (new o).
Proof. reflexivity. Qed.

Lemma capitalInSync_update rm pnl :
  capitalInSync rm -> capitalInSync (updateDailyStats rm pnl).
Proof. unfold capitalInSync. simpl. done. Qed.

Lemma capitalInSync_reset rm : capitalInSync (resetDailyStats rm).
Proof. reflexivity. Qed.

(** C5.  The day rollover carries the day's closing profit and loss into
    the capital, clears the four counters, and recomputes both limits as
    percentages of the new capital; a day that closed at +5000 starts the
    next one 5000 higher. *)
Theorem resetDailyStats_carries_capital_forward (rm : t) :
  let p := totalPnL (dailyStats rm) in
  let rm' := resetDailyStats rm in
  let newCapital := startingCapital (dailyStats rm') in
  newCapital = initialCapital (config rm) + p
  /\ initialCapital (config rm') = newCapital
  /\ totalPnL (dailyStats rm') = 0
  /\ tradesCount (dailyStats rm') = 0%nat
  /\ consecutiveLosses (dailyStats rm') = 0%nat
  /\ maxDrawdown (dailyStats rm') = 0
  /\ dailyLossLimit (riskLimits rm')
     = newCapital * maxDailyLossPercent (config rm) / 100
  /\ emergencyStopLimit (riskLimits rm')
     = newCapital * emergencyStopLossPercent (config rm) / 100
  /\ maxDailyLossPercent (config rm') = maxDailyLossPercent (config rm)
  /\ emergencyStopLossPercent (config rm') = emergencyStopLossPercent (config rm)
  /\ (p == 5000 -> newCapital == initialCapital (config rm) + 5000)
  /\ (p == 5000 -> newCapital - initialCapital (config rm) == 5000).
Proof.
  cbv zeta. unfold resetDailyStats. simpl.
  repeat (split; [reflexivity|]).
  split; intros Hp; rewrite Hp; ring.
Qed.

(** The same rollover, on the default configuration after one trade that
    made 5000. *)
Example rollover_after_5000 :
  let rm' := resetDailyStats (updateDailyStats (new noOptions) 5000) in
  startingCapital (dailyStats rm') == 105000
  /\ dailyLossLimit (riskLimits rm') == 2100
  /\ emergencyStopLimit (riskLimits rm') == 5250
  /\ tradesCount (dailyStats rm') = 0%nat.
Proof. cbv zeta. repeat split; qcompute. Qed.

(** *** Position sizing and order validation *)






(** *** Limits are two-sided *)

Lemma Qabs_opp_eq (x : Q) : Qabs (- x) = Qabs x.
Proof. destruct x as [n d]. simpl. rewrite Z.abs_opp. reflexivity. Qed.

(** X3.  The pre-trade check reads the day's result through its absolute
    value: a profit gets the same verdict as a loss of the same size, so a
    profit that reaches the daily loss limit blocks trading. *)
Theorem checkDailyLimits_two_sided (rm : t) (currentPnL tradesCount : Q) :
  checkDailyLimits rm (- currentPnL) tradesCount
  = checkDailyLimits rm currentPnL tradesCount
  /\ (0 <= currentPnL -> dailyLossLimit (riskLimits rm) <= currentPnL ->
      canTrade (checkDailyLimits rm currentPnL tradesCount) = false).
Proof.
  split.
  - unfold checkDailyLimits. rewrite Qabs_opp_eq. reflexivity.
  - intros Hp Hl. apply checkDailyLimits_blocked_iff. left.
    unfold dailyLossHit. rewrite Qabs_pos by exact Hp. exact Hl.
Qed.

(** X4.  Whenever [shouldTriggerEmergencyStop] answers true, the pre-trade
    check on the manager's own cumulative result refuses to trade,
    whatever the trade count. *)
Theorem emergency_stop_implies_blocked (rm : t) (tradesCount : Q) :
  shouldTriggerEmergencyStop rm = true ->
  canTrade (checkDailyLimits rm (totalPnL (dailyStats rm)) tradesCount) = false.
Proof.
  unfold shouldTriggerEmergencyStop. intros H.
  apply checkDailyLimits_blocked_iff. right; left.
  apply emergencyStopHit_test. exact H.
Qed.

Lemma emergency_stop_implies_blocked_sample :
  shouldTriggerEmergencyStop (updateDailyStats (new noOptions) (-5000)) = true
  /\ canTrade (checkDailyLimits (updateDailyStats (new noOptions) (-5000))
                 (totalPnL (dailyStats (updateDailyStats (new noOptions) (-5000))))
                 1) = false.
Proof.
  assert (H : shouldTriggerEmergencyStop
                (updateDailyStats (new noOptions) (-5000)) = true)
    by (vm_compute; reflexivity).
  split; [exact H|].
  exact (emergency_stop_implies_blocked _ 1 H).
Defined.

(** *** A day of trades *)

Lemma recordAll_snoc rm pnls p :
  recordAll rm (pnls ++ [p]) = updateDailyStats (recordAll rm pnls) p.
Proof. unfold recordAll. rewrite foldl_app. reflexivity. Qed.

Lemma recordAll_counts (pnls : list Q) :
  forall rm,
    tradesCount (dailyStats (recordAll rm pnls))
    = (tradesCount (dailyStats rm) + length pnls)%nat
    /\ totalPnL (dailyStats (recordAll rm pnls))
       == totalPnL (dailyStats rm) + sumPnL pnls.
Proof.
  induction pnls as [|p pnls IH]; intros rm.
  - split; [simpl; lia|]. unfold sumPnL. simpl. ring.
  - destruct (IH (updateDailyStats rm p)) as [Hc Ht].
    change (recordAll rm (p :: pnls)) with (recordAll (updateDailyStats rm p) pnls).
    split.
    + rewrite Hc. simpl. lia.
    + rewrite Ht. simpl. unfold sumPnL. simpl. ring.
Qed.

Lemma recordAll_streak (pnls : list Q) (rm : t) :
  consecutiveLosses (dailyStats rm) = 0%nat ->
  consecutiveLosses (dailyStats (recordAll rm pnls)) = losingRun pnls.
Proof.
  intros H0. induction pnls as [|p pnls IH] using rev_ind.
  - exact H0.
  - rewrite recordAll_snoc. unfold losingRun. rewrite reverse_snoc.
    simpl. unfold losingRun in IH. rewrite IH. reflexivity.
Qed.

(** X5.  From the start of a day, after any list of trades has been
    recorded one by one, the trade count is the number of trades, the
    cumulative result is their sum, and the losing streak is the length of
    the run of losses the list ends with (a result of 0 ends a run). *)
Theorem recorded_day_counts (rm : t) (pnls : list Q) :
  startOfDay rm ->
  let rm' := recordAll rm pnls in
  tradesCount (dailyStats rm') = length pnls
  /\ totalPnL (dailyStats rm') == sumPnL pnls
  /\ consecutiveLosses (dailyStats rm') = losingRun pnls
  /\ config rm' = config rm /\ riskLimits rm' = riskLimits rm.
Proof.
  intros (Ht & Hc & Hs & _). cbv zeta.
  destruct (recordAll_counts pnls rm) as [H1 H2].
  split; [rewrite H1, Hc; reflexivity|].
  split; [rewrite H2, Ht; ring|].
  split; [apply recordAll_streak; exact Hs|].
  clear. revert rm. induction pnls as [|p pnls IH]; intros rm; [split; reflexivity|].
  change (recordAll rm (p :: pnls)) with (recordAll (updateDailyStats rm p) pnls).
  destruct (IH (updateDailyStats rm p)) as [-> ->]. split; reflexivity.
Qed.

Lemma recorded_day_counts_sample :
  startOfDay (new noOptions)
  /\ tradesCount (dailyStats (recordAll (new noOptions) [50; -20; 0; -10; -30])) = 5%nat
  /\ totalPnL (dailyStats (recordAll (new noOptions) [50; -20; 0; -10; -30])) == -10
  /\ consecutiveLosses (dailyStats (recordAll (new noOptions) [50; -20; 0; -10; -30]))
     = 2%nat.
Proof.
  assert (H : startOfDay (new noOptions)) by (repeat split).
  destruct (recorded_day_counts (new noOptions) [50; -20; 0; -10; -30] H)
    as (H1 & H2 & H3 & _).
  split; [exact H|]. split; [exact H1|]. split; [rewrite H2; qcompute|].
  rewrite H3. vm_compute. reflexivity.
Defined.

Lemma recordAll_drawdown (pnls : list Q) :
  forall rm,
    let D' := maxDrawdown (dailyStats (recordAll rm pnls)) in
    D' <= maxDrawdown (dailyStats rm)
    /\ Forall (fun x => D' <= x) (runningTotals (totalPnL (dailyStats rm)) pnls)
    /\ (D' = maxDrawdown (dailyStats rm)
        \/ D' ∈ runningTotals (totalPnL (dailyStats rm)) pnls).
Proof.
  induction pnls as [|p pnls IH]; intros rm; cbv zeta.
  - split; [apply Qle_refl|]. split; [constructor|left; reflexivity].
  - change (recordAll rm (p :: pnls)) with (recordAll (updateDailyStats rm p) pnls).
    destruct (IH (updateDailyStats rm p)) as (H1 & H2 & H3). cbv zeta in *.
    set (D' := maxDrawdown (dailyStats (recordAll (updateDailyStats rm p) pnls))) in *.
    simpl runningTotals.
    simpl in H1, H2, H3.
    set (T1 := totalPnL (dailyStats rm) + p) in *.
    destruct (ltb T1 (maxDrawdown (dailyStats rm))) eqn:E.
    + apply ltb_true in E.
      split; [eapply Qle_trans; [exact H1|apply Qlt_le_weak; exact E]|].
      split; [constructor; assumption|].
      destruct H3 as [-> | H3]; right; [left|right; exact H3].
    + apply ltb_false in E.
      split; [exact H1|].
      split; [constructor; [eapply Qle_trans; eassumption|assumption]|].
      destruct H3 as [H3 | H3]; [left; exact H3|right; right; exact H3].
Qed.

(** X6.  From the start of a day, the recorded maximum drawdown is the
    most negative cumulative result seen so far: never above 0, no greater
    than the cumulative result after any trade, and equal to 0 or to one
    of those cumulative results. *)
Theorem recorded_drawdown_is_lowest_total (rm : t) (pnls : list Q) :
  startOfDay rm ->
  let D := maxDrawdown (dailyStats (recordAll rm pnls)) in
  D <= 0
  /\ Forall (fun x => D <= x) (runningTotals 0 pnls)
  /\ (D = 0 \/ D ∈ runningTotals 0 pnls).
Proof.
  intros (Ht & _ & _ & Hd). cbv zeta.
  pose proof (recordAll_drawdown pnls rm) as H. cbv zeta in H.
  rewrite Ht, Hd in H. exact H.
Qed.

Lemma recorded_drawdown_is_lowest_total_sample :
  startOfDay (new noOptions)
  /\ maxDrawdown (dailyStats (recordAll (new noOptions) [50; -80; 20; -10])) == -30
  /\ maxDrawdown (dailyStats (recordAll (new noOptions) [50; -80; 20; -10])) <= 0
  /\ Forall (fun x => maxDrawdown (dailyStats (recordAll (new noOptions) [50; -80; 20; -10])) <= x)
       (runningTotals 0 [50; -80; 20; -10]).
Proof.
  assert (H : startOfDay (new noOptions)) by (repeat split).
  destruct (recorded_drawdown_is_lowest_total (new noOptions) [50; -80; 20; -10] H)
    as (H1 & H2 & _).
  split; [exact H|]. split; [qcompute|]. split; [exact H1|exact H2].
Defined.

(** *** Alerts *)




End RiskManagerSpec.

(** ** The order gateway *)

Module OrderManagerSpec.
Import Js JsFacts OrderManager.

(** [placeOrder], one step unfolded: the [try] block, then the [catch]
    with its retry test. *)
Lemma placeOrder_unfold om p now retryCount :
  placeOrder om p now retryCount =
  match tryPlaceOrder om p now retryCount with
  | (inr order_id, om1) => (Placed order_id, om1)
  | (inl error, om1) =>
    if (retryCount <? retryAttempts (config om))%nat
    then placeOrder om1 p (now + retryDelay (config om)) (S retryCount)
    else (NotPlaced error (retryCount + 1), om1)
  end.
Proof.
  funelim (placeOrder om p now retryCount).
  - rewrite e. reflexivity.
  - rewrite Htry, Hlt. reflexivity.
  - rewrite Htry, e. reflexivity.
Qed.

(** On a venue that refuses everything, one attempt throws; it leaves the
    books alone and the venue [contacts p] submissions on. *)
Lemma tryPlaceOrder_refused om p now retryCount :
  refusesEverything (kite om) ->
  exists error om1,
    tryPlaceOrder om p now retryCount = (inl error, om1)
    /\ config om1 = config om
    /\ activeOrders om1 = activeOrders om
    /\ orderHistory om1 = orderHistory om
    /\ answer (kite om1) = answer (kite om)
    /\ submissions (kite om1) = (submissions (kite om) + contacts p)%nat.
Proof.
  intros Href. unfold tryPlaceOrder, contacts, isValid.
  destruct (validateOrderParams p) as [|e es].
  - unfold submit. specialize (Href (submissions (kite om)) p).
    destruct (answer (kite om) (submissions (kite om)) p) as [msg|[oid|]];
      simpl in *.
    + eexists _, _. split; [reflexivity|]. simpl. repeat split; lia.
    + apply negb_true_iff in Href. rewrite Href.
      eexists _, _. split; [reflexivity|]. simpl. repeat split; lia.
    + eexists _, _. split; [reflexivity|]. simpl. repeat split; lia.
  - eexists _, _. split; [reflexivity|]. repeat split; lia.
Qed.

(** On such a venue [placeOrder] goes through every retry it is allowed
    and reports one attempt more than [retryAttempts]: the first try is
    not counted as a retry. *)
Lemma placeOrder_refused (d : nat) :
  forall om p now retryCount,
    refusesEverything (kite om) ->
    (retryAttempts (config om) - retryCount = d)%nat ->
    (retryCount <= retryAttempts (config om))%nat ->
    exists error om1,
      placeOrder om p now retryCount
        = (NotPlaced error (retryAttempts (config om) + 1), om1)
      /\ config om1 = config om
      /\ activeOrders om1 = activeOrders om
      /\ orderHistory om1 = orderHistory om
      /\ submissions (kite om1)
         = (submissions (kite om) + S d * contacts p)%nat.
Proof.
  induction d as [|d IH]; intros om p now retryCount Href Hd Hle;
    rewrite placeOrder_unfold;
    destruct (tryPlaceOrder_refused om p now retryCount Href)
      as (error & om1 & -> & Hc & Ha & Hh & Hans & Hsub).
  - assert (retryCount = retryAttempts (config om)) as -> by lia.
    rewrite Nat.ltb_irrefl. eexists _, _. split; [reflexivity|].
    repeat split; try done. lia.
  - assert (Hlt : (retryCount <? retryAttempts (config om))%nat = true)
      by (apply Nat.ltb_lt; lia).
    rewrite Hlt.
    destruct (IH om1 p (now + retryDelay (config om))%Z (S retryCount))
      as (error' & om2 & Hp & Hc2 & Ha2 & Hh2 & Hsub2).
    + intros n q. rewrite Hans. apply Href.
    + rewrite Hc. lia.
    + rewrite Hc. lia.
    + rewrite Hc in Hp. rewrite Hp. eexists _, _. split; [reflexivity|].
      rewrite Hc2, Ha2, Hh2, Hsub2, Hsub. repeat split; try done. lia.
Qed.

(** The venue that is down refuses everything, whatever was submitted
    before. *)
Lemma venueDown_refuses retries :
  refusesEverything (kite (new venueDown retries)).
Proof. intros n p. reflexivity. Qed.

(** An order placed on a venue that answers with an id is registered as
    PENDING with one attempt. *)
Example placeOrder_accepted :
  let '(r, om) := placeOrder (new venueUp None) marketBuy 0 0 in
  r = Placed "240101000000001"
  /\ length (orderHistory om) = 1%nat
  /\ (attempts <$> activeOrders om !! "240101000000001"%string) = Some 1%nat
  /\ submissions (kite om) = 1%nat.
Proof. vm_compute. auto. Qed.

(** *** Validation *)

Lemma truthy_spec (str : string) : truthy str = true <-> str <> EmptyString.
Proof. destruct str; simpl; split; intros H; congruence. Qed.

Lemma isPositive_spec (x : option Q) :
  isPositive x = true <-> exists v, x = Some v /\ (0 < v)%Q.
Proof.
  unfold isPositive. destruct x as [v|].
  - rewrite andb_true_iff, !negb_true_iff. split.
    + intros [_ H]. exists v. split; [reflexivity|].
      apply Qnot_le_lt. intros Hle. apply leb_true in Hle. congruence.
    + intros (v' & [= <-] & Hv). split.
      * destruct (Qeq_bool v 0) eqn:E; [|reflexivity].
        apply Qeq_bool_iff in E. rewrite E in Hv. discriminate.
      * destruct (leb v 0) eqn:E; [|reflexivity].
        apply leb_true in E. exfalso. eapply Qlt_not_le; eauto.
  - split; [discriminate|]. intros (v & [=] & _).
Qed.

Lemma quantity_accepted (q : Q) :
  Qeq_bool q 0 = false /\ negb (Qeq_bool q 0) && leb q 0 = false <-> (0 < q)%Q.
Proof.
  split.
  - intros [H0 H1]. rewrite H0 in H1. simpl in H1.
    apply Qnot_le_lt. intros Hle. apply leb_true in Hle. congruence.
  - intros Hq. assert (H0 : Qeq_bool q 0 = false).
    { destruct (Qeq_bool q 0) eqn:E; [|reflexivity].
      apply Qeq_bool_iff in E. rewrite E in Hq. discriminate. }
    split; [exact H0|]. rewrite H0. simpl.
    destruct (leb q 0) eqn:E; [|reflexivity].
    apply leb_true in E. exfalso. eapply Qlt_not_le; eauto.
Qed.

Lemma if_singleton_nil {A} (b : bool) (x : A) :
  (if b then [x] else []) = [] <-> b = false.
Proof. destruct b; split; congruence. Qed.

Lemma if_nil_singleton {A} (b : bool) (x : A) :
  (if b then [] else [x]) = [] <-> b = true.
Proof. destruct b; split; congruence. Qed.

Lemma isValid_no_errors (p : OrderParams) :
  isValid p = true <-> validateOrderParams p = [].
Proof.
  unfold isValid. destruct (validateOrderParams p); split; congruence.
Qed.

(** X8.  [validateOrderParams] accepts exactly the orders that name a
    symbol, an exchange, a transaction type, an order type and a product,
    have a positive quantity, carry a positive price when the order type is
    LIMIT and a positive trigger price when it is SL.  No other order type
    needs a price. *)
Theorem validateOrderParams_accepts_exactly (p : OrderParams) :
  isValid p = true
  <-> symbol p <> EmptyString
      /\ exchange p <> EmptyString
      /\ transaction_type p <> EmptyString
      /\ (0 < quantity p)%Q
      /\ order_type p <> EmptyString
      /\ product p <> EmptyString
      /\ (order_type p = "LIMIT"%string ->
          exists v, price p = Some v /\ (0 < v)%Q)
      /\ (order_type p = "SL"%string ->
          exists v, trigger_price p = Some v /\ (0 < v)%Q).
Proof.
  rewrite isValid_no_errors. unfold validateOrderParams.
  rewrite !app_nil, !if_nil_singleton, !if_singleton_nil, !truthy_spec.
  rewrite <- (quantity_accepted (quantity p)).
  rewrite !andb_false_iff, !negb_false_iff, !isPositive_spec.
  rewrite <- !not_true_iff_false, !String.eqb_eq.
  destruct (decide (order_type p = "LIMIT"%string)),
    (decide (order_type p = "SL"%string)); tauto.
Qed.

(** *** Retries *)

Lemma tryPlaceOrder_invalid om p now retryCount :
  isValid p = false ->
  tryPlaceOrder om p now retryCount
  = (inl (OrderValidationFailed (validateOrderParams p)), om).
Proof.
  unfold isValid, tryPlaceOrder.
  destruct (validateOrderParams p); [discriminate|reflexivity].
Qed.

Lemma placeOrder_invalid (d : nat) :
  forall om p now retryCount,
    isValid p = false ->
    (retryAttempts (config om) - retryCount = d)%nat ->
    (retryCount <= retryAttempts (config om))%nat ->
    placeOrder om p now retryCount
    = (NotPlaced (OrderValidationFailed (validateOrderParams p))
         (retryAttempts (config om) + 1), om).
Proof.
  induction d as [|d IH]; intros om p now retryCount Hinv Hd Hle;
    rewrite placeOrder_unfold, (tryPlaceOrder_invalid _ _ _ _ Hinv).
  - assert (retryCount = retryAttempts (config om)) as -> by lia.
    rewrite Nat.ltb_irrefl. reflexivity.
  - assert (Hlt : (retryCount <? retryAttempts (config om))%nat = true)
      by (apply Nat.ltb_lt; lia).
    rewrite Hlt. apply IH; [exact Hinv|lia|lia].
Qed.

(** X9.  An order that fails validation is never submitted to the venue,
    whatever the venue would answer; [placeOrder] still goes through all
    its retries, reports the validation errors with [retryAttempts] + 1
    attempts, and leaves the order manager exactly as it was. *)
Theorem invalid_order_never_reaches_venue (om : t) (p : OrderParams) (now : Z) :
  isValid p = false ->
  placeOrder om p now 0
  = (NotPlaced (OrderValidationFailed (validateOrderParams p))
       (retryAttempts (config om) + 1), om).
Proof.
  intros Hinv. apply (placeOrder_invalid (retryAttempts (config om))); [exact Hinv|lia|lia].
Qed.

Lemma invalid_order_never_reaches_venue_sample :
  isValid emptyOrder = false
  /\ placeOrder (new venueUp None) emptyOrder 0 0
     = (NotPlaced (OrderValidationFailed [MissingRequiredField "quantity"]) 4,
        new venueUp None).
Proof.
  assert (H : isValid emptyOrder = false) by (vm_compute; reflexivity).
  split; [exact H|].
  exact (invalid_order_never_reaches_venue (new venueUp None) emptyOrder 0 H).
Defined.

Lemma tryPlaceOrder_failed_once om p now retryCount :
  isValid p = true ->
  noOrderId (answer (kite om) (submissions (kite om)) p) = true ->
  exists error,
    tryPlaceOrder om p now retryCount = (inl error, afterFailedSubmission om).
Proof.
  intros Hv Hno. apply isValid_no_errors in Hv.
  unfold tryPlaceOrder, submit. rewrite Hv.
  destruct (answer (kite om) (submissions (kite om)) p) as [msg|[oid|]];
    simpl in *.
  - eexists. reflexivity.
  - apply negb_true_iff in Hno. rewrite Hno. eexists. reflexivity.
  - eexists. reflexivity.
Qed.

Lemma placeOrder_recovers (n : nat) :
  forall om p now retryCount order_id,
    isValid p = true ->
    recoversAfter (kite om) p n order_id ->
    (retryCount + n <= retryAttempts (config om))%nat ->
    exists om',
      placeOrder om p now retryCount = (Placed order_id, om')
      /\ submissions (kite om') = (submissions (kite om) + n + 1)%nat
      /\ config om' = config om
      /\ activeOrders om'
         = <[order_id := registered order_id p
                           (now + Z.of_nat n * retryDelay (config om))
                           (retryCount + n + 1)]> (activeOrders om)
      /\ orderHistory om'
         = orderHistory om
           ++ [registered order_id p (now + Z.of_nat n * retryDelay (config om))
                 (retryCount + n + 1)].
Proof.
  induction n as [|n IH]; intros om p now retryCount order_id Hv (Hf & Hs & Ht) Hle;
    rewrite placeOrder_unfold.
  - rewrite Nat.add_0_r in Hs.
    pose proof Hv as Hv'. apply isValid_no_errors in Hv'.
    unfold tryPlaceOrder, submit. rewrite Hv', Hs, Ht.
    eexists. split; [reflexivity|]. cbn [kite submissions config activeOrders orderHistory].
    unfold registered.
    replace (now + Z.of_nat 0 * retryDelay (config om))%Z with now by lia.
    replace (retryCount + 0 + 1)%nat with (retryCount + 1)%nat by lia.
    repeat split; try reflexivity. lia.
  - destruct (tryPlaceOrder_failed_once om p now retryCount Hv) as [error ->].
    { specialize (Hf 0%nat ltac:(lia)). rewrite Nat.add_0_r in Hf. exact Hf. }
    assert (Hlt : (retryCount <? retryAttempts (config om))%nat = true)
      by (apply Nat.ltb_lt; lia).
    rewrite Hlt.
    destruct (IH (afterFailedSubmission om) p (now + retryDelay (config om))%Z
                (S retryCount) order_id Hv) as (om' & Hp & Hsub & Hc & Ha & Hh).
    + unfold recoversAfter, afterFailedSubmission. cbn [kite answer submissions].
      split; [|split; [|exact Ht]].
      * intros i Hi. specialize (Hf (S i) ltac:(lia)).
        replace (S (submissions (kite om)) + i)%nat
          with (submissions (kite om) + S i)%nat by lia. exact Hf.
      * replace (S (submissions (kite om)) + n)%nat
          with (submissions (kite om) + S n)%nat by lia. exact Hs.
    + cbn [afterFailedSubmission config]. lia.
    + exists om'. split; [exact Hp|].
      cbn [afterFailedSubmission kite submissions config activeOrders orderHistory]
        in Hsub, Hc, Ha, Hh.
      replace (now + Z.of_nat (S n) * retryDelay (config om))%Z
        with (now + retryDelay (config om) + Z.of_nat n * retryDelay (config om))%Z
        by lia.
      replace (retryCount + S n + 1)%nat with (S retryCount + n + 1)%nat by lia.
      repeat split; try assumption. lia.
Qed.

(** X10.  When the venue fails the first [n] submissions of a valid order
    and answers the next one with an order id, and [n] is within the
    configured retries, [placeOrder] succeeds with that id after [n] + 1
    submissions; the order is registered once, as PENDING, with [n] + 1
    attempts and a placement time [n] retry delays after the call, both
    among the active orders and as the newest entry of the history. *)
Theorem placeOrder_survives_transient_failures (om : t) (p : OrderParams)
    (now : Z) (n : nat) (order_id : string) :
  isValid p = true ->
  recoversAfter (kite om) p n order_id ->
  (n <= retryAttempts (config om))%nat ->
  exists om',
    let order := registered order_id p
                   (now + Z.of_nat n * retryDelay (config om)) (n + 1) in
    placeOrder om p now 0 = (Placed order_id, om')
    /\ submissions (kite om') = (submissions (kite om) + n + 1)%nat
    /\ activeOrders om' !! order_id = Some order
    /\ orderHistory om' = orderHistory om ++ [order]
    /\ (forall limit, (0 < limit)%nat -> last (getOrderHistory om' limit) = Some order).
Proof.
  intros Hv Hr Hn.
  destruct (placeOrder_recovers n om p now 0%nat order_id Hv Hr ltac:(lia))
    as (om' & Hp & Hsub & _ & Ha & Hh).
  exists om'. cbv zeta. simpl in Ha, Hh.
  split; [exact Hp|]. split; [exact Hsub|].
  split; [rewrite Ha; apply lookup_insert_eq|].
  split; [exact Hh|].
  intros limit Hl. unfold getOrderHistory.
  destruct limit as [|limit]; [lia|].
  rewrite Hh.
  set (h := orderHistory om). set (o := registered _ _ _ _).
  destruct (decide (length (h ++ [o]) - S limit < length h)%nat) as [Hlt|Hge].
  - rewrite drop_app_le by lia. apply last_snoc.
  - rewrite length_app in *. simpl in *.
    replace (length h + 1 - S limit)%nat with (length h) by lia.
    rewrite drop_app_length. reflexivity.
Qed.

Lemma placeOrder_survives_transient_failures_sample :
  isValid marketBuy = true
  /\ recoversAfter (kite (new venueFlaky None)) marketBuy 2 "240101000000002"
  /\ exists om',
       placeOrder (new venueFlaky None) marketBuy 0 0
       = (Placed "240101000000002", om')
       /\ submissions (kite om') = 3%nat
       /\ attempts <$> activeOrders om' !! "240101000000002"%string = Some 3%nat
       /\ placedAt <$> last (orderHistory om') = Some 2000%Z.
Proof.
  assert (Hv : isValid marketBuy = true) by (vm_compute; reflexivity).
  assert (Hr : recoversAfter (kite (new venueFlaky None)) marketBuy 2
                 "240101000000002").
  { split; [|split; reflexivity].
    intros i Hi. simpl. destruct i as [|[|i]]; [reflexivity|reflexivity|lia]. }
  destruct (placeOrder_survives_transient_failures (new venueFlaky None)
              marketBuy 0 2 "240101000000002" Hv Hr ltac:(simpl; lia))
    as (om' & Hp & Hsub & Ha & Hh & _).
  split; [exact Hv|]. split; [exact Hr|].
  exists om'. split; [exact Hp|]. split; [exact Hsub|].
  split; [rewrite Ha; reflexivity|].
  rewrite Hh. simpl. reflexivity.
Defined.

(** X11.  [getOrderHistory(limit)] with a positive limit returns the
    newest orders of the history, in order, [limit] of them or all when
    there are fewer; with a limit of 0 it returns the whole history, not
    an empty list. *)
Theorem getOrderHistory_window (om : t) (limit : nat) :
  (exists older, orderHistory om = older ++ getOrderHistory om limit)
  /\ ((0 < limit)%nat ->
      length (getOrderHistory om limit)
      = Nat.min limit (length (orderHistory om)))
  /\ getOrderHistory om 0 = orderHistory om.
Proof.
  unfold getOrderHistory. split; [|split; [|reflexivity]].
  - destruct limit as [|limit]; [exists []; reflexivity|].
    exists (take (length (orderHistory om) - S limit) (orderHistory om)).
    symmetry. apply take_drop.
  - intros Hl. destruct limit as [|limit]; [lia|].
    rewrite length_drop. lia.
Qed.

End OrderManagerSpec.

(** ** The strategy state machine *)

Module TradingStrategySpec.
Import Js JsFacts TradingStrategy.
Local Open Scope Q_scope.

(** *** The trading window *)

Lemma isMarketHours_spec s now :
  isMarketHours s now = true <-> withinTradingHours s now.
Proof.
  unfold isMarketHours, withinTradingHours.
  rewrite andb_true_iff, !Z.leb_le. reflexivity.
Qed.

(** C8, as the code has it.  Before the first instant of the trading
    window and after its last one, a tick answers NO_ACTION and leaves the
    strategy and the order manager as they were, whatever the state; the
    two end instants themselves belong to the window. *)
Theorem execute_outside_trading_hours (s : t) (marketData : MarketData)
    (om : OrderManager.t) (rm : RiskManager.t) (now : Z) :
  ~ withinTradingHours s now ->
  execute s marketData om rm now
  = (Some (Action.NO_ACTION OutsideTradingHours), s, om).
Proof.
  intros Hout. unfold execute.
  destruct (isMarketHours s now) eqn:E; [|reflexivity].
  apply isMarketHours_spec in E. contradiction.
Qed.

Lemma execute_outside_trading_hours_before_open :
  ~ withinTradingHours firstEntry.1.2 (at_ 1 9 59 59)
  /\ currentPosition (state firstEntry.1.2) <> None
  /\ execute firstEntry.1.2 (quote 102 100) firstEntry.2 rmDefault (at_ 1 9 59 59)
     = (Some (Action.NO_ACTION OutsideTradingHours), firstEntry.1.2, firstEntry.2).
Proof.
  assert (H : ~ withinTradingHours firstEntry.1.2 (at_ 1 9 59 59)).
  { intros [H _]. vm_compute in H. apply H. reflexivity. }
  split; [exact H|]. split; [vm_compute; discriminate|].
  exact (execute_outside_trading_hours _ (quote 102 100) firstEntry.2 rmDefault _ H).
Defined.

(** At the opening instant itself the strategy is already trading. *)
Lemma execute_trades_at_the_opening_instant :
  ~ (~ strictlyInsideTradingHours (new defaultConfig) (at_ 0 10 0 0) ->
     exists r,
       execute (new defaultConfig) (quote 101 100) omUp rmDefault (at_ 0 10 0 0)
       = (Some (Action.NO_ACTION r), new defaultConfig, omUp)).
Proof.
  intros H. destruct H as [r Hr].
  - intros [H _]. vm_compute in H. discriminate.
  - apply (f_equal (fun x => currentPosition (state x.1.2))) in Hr.
    vm_compute in Hr. discriminate.
Qed.

(** *** Entries *)

Lemma enterPosition_cases s signal om now :
  (exists order_id om1,
     enterPosition s signal om now
     = (Some (Action.POSITION_ENTERED (openedPosition s signal order_id now)
                (signal_reason signal)),
        setState s (set_currentPosition (state s)
                      (Some (openedPosition s signal order_id now))),
        om1))
  \/ (exists om1, enterPosition s signal om now = (None, s, om1)).
Proof.
  unfold enterPosition.
  destruct (OrderManager.placeOrder _ _ _ _) as [[order_id|error n] om1].
  - left. eexists _, _. reflexivity.
  - right. eexists. reflexivity.
Qed.

(** Managing an open position never reports an entry, and changes the
    strategy only by recording an exit. *)
Lemma manageExistingPosition_cases s p marketData now :
  manageExistingPosition s p marketData now = (Action.MONITORING p, s)
  \/ manageExistingPosition s p marketData now = handleTargetHit s p now
  \/ manageExistingPosition s p marketData now = handleStopLossHit s p now.
Proof.
  unfold manageExistingPosition.
  repeat case_match; auto.
Qed.

(** What a tick that reports an entry has done. *)
Lemma checkPosition_entered s marketData om now pos r s' om' :
  checkPosition s marketData om now
  = (Some (Action.POSITION_ENTERED pos r), s', om') ->
  currentPosition (state s) = None
  /\ (exists order_id,
        pos = openedPosition s (generateEntrySignal marketData) order_id now)
  /\ s' = setState s (set_currentPosition (state s) (Some pos)).
Proof.
  unfold checkPosition. destruct (currentPosition (state s)) as [p|] eqn:Ecur.
  - destruct (manageExistingPosition_cases s p marketData now)
      as [-> | [-> | ->]]; simpl; discriminate.
  - unfold lookForEntry.
    destruct (_ && _); [|discriminate].
    destruct (shouldEnter _); [|discriminate].
    destruct (enterPosition_cases s (generateEntrySignal marketData) om now)
      as [(order_id & om1 & ->) | (om1 & ->)]; [|discriminate].
    intros [= <- _ <- _]. split; [reflexivity|]. split; [|reflexivity].
    exists order_id. reflexivity.
Qed.

Lemma execute_entered s marketData om rm now pos r s' om' :
  execute s marketData om rm now
  = (Some (Action.POSITION_ENTERED pos r), s', om') ->
  currentPosition (state s) = None
  /\ quantity pos = calculatePositionSize s
  /\ entryPrice pos = ltp marketData
  /\ targetPrice pos
     = ltp marketData * (1 + initialProfitTarget (config s) / 100)
  /\ stopLossPrice pos
     = ltp marketData * (1 - initialStopLoss (config s) / 100)
  /\ isFollowUp pos = false
  /\ currentPosition (state s') = Some pos.
Proof.
  unfold execute.
  destruct (negb (isMarketHours s now)); [discriminate|].
  destruct (negb (RiskManager.canTrade _)); [discriminate|].
  destruct (waitingForCandle (state s)) eqn:Ew.
  - destruct (negb (isCandleComplete s now)); [discriminate|].
    intros H. apply checkPosition_entered in H as (Hcur & [oid ->] & ->).
    simpl in Hcur. unfold openedPosition. simpl. rewrite Hcur. simpl.
    repeat split; reflexivity.
  - intros H. apply checkPosition_entered in H as (Hcur & [oid ->] & ->).
    unfold openedPosition. simpl. rewrite Hcur. simpl.
    repeat split; reflexivity.
Qed.

(** *** Sizing *)











(** The price of the instrument plays no part: at the price of the index
    the stated rule buys nothing, the code buys 20 units. *)
Example quantity_ignores_the_unit_price :
  exists pos,
    entered (execute (new defaultConfig) (quote 19500 19450) omUp rmDefault
               (at_ 0 10 0 0)).1.1 = Some pos
    /\ entryPrice pos == 19500
    /\ quantity pos == 20
    /\ statedPositionSize (initialCapital defaultConfig)
         (positionSizePercent defaultConfig) (entryPrice pos) 1 == 0.
Proof.
  eexists. split; [vm_compute; reflexivity|].
  repeat (split; [qcompute|]). qcompute.
Qed.

(** *** Targets and stops *)

(** Every entry a tick makes is priced with the initial percentages and is
    not flagged as a follow-up, whatever the latest exit was: the slot of
    the current position is empty whenever an entry is looked for. *)
Lemma entry_uses_initial_percentages s marketData om rm now pos r s' om' :
  execute s marketData om rm now
  = (Some (Action.POSITION_ENTERED pos r), s', om') ->
  targetPrice pos = entryPrice pos * (1 + initialProfitTarget (config s) / 100)
  /\ stopLossPrice pos = entryPrice pos * (1 - initialStopLoss (config s) / 100)
  /\ isFollowUp pos = false.
Proof.
  intros He. apply execute_entered in He as (_ & _ & -> & -> & -> & -> & _).
  repeat split; reflexivity.
Qed.

(** C3.  The run of the default configuration that enters on day 0,
    exits at its profit target and enters again on day 1: the second
    position is half as large, yet its target and its stop are those of
    the initial percentages (0.75 and 0.35), not of the follow-up ones
    (0.35 and 0.15), and it is not flagged as a follow-up.  After a
    stop-loss exit the next entry has the initial percentages, as
    stated. *)
Theorem entry_after_target_keeps_initial_percentages :
  lastExit targetExit.1.2 = Some TARGET_HIT
  /\ lastExit stopExit.1.2 = Some STOP_LOSS_HIT
  /\ (exists pos,
        entered entryAfterTarget.1.1 = Some pos
        /\ quantity pos == 10
        /\ targetPrice pos
           == entryPrice pos * (1 + initialProfitTarget defaultConfig / 100)
        /\ stopLossPrice pos
           == entryPrice pos * (1 - initialStopLoss defaultConfig / 100)
        /\ ~ targetPrice pos
             == entryPrice pos * (1 + followUpProfitTarget defaultConfig / 100)
        /\ ~ stopLossPrice pos
             == entryPrice pos * (1 - followUpStopLoss defaultConfig / 100)
        /\ isFollowUp pos = false)
  /\ (exists pos,
        entered entryAfterStop.1.1 = Some pos
        /\ quantity pos == 20
        /\ targetPrice pos
           == entryPrice pos * (1 + initialProfitTarget defaultConfig / 100)
        /\ stopLossPrice pos
           == entryPrice pos * (1 - initialStopLoss defaultConfig / 100)).
Proof.
  split; [vm_compute; reflexivity|]. split; [vm_compute; reflexivity|]. split.
  - eexists. split; [vm_compute; reflexivity|].
    repeat (split; [qcompute|]). reflexivity.
  - eexists. split; [vm_compute; reflexivity|].
    repeat (split; [qcompute|]). qcompute.
Qed.

(** *** Failed placements *)

Lemma checkPosition_no_entry s marketData om now :
  OrderManager.refusesEverything (OrderManager.kite om) ->
  currentPosition (state s) = None ->
  currentPosition (state (checkPosition s marketData om now).1.2) = None.
Proof.
  intros Href Hcur. unfold checkPosition. rewrite Hcur. unfold lookForEntry.
  destruct (_ && _); [|exact Hcur].
  destruct (shouldEnter _); [|exact Hcur].
  unfold enterPosition.
  match goal with
  | |- context [OrderManager.placeOrder om ?o now 0] =>
    destruct (OrderManagerSpec.placeOrder_refused _ om o now 0%nat Href eq_refl)
      as (error & om1 & -> & _); [lia|]
  end.
  exact Hcur.
Qed.

(** C4, as the code has it.  On a venue where every submission fails,
    [placeOrder] reports failure with one attempt more than the
    configured number of retries (the first try is not a retry), having
    submitted a valid order that many times; the strategy's
    [enterPosition] then leaves the strategy as it was, and a tick that
    starts without a position ends without one. *)
Theorem refused_order_opens_no_position (s : t) (signal : Signal)
    (marketData : MarketData) (rm : RiskManager.t) (om : OrderManager.t)
    (p : OrderManager.OrderParams) (now : Z) :
  OrderManager.refusesEverything (OrderManager.kite om) ->
  (exists error om1,
     OrderManager.placeOrder om p now 0
     = (OrderManager.NotPlaced error
          (OrderManager.retryAttempts (OrderManager.config om) + 1), om1)
     /\ OrderManager.submissions (OrderManager.kite om1)
        = (OrderManager.submissions (OrderManager.kite om)
           + (OrderManager.retryAttempts (OrderManager.config om) + 1)
             * OrderManager.contacts p)%nat)
  /\ (exists om1, enterPosition s signal om now = (None, s, om1))
  /\ (currentPosition (state s) = None ->
      currentPosition (state (execute s marketData om rm now).1.2) = None).
Proof.
  intros Href. split; [|split].
  - destruct (OrderManagerSpec.placeOrder_refused _ om p now 0%nat Href eq_refl)
      as (error & om1 & Hp & _ & _ & _ & Hsub); [lia|].
    exists error, om1. split; [exact Hp|]. rewrite Hsub. lia.
  - unfold enterPosition.
    match goal with
    | |- context [OrderManager.placeOrder om ?o now 0] =>
      destruct (OrderManagerSpec.placeOrder_refused _ om o now 0%nat Href eq_refl)
        as (error & om1 & -> & _); [lia|]
    end.
    exists om1. reflexivity.
  - intros Hcur. unfold execute.
    destruct (negb (isMarketHours s now)); [exact Hcur|].
    destruct (negb (RiskManager.canTrade _)); [exact Hcur|].
    destruct (waitingForCandle (state s)).
    + destruct (negb (isCandleComplete s now)); [exact Hcur|].
      apply checkPosition_no_entry; [exact Href|exact Hcur].
    + apply checkPosition_no_entry; [exact Href|exact Hcur].
Qed.

Lemma refused_order_opens_no_position_venue_down :
  OrderManager.refusesEverything (OrderManager.kite omDown)
  /\ OrderManager.retryAttempts (OrderManager.config omDown) = 3%nat
  /\ (exists error om1,
        OrderManager.placeOrder omDown OrderManager.marketBuy 0 0
        = (OrderManager.NotPlaced error 4, om1)
        /\ OrderManager.submissions (OrderManager.kite om1) = 4%nat)
  /\ (exists om1,
        enterPosition (new defaultConfig) (generateEntrySignal (quote 101 100))
          omDown (at_ 0 10 0 0)
        = (None, new defaultConfig, om1))
  /\ currentPosition
       (state (execute (new defaultConfig) (quote 101 100) omDown rmDefault
                 (at_ 0 10 0 0)).1.2) = None.
Proof.
  pose proof (OrderManagerSpec.venueDown_refuses (Some 3%nat)) as Href.
  destruct (refused_order_opens_no_position (new defaultConfig)
              (generateEntrySignal (quote 101 100)) (quote 101 100) rmDefault
              omDown OrderManager.marketBuy (at_ 0 10 0 0) Href)
    as ((error & om1 & Hp & Hsub) & He & Hx).
  split; [exact Href|]. split; [reflexivity|]. split; [|split].
  - exists error, om1. split; [exact Hp|exact Hsub].
  - exact He.
  - exact (Hx eq_refl).
Defined.

(** With three retries configured the failure result counts four
    attempts, not three. *)
Lemma three_retries_make_four_attempts :
  ~ (let r := (OrderManager.placeOrder omDown OrderManager.marketBuy 0 0).1 in
     OrderManager.success r = false
     /\ OrderManager.resultAttempts r = Some 3%nat
     /\ currentPosition
          (state (execute (new defaultConfig) (quote 101 100) omDown rmDefault
                    (at_ 0 10 0 0)).1.2) = None).
Proof.
  cbv zeta. intros (_ & H & _). vm_compute in H. discriminate.
Qed.

(** *** What a tick does, gate by gate *)

Lemma execute_gates_open s marketData om rm now :
  withinTradingHours s now -> riskAllows s rm ->
  execute s marketData om rm now
  = if waitingForCandle (state s) then
      if negb (isCandleComplete s now) then (Some Action.WAITING, s, om)
      else checkPosition (setState s (set_waitingForCandle (state s) false))
             marketData om now
    else checkPosition s marketData om now.
Proof.
  intros Hh Hr. unfold execute.
  apply isMarketHours_spec in Hh. rewrite Hh. unfold riskAllows in Hr.
  rewrite Hr. reflexivity.
Qed.

Lemma execute_entered_gates s marketData om rm now pos r s' om' :
  execute s marketData om rm now
  = (Some (Action.POSITION_ENTERED pos r), s', om') ->
  withinTradingHours s now /\ riskAllows s rm
  /\ (waitingForCandle (state s) = true -> isCandleComplete s now = true)
  /\ checkPosition
       (if waitingForCandle (state s)
        then setState s (set_waitingForCandle (state s) false) else s)
       marketData om now
     = (Some (Action.POSITION_ENTERED pos r), s', om').
Proof.
  unfold execute, riskAllows.
  destruct (isMarketHours s now) eqn:Eh; [|discriminate].
  apply isMarketHours_spec in Eh. cbn [negb].
  destruct (RiskManager.canTrade _) eqn:Er; [|discriminate]. cbn [negb].
  destruct (waitingForCandle (state s)).
  - destruct (isCandleComplete s now); [|discriminate]. cbn [negb].
    intros H. split; [exact Eh|]. split; [reflexivity|].
    split; [reflexivity|exact H].
  - intros H. split; [exact Eh|]. split; [reflexivity|].
    split; [discriminate|exact H].
Qed.

(** X12.  A tick enters a position only when all of this holds: the time
    is inside the trading window and in the hour and minute of its start,
    the risk manager allows trading, no position is open, a pending wait
    for the candle is over, the price is above the open, and the order
    manager has placed the order whose id the position carries.  The
    position is entered at the last traded price. *)
Theorem entry_requires (s : t) (marketData : MarketData) (om : OrderManager.t)
    (rm : RiskManager.t) (now : Z) (pos : Position) (r : SignalReason)
    (s' : t) (om' : OrderManager.t) :
  execute s marketData om rm now
  = (Some (Action.POSITION_ENTERED pos r), s', om') ->
  withinTradingHours s now
  /\ getHours now = getHours (parseTime now (tradingStartTime (config s)))
  /\ getMinutes now = getMinutes (parseTime now (tradingStartTime (config s)))
  /\ riskAllows s rm
  /\ currentPosition (state s) = None
  /\ (waitingForCandle (state s) = true -> isCandleComplete s now = true)
  /\ (open marketData < ltp marketData)%Q
  /\ entryPrice pos = ltp marketData
  /\ r = PriceAboveOpening
  /\ (exists order,
        OrderManager.placeOrder om order now 0
        = (OrderManager.Placed (orderId pos), om')
        /\ OrderManager.quantity order = quantity pos
        /\ OrderManager.order_type order = "MARKET"%string)
  /\ waitingForCandle (state s') = false.
Proof.
  intros He. apply execute_entered_gates in He as (Hh & Hr & Hw & Hc).
  split; [exact Hh|].
  set (s0 := if waitingForCandle (state s)
             then setState s (set_waitingForCandle (state s) false) else s) in *.
  assert (Hcfg : config s0 = config s)
    by (unfold s0; destruct (waitingForCandle (state s)); reflexivity).
  assert (Hcur : currentPosition (state s0) = currentPosition (state s))
    by (unfold s0; destruct (waitingForCandle (state s)); reflexivity).
  assert (Hw0 : waitingForCandle (state s0) = false).
  { unfold s0. destruct (waitingForCandle (state s)) eqn:E; [reflexivity|exact E]. }
  unfold checkPosition in Hc.
  destruct (currentPosition (state s0)) as [p|] eqn:Ecur.
  { destruct (manageExistingPosition_cases s0 p marketData now)
      as [H | [H | H]]; rewrite H in Hc; simpl in Hc; discriminate. }
  unfold lookForEntry in Hc. rewrite Hcfg in Hc.
  destruct (getHours now =? _)%Z eqn:EH; [|discriminate].
  destruct (getMinutes now =? _)%Z eqn:EM; [|discriminate].
  cbn [andb] in Hc.
  apply Z.eqb_eq in EH, EM.
  destruct (shouldEnter (generateEntrySignal marketData)) eqn:Esig; [|discriminate].
  unfold generateEntrySignal in Esig. cbn [shouldEnter] in Esig.
  apply gtb_true in Esig.
  unfold enterPosition in Hc.
  destruct (OrderManager.placeOrder om _ now 0) as [[order_id|error n] om1] eqn:Ep;
    [|discriminate].
  injection Hc as <- <- <- <-.
  split; [exact EH|]. split; [exact EM|]. split; [exact Hr|].
  split; [rewrite <- Hcur; reflexivity|]. split; [exact Hw|].
  split; [exact Esig|]. split; [reflexivity|].
  split; [unfold generateEntrySignal; cbn; rewrite (proj2 (gtb_true _ _) Esig); reflexivity|].
  split; [|exact Hw0].
  eexists. split; [exact Ep|]. split; reflexivity.
Qed.

Lemma entry_requires_first_entry :
  exists pos r,
    firstEntry.1.1 = Some (Action.POSITION_ENTERED pos r)
    /\ withinTradingHours (new defaultConfig) (at_ 0 10 0 0)
    /\ (open (quote 101 100) < ltp (quote 101 100))%Q
    /\ entryPrice pos = ltp (quote 101 100).
Proof.
  destruct firstEntry as [[a s'] om'] eqn:E.
  assert (Ha : exists pos r, a = Some (Action.POSITION_ENTERED pos r)).
  { apply (f_equal (fun x => x.1.1)) in E. cbn [fst] in E. rewrite <- E.
    vm_compute. eexists _, _. reflexivity. }
  destruct Ha as (pos & r & ->).
  unfold firstEntry in E.
  pose proof (entry_requires _ _ _ _ _ _ _ _ _ E)
    as (Hh & _ & _ & _ & _ & _ & Hlt & Hp & _).
  exists pos, r. split; [reflexivity|]. split; [exact Hh|].
  split; [exact Hlt|exact Hp].
Defined.

(** X13.  When the risk manager refuses, a tick inside the trading window
    does nothing at all: it answers NO_ACTION with the refusal's reason and
    leaves the strategy and the order manager unchanged.  An open position
    is then not managed: it stays open even with the price beyond its stop
    or its target. *)
Theorem risk_refusal_freezes_the_strategy (s : t) (marketData : MarketData)
    (om : OrderManager.t) (rm : RiskManager.t) (now : Z) :
  withinTradingHours s now -> ~ riskAllows s rm ->
  execute s marketData om rm now
  = (Some (Action.NO_ACTION
             (RiskLimit
                (RiskManager.reason
                   (RiskManager.checkDailyLimits rm (dailyPnL (state s))
                      (Js.ofNat (length (dailyTrades (state s)))))))),
     s, om).
Proof.
  intros Hh Hr. unfold execute.
  apply isMarketHours_spec in Hh. rewrite Hh. cbn [negb].
  unfold riskAllows in Hr.
  destruct (RiskManager.canTrade _); [contradiction|reflexivity].
Qed.

Lemma risk_refusal_freezes_the_strategy_open_position :
  withinTradingHours firstEntry.1.2 (at_ 0 10 5 0)
  /\ ~ riskAllows firstEntry.1.2 RiskManager.afterThreeLosses
  /\ (exists p, currentPosition (state firstEntry.1.2) = Some p
                /\ (90 <= stopLossPrice p)%Q)
  /\ execute firstEntry.1.2 (quote 90 100) firstEntry.2
       RiskManager.afterThreeLosses (at_ 0 10 5 0)
     = (Some (Action.NO_ACTION
                (RiskLimit (RiskManager.MaximumConsecutiveLossesReached 3))),
        firstEntry.1.2, firstEntry.2).
Proof.
  assert (Hh : withinTradingHours firstEntry.1.2 (at_ 0 10 5 0)).
  { split; vm_compute; discriminate. }
  assert (Hr : ~ riskAllows firstEntry.1.2 RiskManager.afterThreeLosses).
  { unfold riskAllows. intros H. vm_compute in H. discriminate. }
  pose proof (risk_refusal_freezes_the_strategy firstEntry.1.2 (quote 90 100)
                firstEntry.2 RiskManager.afterThreeLosses (at_ 0 10 5 0) Hh Hr) as He.
  split; [exact Hh|]. split; [exact Hr|]. split.
  - eexists. split; [vm_compute; reflexivity|]. qcompute.
  - rewrite He.
    match goal with
    | |- context [RiskManager.reason ?c] =>
      assert (Hx : RiskManager.reason c
                   = RiskManager.MaximumConsecutiveLossesReached 3)
        by (vm_compute; reflexivity);
      rewrite Hx
    end.
    reflexivity.
Defined.

(** X14.  While a wait for the candle is pending and its end has not
    come, a tick inside the trading window that the risk manager allows
    answers WAITING and changes nothing; an open position is not looked at
    and no entry is attempted. *)
Theorem waiting_for_candle_changes_nothing (s : t) (marketData : MarketData)
    (om : OrderManager.t) (rm : RiskManager.t) (now candleEnd : Z) :
  withinTradingHours s now -> riskAllows s rm ->
  waitingForCandle (state s) = true ->
  candleEndTime (state s) = Some candleEnd -> (now < candleEnd)%Z ->
  execute s marketData om rm now = (Some Action.WAITING, s, om).
Proof.
  intros Hh Hr Hw He Hlt.
  rewrite (execute_gates_open _ _ _ _ _ Hh Hr), Hw.
  unfold isCandleComplete. rewrite He. simpl.
  destruct (candleEnd <=? now)%Z eqn:E; [apply Z.leb_le in E; lia|reflexivity].
Qed.

Lemma waiting_for_candle_changes_nothing_after_target :
  withinTradingHours targetExit.1.2 (at_ 0 10 45 0)
  /\ riskAllows targetExit.1.2 rmDefault
  /\ candleEndTime (state targetExit.1.2) = Some (at_ 0 11 0 0)
  /\ execute targetExit.1.2 (quote 101 100) targetExit.2 rmDefault (at_ 0 10 45 0)
     = (Some Action.WAITING, targetExit.1.2, targetExit.2).
Proof.
  assert (Hh : withinTradingHours targetExit.1.2 (at_ 0 10 45 0)).
  { split; vm_compute; discriminate. }
  assert (Hr : riskAllows targetExit.1.2 rmDefault) by (vm_compute; reflexivity).
  assert (Hw : waitingForCandle (state targetExit.1.2) = true)
    by (vm_compute; reflexivity).
  assert (He : candleEndTime (state targetExit.1.2) = Some (at_ 0 11 0 0))
    by (vm_compute; reflexivity).
  split; [exact Hh|]. split; [exact Hr|]. split; [exact He|].
  apply (waiting_for_candle_changes_nothing _ _ _ _ _ _ Hh Hr Hw He).
  vm_compute. reflexivity.
Defined.

(** *** Exits *)

Lemma handleTargetHit_closes s p now :
  closedBy s (handleTargetHit s p now).2 p TARGET_HIT now
    (followUpSizeReduction (config s)).
Proof. unfold closedBy, handleTargetHit. simpl. repeat split. Qed.

Lemma handleStopLossHit_closes s p now :
  closedBy s (handleStopLossHit s p now).2 p STOP_LOSS_HIT now 1.
Proof. unfold closedBy, handleStopLossHit. simpl. repeat split. Qed.

(** X15.  With a long position open, the gates passed and no wait
    pending, a tick decides on the last traded price alone: at or above
    the target it closes the position as TARGET_HIT, otherwise at or below
    the stop as STOP_LOSS_HIT, otherwise it reports MONITORING and changes
    nothing.  An exit clears the position, appends one trade, starts a
    wait until the next top of the hour and sets the multiplier of the
    next entry (the follow-up reduction after a target, 1 after a stop);
    the order manager is not called. *)
Theorem open_position_exit_decision (s : t) (marketData : MarketData)
    (om : OrderManager.t) (rm : RiskManager.t) (now : Z) (p : Position) :
  withinTradingHours s now -> riskAllows s rm ->
  waitingForCandle (state s) = false ->
  currentPosition (state s) = Some p -> direction p = "BUY"%string ->
  let '(action, s', om') := execute s marketData om rm now in
  om' = om
  /\ ((targetPrice p <= ltp marketData)%Q ->
      action = Some (Action.TARGET_HIT p (getNextCandleEndTime now))
      /\ closedBy s s' p TARGET_HIT now (followUpSizeReduction (config s)))
  /\ ((ltp marketData < targetPrice p)%Q ->
      (ltp marketData <= stopLossPrice p)%Q ->
      action = Some (Action.STOP_LOSS_HIT p (getNextCandleEndTime now))
      /\ closedBy s s' p STOP_LOSS_HIT now 1)
  /\ ((ltp marketData < targetPrice p)%Q ->
      (stopLossPrice p < ltp marketData)%Q ->
      action = Some (Action.MONITORING p) /\ s' = s).
Proof.
  intros Hh Hr Hw Hcur Hdir.
  rewrite (execute_gates_open _ _ _ _ _ Hh Hr), Hw.
  unfold checkPosition. rewrite Hcur.
  unfold manageExistingPosition. rewrite Hdir. cbn [String.eqb Ascii.eqb Bool.eqb].
  destruct (geb (ltp marketData) (targetPrice p)) eqn:Et.
  - apply geb_true in Et.
    pose proof (handleTargetHit_closes s p now) as Hc.
    destruct (handleTargetHit s p now) as [a s1] eqn:E.
    assert (a = Action.TARGET_HIT p (getNextCandleEndTime now)) as ->
      by (unfold handleTargetHit in E; injection E as <- _; reflexivity).
    split; [reflexivity|]. split; [intros _; split; [reflexivity|exact Hc]|].
    split; intros Hlt; exfalso; eapply Qlt_not_le; eauto.
  - apply geb_false in Et. apply Qnot_le_lt in Et.
    destruct (leb (ltp marketData) (stopLossPrice p)) eqn:Es.
    + apply leb_true in Es.
      pose proof (handleStopLossHit_closes s p now) as Hc.
      destruct (handleStopLossHit s p now) as [a s1] eqn:E.
      assert (a = Action.STOP_LOSS_HIT p (getNextCandleEndTime now)) as ->
        by (unfold handleStopLossHit in E; injection E as <- _; reflexivity).
      split; [reflexivity|].
      split; [intros Hle; exfalso; eapply Qlt_not_le; eauto|].
      split; [intros _ _; split; [reflexivity|exact Hc]|].
      intros _ Hlt. exfalso. eapply Qlt_not_le; eauto.
    + split; [reflexivity|].
      split; [intros Hle; exfalso; eapply Qlt_not_le; eauto|].
      split; [intros _ Hle; apply leb_true in Hle; congruence|].
      intros _ _. split; reflexivity.
Qed.

Lemma open_position_exit_decision_sample :
  withinTradingHours firstEntry.1.2 (at_ 0 10 0 30)
  /\ riskAllows firstEntry.1.2 rmDefault
  /\ exists p,
       currentPosition (state firstEntry.1.2) = Some p
       /\ direction p = "BUY"%string
       /\ (targetPrice p <= ltp (quote 102 100))%Q
       /\ targetExit.1.1 = Some (Action.TARGET_HIT p (getNextCandleEndTime (at_ 0 10 0 30)))
       /\ closedBy firstEntry.1.2 targetExit.1.2 p TARGET_HIT (at_ 0 10 0 30)
            (followUpSizeReduction (config firstEntry.1.2)).
Proof.
  assert (Hh : withinTradingHours firstEntry.1.2 (at_ 0 10 0 30)).
  { split; vm_compute; discriminate. }
  assert (Hr : riskAllows firstEntry.1.2 rmDefault) by (vm_compute; reflexivity).
  assert (Hw : waitingForCandle (state firstEntry.1.2) = false)
    by (vm_compute; reflexivity).
  destruct (currentPosition (state firstEntry.1.2)) as [p|] eqn:Ecur;
    [|vm_compute in Ecur; discriminate].
  assert (Hd : direction p = "BUY"%string).
  { vm_compute in Ecur. injection Ecur as <-. reflexivity. }
  assert (Ht : (targetPrice p <= ltp (quote 102 100))%Q).
  { vm_compute in Ecur. injection Ecur as <-. qcompute. }
  pose proof (open_position_exit_decision firstEntry.1.2 (quote 102 100)
                firstEntry.2 rmDefault (at_ 0 10 0 30) p Hh Hr Hw Ecur Hd) as H.
  fold targetExit in H. destruct targetExit as [[a s'] om'].
  destruct H as (_ & H & _). destruct (H Ht) as [Ha Hc].
  split; [exact Hh|]. split; [exact Hr|].
  exists p. split; [reflexivity|]. split; [exact Hd|]. split; [exact Ht|].
  split; [exact Ha|exact Hc].
Defined.

Lemma calculatePnL_books_the_stop s p :
  (calculatePnL s p == - (entryPrice p * quantity p * bookedLossPercent s p / 100))%Q.
Proof.
  unfold calculatePnL, bookedLossPercent, position_exitReason.
  cbv iota. destruct (isFollowUp p); field.
Qed.

(** X16.  Every exit is booked with the stop-loss percentage, a target
    exit too: when a tick closes a position as TARGET_HIT, the strategy's
    daily result changes by minus entryPrice * quantity * stopLossPercent /
    100 (the initial percentage, or the follow-up one for a position
    flagged as follow-up), so with a positive price, quantity and
    percentage a profit-target exit lowers the daily result. *)
Theorem target_exit_is_booked_as_a_loss (s : t) (marketData : MarketData)
    (om : OrderManager.t) (rm : RiskManager.t) (now : Z)
    (p : Position) (waitingUntil : Z) (s' : t) (om' : OrderManager.t) :
  execute s marketData om rm now
  = (Some (Action.TARGET_HIT p waitingUntil), s', om') ->
  (dailyPnL (state s')
   == dailyPnL (state s)
      - entryPrice p * quantity p * bookedLossPercent s p / 100)%Q
  /\ ((0 < entryPrice p)%Q -> (0 < quantity p)%Q -> (0 < bookedLossPercent s p)%Q ->
      (dailyPnL (state s') < dailyPnL (state s))%Q)
  /\ (targetPrice p <= ltp marketData)%Q.
Proof.
  intros He.
  assert (Hcore : (dailyPnL (state s') = dailyPnL (state s) + calculatePnL s p)%Q
                  /\ (targetPrice p <= ltp marketData)%Q
                  /\ bookedLossPercent s' p = bookedLossPercent s p).
  { unfold execute in He.
    destruct (negb (isMarketHours s now)); [discriminate|].
    destruct (negb (RiskManager.canTrade _)); [discriminate|].
    assert (Hcp : forall s0,
               config s0 = config s -> dailyPnL (state s0) = dailyPnL (state s) ->
               checkPosition s0 marketData om now
               = (Some (Action.TARGET_HIT p waitingUntil), s', om') ->
               (dailyPnL (state s') = dailyPnL (state s) + calculatePnL s p)%Q
               /\ (targetPrice p <= ltp marketData)%Q
               /\ bookedLossPercent s' p = bookedLossPercent s p).
    { intros s0 Hc Hd. unfold checkPosition.
      destruct (currentPosition (state s0)) as [q|].
      - unfold manageExistingPosition.
        destruct (String.eqb (direction q) "BUY"); [|discriminate].
        destruct (geb (ltp marketData) (targetPrice q)) eqn:Et.
        + unfold handleTargetHit. intros [= <- _ <- _].
          apply geb_true in Et. simpl.
          unfold calculatePnL, bookedLossPercent. simpl. rewrite Hc, Hd.
          repeat split. exact Et.
        + destruct (leb (ltp marketData) (stopLossPrice q)); discriminate.
      - unfold lookForEntry.
        destruct (_ && _); [|discriminate].
        destruct (shouldEnter _); [|discriminate].
        destruct (enterPosition_cases s0 (generateEntrySignal marketData) om now)
          as [(oid & om1 & ->) | (om1 & ->)]; discriminate. }
    destruct (waitingForCandle (state s)).
    - destruct (negb (isCandleComplete s now)); [discriminate|].
      apply Hcp in He; [exact He|reflexivity|reflexivity].
    - apply Hcp in He; [exact He|reflexivity|reflexivity]. }
  destruct Hcore as (Hd & Ht & _).
  assert (Heq : (dailyPnL (state s')
                 == dailyPnL (state s)
                    - entryPrice p * quantity p * bookedLossPercent s p / 100)%Q).
  { rewrite Hd, calculatePnL_books_the_stop. ring. }
  split; [exact Heq|]. split; [|exact Ht].
  intros H1 H2 H3. rewrite Heq.
  assert (Hpos : (0 < entryPrice p * quantity p * bookedLossPercent s p / 100)%Q).
  { apply Qlt_shift_div_l; [reflexivity|]. rewrite Qmult_0_l.
    apply Qmult_lt_0_compat; [apply Qmult_lt_0_compat; assumption|assumption]. }
  apply Qplus_lt_l with (z := entryPrice p * quantity p * bookedLossPercent s p / 100).
  assert (E : (dailyPnL (state s)
               - entryPrice p * quantity p * bookedLossPercent s p / 100
               + entryPrice p * quantity p * bookedLossPercent s p / 100
               == dailyPnL (state s) + 0)%Q) by ring.
  rewrite E. apply Qplus_lt_r. exact Hpos.
Qed.

Lemma target_exit_is_booked_as_a_loss_sample :
  exists p w,
    targetExit.1.1 = Some (Action.TARGET_HIT p w)
    /\ (dailyPnL (state firstEntry.1.2) == 0)%Q
    /\ (dailyPnL (state targetExit.1.2) == - 7.07)%Q
    /\ (dailyPnL (state targetExit.1.2) < dailyPnL (state firstEntry.1.2))%Q.
Proof.
  destruct targetExit as [[a s'] om'] eqn:E.
  assert (Ha : exists p w, a = Some (Action.TARGET_HIT p w)
                           /\ (0 < entryPrice p)%Q /\ (0 < quantity p)%Q
                           /\ isFollowUp p = false).
  { apply (f_equal (fun x => x.1.1)) in E. cbn [fst] in E. rewrite <- E.
    vm_compute. eexists _, _. split; [reflexivity|]. repeat split. }
  destruct Ha as (p & w & -> & Hp & Hq & Hf).
  unfold targetExit in E.
  pose proof (target_exit_is_booked_as_a_loss _ _ _ _ _ _ _ _ _ E) as (_ & Hlt & _).
  exists p, w. split; [reflexivity|].
  assert (Hs' : s' = targetExit.1.2) by (unfold targetExit; rewrite E; reflexivity).
  split; [qcompute|]. split; [rewrite Hs'; qcompute|].
  apply Hlt; [exact Hp|exact Hq|].
  unfold bookedLossPercent. rewrite Hf. vm_compute. reflexivity.
Defined.

(** *** The ledger *)

Lemma foldr_Qplus_snoc (l : list Q) (x : Q) :
  (foldr Qplus 0 (l ++ [x]) == foldr Qplus 0 l + x)%Q.
Proof.
  induction l as [|y l IH]; simpl.
  - ring.
  - rewrite IH. ring.
Qed.

Lemma sumTradePnL_snoc trades trade :
  (sumTradePnL (trades ++ [trade]) == sumTradePnL trades + pnl trade)%Q.
Proof.
  unfold sumTradePnL. rewrite fmap_app. apply foldr_Qplus_snoc.
Qed.

Lemma closedBy_balanced s s' p reason now m :
  closedBy s s' p reason now m -> ledgerBalanced s -> ledgerBalanced s'.
Proof.
  unfold ledgerBalanced. intros (_ & Ht & Hd & _) Hb.
  rewrite Hd, Ht, sumTradePnL_snoc, Hb. reflexivity.
Qed.

Lemma checkPosition_ledger s marketData om now :
  let s' := (checkPosition s marketData om now).1.2 in
  (ledgerBalanced s -> ledgerBalanced s')
  /\ (dailyTrades (state s') = dailyTrades (state s)
      \/ exists trade, dailyTrades (state s') = dailyTrades (state s) ++ [trade]
                       /\ exitTime trade = now
                       /\ currentPosition (state s) = Some (position trade)
                       /\ currentPosition (state s') = None).
Proof.
  cbv zeta. unfold checkPosition.
  destruct (currentPosition (state s)) as [p|] eqn:Ecur.
  - destruct (manageExistingPosition s p marketData now) as [a s1] eqn:E. simpl.
    destruct (manageExistingPosition_cases s p marketData now) as [H | [H | H]];
      rewrite H in E.
    + injection E as _ <-. split; [tauto|left; reflexivity].
    + assert (s1 = (handleTargetHit s p now).2) as -> by (rewrite E; reflexivity).
      pose proof (handleTargetHit_closes s p now) as Hc.
      split; [apply (closedBy_balanced _ _ _ _ _ _ Hc)|].
      right. destruct Hc as (Hn & Ht & _). eexists. split; [exact Ht|].
      split; [reflexivity|]. split; [reflexivity|exact Hn].
    + assert (s1 = (handleStopLossHit s p now).2) as -> by (rewrite E; reflexivity).
      pose proof (handleStopLossHit_closes s p now) as Hc.
      split; [apply (closedBy_balanced _ _ _ _ _ _ Hc)|].
      right. destruct Hc as (Hn & Ht & _). eexists. split; [exact Ht|].
      split; [reflexivity|]. split; [reflexivity|exact Hn].
  - unfold lookForEntry.
    destruct (_ && _); [|split; [tauto|left; reflexivity]].
    destruct (shouldEnter _); [|split; [tauto|left; reflexivity]].
    destruct (enterPosition_cases s (generateEntrySignal marketData) om now)
      as [(order_id & om1 & ->) | (om1 & ->)];
      (split; [tauto|left; reflexivity]).
Qed.

Lemma execute_ledger s marketData om rm now :
  let s' := (execute s marketData om rm now).1.2 in
  (ledgerBalanced s -> ledgerBalanced s')
  /\ (dailyTrades (state s') = dailyTrades (state s)
      \/ exists trade, dailyTrades (state s') = dailyTrades (state s) ++ [trade]
                       /\ exitTime trade = now
                       /\ currentPosition (state s) = Some (position trade)
                       /\ currentPosition (state s') = None).
Proof.
  cbv zeta. unfold execute.
  destruct (negb (isMarketHours s now)); [split; [tauto|left; reflexivity]|].
  destruct (negb (RiskManager.canTrade _)); [split; [tauto|left; reflexivity]|].
  destruct (waitingForCandle (state s)).
  - destruct (negb (isCandleComplete s now)); [split; [tauto|left; reflexivity]|].
    apply (checkPosition_ledger (setState s (set_waitingForCandle (state s) false))).
  - apply checkPosition_ledger.
Qed.

(** X17.  On every strategy a scheduler can hold, the daily result equals
    the sum of the results of the recorded trades; and one tick records at
    most one trade, which closes the position that was open and carries the
    tick's time as its exit time. *)
Theorem daily_result_is_the_sum_of_trades (s : t) :
  reachable s ->
  ledgerBalanced s
  /\ forall marketData om rm now,
       let s' := (execute s marketData om rm now).1.2 in
       ledgerBalanced s'
       /\ (dailyTrades (state s') = dailyTrades (state s)
           \/ exists trade,
                dailyTrades (state s') = dailyTrades (state s) ++ [trade]
                /\ exitTime trade = now
                /\ currentPosition (state s) = Some (position trade)
                /\ currentPosition (state s') = None).
Proof.
  intros Hr.
  assert (Hb : ledgerBalanced s).
  { induction Hr as [c | s marketData om rm now _ IH].
    - unfold ledgerBalanced, sumTradePnL. simpl. reflexivity.
    - apply execute_ledger. exact IH. }
  split; [exact Hb|].
  intros marketData om rm now. cbv zeta.
  destruct (execute_ledger s marketData om rm now) as [H1 H2].
  split; [apply H1; exact Hb|exact H2].
Qed.

Lemma daily_result_is_the_sum_of_trades_sample :
  reachable targetExit.1.2
  /\ length (dailyTrades (state targetExit.1.2)) = 1%nat
  /\ ledgerBalanced targetExit.1.2.
Proof.
  assert (H : reachable targetExit.1.2)
    by (do 2 apply reachable_tick; apply reachable_new).
  split; [exact H|]. split; [vm_compute; reflexivity|].
  exact (proj1 (daily_result_is_the_sum_of_trades _ H)).
Defined.

(** *** Dates *)

(** X18.  [getNextCandleEndTime] is the next top of the hour: strictly
    after now, at most an hour later, a whole number of hours, on the
    hour that follows the hour of now. *)
Theorem next_candle_end_is_the_next_hour (now : Z) :
  let e := getNextCandleEndTime now in
  (now < e <= now + msPerHour)%Z
  /\ (e mod msPerHour = 0)%Z
  /\ getMinutes e = 0%Z
  /\ (e = startOfDay now + (getHours now + 1) * msPerHour)%Z
  /\ (getHours now < 23 -> getHours e = getHours now + 1 /\ dayOf e = dayOf now)%Z
  /\ (getHours now = 23 -> getHours e = 0 /\ dayOf e = dayOf now + 1)%Z.
Proof.
  cbv zeta. repeat split; zdivmod.
Qed.

(** *** A strategy that can buy nothing *)

Lemma zero_quantity_is_invalid (order : OrderManager.OrderParams) :
  (OrderManager.quantity order == 0)%Q -> OrderManager.isValid order = false.
Proof.
  intros Hq. unfold OrderManager.isValid.
  destruct (OrderManager.validateOrderParams order) eqn:E; [|reflexivity].
  exfalso. unfold OrderManager.validateOrderParams in E.
  rewrite !app_nil in E. destruct E as (_ & _ & _ & E & _).
  apply Qeq_bool_iff in Hq. rewrite Hq in E. discriminate.
Qed.

Lemma checkPosition_zero_size s marketData om now :
  (calculatePositionSize s == 0)%Q -> currentPosition (state s) = None ->
  (checkPosition s marketData om now = (Some (Action.NO_ACTION NoEntrySignal), s, om)
   \/ checkPosition s marketData om now = (None, s, om)).
Proof.
  intros Hz Hcur. unfold checkPosition. rewrite Hcur. unfold lookForEntry.
  destruct (_ && _); [|left; reflexivity].
  destruct (shouldEnter _); [|left; reflexivity].
  right. unfold enterPosition.
  rewrite (OrderManagerSpec.placeOrder_invalid
             (OrderManager.retryAttempts (OrderManager.config om)));
    [reflexivity| |lia|lia].
  apply zero_quantity_is_invalid. exact Hz.
Qed.

(** X19.  A strategy whose position size comes out as 0 (2% of a capital
    under 5000, at 100 a unit) never trades: its entry order fails the
    order manager's validation for lack of a quantity, so whatever the
    quotes, the venue is never contacted, no position is opened and no
    tick reports POSITION_ENTERED. *)
Theorem zero_size_never_trades (s : t) (marketData : MarketData)
    (om : OrderManager.t) (rm : RiskManager.t) (now : Z) :
  (calculatePositionSize s == 0)%Q -> currentPosition (state s) = None ->
  let '(action, s', om') := execute s marketData om rm now in
  om' = om
  /\ currentPosition (state s') = None
  /\ dailyTrades (state s') = dailyTrades (state s)
  /\ (calculatePositionSize s' == 0)%Q
  /\ (forall pos r, action <> Some (Action.POSITION_ENTERED pos r)).
Proof.
  intros Hz Hcur. unfold execute.
  destruct (negb (isMarketHours s now));
    [repeat (split; [done|]); intros; discriminate|].
  destruct (negb (RiskManager.canTrade _));
    [repeat (split; [done|]); intros; discriminate|].
  destruct (waitingForCandle (state s)).
  - destruct (negb (isCandleComplete s now));
      [repeat (split; [done|]); intros; discriminate|].
    destruct (checkPosition_zero_size
                (setState s (set_waitingForCandle (state s) false))
                marketData om now Hz Hcur) as [-> | ->];
      repeat (split; [done|]); intros; discriminate.
  - destruct (checkPosition_zero_size s marketData om now Hz Hcur) as [-> | ->];
      repeat (split; [done|]); intros; discriminate.
Qed.

Lemma zero_size_never_trades_sample :
  (calculatePositionSize (new config4000) == 0)%Q
  /\ execute (new config4000) (quote 101 100) omUp rmDefault (at_ 0 10 0 0)
     = (None, new config4000, omUp)
  /\ let '(action, s', om') :=
       execute (new config4000) (quote 101 100) omUp rmDefault (at_ 0 10 0 0) in
     om' = omUp
     /\ currentPosition (state s') = None
     /\ dailyTrades (state s') = dailyTrades (state (new config4000))
     /\ (calculatePositionSize s' == 0)%Q
     /\ (forall pos r, action <> Some (Action.POSITION_ENTERED pos r)).
Proof.
  assert (Hz : (calculatePositionSize (new config4000) == 0)%Q) by qcompute.
  split; [exact Hz|]. split; [vm_compute; reflexivity|].
  exact (zero_size_never_trades (new config4000) (quote 101 100) omUp
           rmDefault (at_ 0 10 0 0) Hz eq_refl).
Defined.

(** *** One round trip a day *)

Lemma exitsRemembered_later prev now s :
  exitsRemembered prev s -> (prev <= now)%Z -> exitsRemembered now s.
Proof.
  unfold exitsRemembered. destruct (last (dailyTrades (state s))); [|done].
  intros (H1 & H2 & H3 & H4 & H5) Hl.
  split; [lia|]. split; [exact H2|]. split; [exact H3|]. split; [exact H4|].
  intros Hw. specialize (H5 Hw). lia.
Qed.

Lemma exitsRemembered_cleared now s :
  exitsRemembered now s -> isCandleComplete s now = true ->
  exitsRemembered now (setState s (set_waitingForCandle (state s) false)).
Proof.
  unfold exitsRemembered, isCandleComplete. simpl.
  destruct (last (dailyTrades (state s))); [|done].
  intros (H1 & H2 & H3 & H4 & H5) Hc.
  split; [exact H1|]. split; [exact H2|]. split; [exact H3|].
  split; [discriminate|]. intros _.
  destruct (waitingForCandle (state s)) eqn:Ew; [|apply H5; reflexivity].
  rewrite (H4 eq_refl) in Hc. simpl in Hc. apply Z.leb_le in Hc. exact Hc.
Qed.

Lemma exitsRemembered_closed now s s' p reason m :
  exitsRemembered now s -> withinTradingHours s now ->
  closedBy s s' p reason now m -> exitsRemembered now s'.
Proof.
  unfold exitsRemembered, withinTradingHours.
  intros Hi [Hh _] (_ & Ht & _ & Hw & He & _ & Hc).
  rewrite Ht, last_snoc, Hc, Hw, He. cbn [tradeOf exitTime].
  split; [lia|]. split; [|split; [exact Hh|split; [reflexivity|discriminate]]].
  apply Forall_app. split; [|repeat constructor; cbn; lia].
  destruct (last (dailyTrades (state s))) as [latest|] eqn:El.
  - destruct Hi as (H1 & H2 & _).
    eapply Forall_impl; [exact H2|]. cbn. intros trade Hx. lia.
  - rewrite Hi. constructor.
Qed.

Lemma checkPosition_remembers now s marketData om :
  exitsRemembered now s -> withinTradingHours s now ->
  exitsRemembered now (checkPosition s marketData om now).1.2.
Proof.
  intros Hi Hh. unfold checkPosition.
  destruct (currentPosition (state s)) as [p|].
  - destruct (manageExistingPosition s p marketData now) as [a s1] eqn:E. simpl.
    destruct (manageExistingPosition_cases s p marketData now) as [H | [H | H]];
      rewrite H in E.
    + injection E as _ <-. exact Hi.
    + assert (s1 = (handleTargetHit s p now).2) as -> by (rewrite E; reflexivity).
      eapply exitsRemembered_closed; [exact Hi|exact Hh|apply handleTargetHit_closes].
    + assert (s1 = (handleStopLossHit s p now).2) as -> by (rewrite E; reflexivity).
      eapply exitsRemembered_closed; [exact Hi|exact Hh|apply handleStopLossHit_closes].
  - unfold lookForEntry.
    destruct (_ && _); [|exact Hi].
    destruct (shouldEnter _); [|exact Hi].
    destruct (enterPosition_cases s (generateEntrySignal marketData) om now)
      as [(order_id & om1 & ->) | (om1 & ->)]; exact Hi.
Qed.

Lemma execute_remembers prev now s marketData om rm :
  exitsRemembered prev s -> (prev <= now)%Z ->
  exitsRemembered now (execute s marketData om rm now).1.2.
Proof.
  intros Hi Hl. apply (exitsRemembered_later _ now) in Hi; [|exact Hl].
  unfold execute.
  destruct (isMarketHours s now) eqn:Eh; [|exact Hi].
  apply isMarketHours_spec in Eh. cbn [negb].
  destruct (negb (RiskManager.canTrade _)); [exact Hi|].
  destruct (waitingForCandle (state s)) eqn:Ew.
  - destruct (isCandleComplete s now) eqn:Ec; [|exact Hi]. cbn [negb].
    apply checkPosition_remembers; [apply exitsRemembered_cleared; assumption|exact Eh].
  - apply checkPosition_remembers; assumption.
Qed.

Lemma reachedAt_remembers prev s : reachedAt prev s -> exitsRemembered prev s.
Proof.
  induction 1 as [c now | s prev marketData om rm now _ IH Hl].
  - reflexivity.
  - eapply execute_remembers; eassumption.
Qed.

Lemma execute_entered_clock s marketData om rm now pos r s' om' :
  execute s marketData om rm now
  = (Some (Action.POSITION_ENTERED pos r), s', om') ->
  getHours now = getHours (parseTime now (tradingStartTime (config s)))
  /\ (waitingForCandle (state s) = true -> isCandleComplete s now = true).
Proof.
  intros He. apply execute_entered_gates in He as (_ & _ & Hw & Hc).
  split; [|exact Hw].
  set (s0 := if waitingForCandle (state s)
             then setState s (set_waitingForCandle (state s) false) else s) in *.
  assert (Hcfg : config s0 = config s)
    by (unfold s0; destruct (waitingForCandle (state s)); reflexivity).
  unfold checkPosition in Hc.
  destruct (currentPosition (state s0)) as [p|].
  { destruct (manageExistingPosition_cases s0 p marketData now)
      as [H | [H | H]]; rewrite H in Hc; simpl in Hc; discriminate. }
  unfold lookForEntry in Hc. rewrite Hcfg in Hc.
  destruct (getHours now =? _)%Z eqn:EH; [|discriminate].
  apply Z.eqb_eq in EH. exact EH.
Qed.

Lemma no_entry_on_the_day_of_an_exit (H M x now : Z) :
  (0 <= H <= 23)%Z -> (0 <= M <= 59)%Z ->
  (x <= now)%Z ->
  (startOfDay x + H * msPerHour + M * msPerMinute <= x)%Z ->
  (getNextCandleEndTime x <= now)%Z ->
  getHours now = getHours (startOfDay now + H * msPerHour + M * msPerMinute) ->
  (dayOf x < dayOf now)%Z.
Proof. intros. zdivmod. Qed.

(** X20.  With a clock that never runs backwards and a start time that is
    a time of day, a tick enters a position only on a calendar day on which
    no trade has been closed yet: every recorded trade was closed on an
    earlier day.  After an exit the strategy waits for the next top of the
    hour, and by then the hour of the start time has passed, so the
    follow-up entry and the stop-loss re-entry never come on the day of the
    exit. *)
Theorem entry_only_on_a_day_without_exits (s : t) (prev now : Z)
    (marketData : MarketData) (om : OrderManager.t) (rm : RiskManager.t)
    (pos : Position) (r : SignalReason) (s' : t) (om' : OrderManager.t) :
  reachedAt prev s -> (prev <= now)%Z -> startIsTimeOfDay (config s) ->
  execute s marketData om rm now
  = (Some (Action.POSITION_ENTERED pos r), s', om') ->
  Forall (fun trade => (dayOf (exitTime trade) < dayOf now)%Z)
    (dailyTrades (state s)).
Proof.
  intros Hr Hl [HH HM] He.
  apply reachedAt_remembers in Hr.
  apply execute_entered_clock in He as [Hhour Hw].
  unfold exitsRemembered in Hr.
  destruct (last (dailyTrades (state s))) as [latest|]; [|rewrite Hr; constructor].
  destruct Hr as (H1 & H2 & H3 & H4 & H5).
  assert (Hn : (getNextCandleEndTime (exitTime latest) <= now)%Z).
  { destruct (waitingForCandle (state s)) eqn:Ew.
    - specialize (Hw eq_refl). unfold isCandleComplete in Hw.
      rewrite (H4 eq_refl) in Hw. simpl in Hw. apply Z.leb_le in Hw. exact Hw.
    - specialize (H5 eq_refl). lia. }
  assert (Hd : (dayOf (exitTime latest) < dayOf now)%Z).
  { apply (no_entry_on_the_day_of_an_exit
             (hours (tradingStartTime (config s)))
             (minutes (tradingStartTime (config s)))); try assumption. lia. }
  eapply Forall_impl; [exact H2|]. cbn. intros trade Hx.
  assert (dayOf (exitTime trade) <= dayOf (exitTime latest))%Z
    by (unfold dayOf, msPerDay; apply Z.div_le_mono; lia).
  lia.
Qed.

Lemma entryAfterTarget_reachedAt : reachedAt (at_ 0 10 0 30) targetExit.1.2.
Proof.
  unfold targetExit, firstEntry.
  eapply reachedAt_tick; [eapply reachedAt_tick; [apply (reachedAt_new _ 0)|]|];
    vm_compute; discriminate.
Qed.

Lemma entry_only_on_a_day_without_exits_sample :
  reachedAt (at_ 0 10 0 30) targetExit.1.2
  /\ (at_ 0 10 0 30 <= at_ 1 10 0 0)%Z
  /\ startIsTimeOfDay (config targetExit.1.2)
  /\ (exists pos r, entryAfterTarget.1.1 = Some (Action.POSITION_ENTERED pos r))
  /\ Forall (fun trade => (dayOf (exitTime trade) < dayOf (at_ 1 10 0 0))%Z)
       (dailyTrades (state targetExit.1.2)).
Proof.
  assert (Hl : (at_ 0 10 0 30 <= at_ 1 10 0 0)%Z) by (vm_compute; discriminate).
  assert (Hs : startIsTimeOfDay (config targetExit.1.2)).
  { unfold startIsTimeOfDay.
    assert (Hc : config targetExit.1.2 = defaultConfig) by (vm_compute; reflexivity).
    rewrite Hc. simpl. lia. }
  destruct entryAfterTarget as [[a s'] om'] eqn:E.
  assert (Ha : exists pos r, a = Some (Action.POSITION_ENTERED pos r)).
  { apply (f_equal (fun x => x.1.1)) in E. cbn [fst] in E. rewrite <- E.
    vm_compute. eexists _, _. reflexivity. }
  destruct Ha as (pos & r & ->). unfold entryAfterTarget in E.
  pose proof (entry_only_on_a_day_without_exits _ _ _ _ _ _ _ _ _ _
                entryAfterTarget_reachedAt Hl Hs E) as H.
  split; [exact entryAfterTarget_reachedAt|]. split; [exact Hl|].
  split; [exact Hs|]. split; [exists pos, r; reflexivity|exact H].
Defined.

End TradingStrategySpec.

(** ** The candle store *)

Module MarketDataServiceSpec.
Import Js JsFacts MarketDataService.
Local Open Scope Q_scope.

(** *** Aggregation *)

Lemma aggregateLoop_unfold candles m i aggregated :
  aggregateLoop candles m i aggregated =
  if (i <? length candles)%nat then
    match slice candles i (i + S m) with
    | [] => aggregateLoop candles m (i + S m) aggregated
    | c0 :: rest =>
      aggregateLoop candles m (i + S m) (aggregated ++ [aggregatedCandle c0 rest])
    end
  else aggregated.
Proof.
  funelim (aggregateLoop candles m i aggregated).
  - rewrite Hlt. destruct (slice candles i (i + S m)); reflexivity.
  - rewrite e. reflexivity.
Qed.

(** [Math.max] of a non-empty array is its greatest element. *)
Lemma maxOf_greatest (xs : list Q) :
  forall x, greatestOf (maxOf x xs) (x :: xs).
Proof.
  unfold greatestOf, maxOf.
  induction xs as [|y ys IH]; intros x; simpl.
  - split; [left|]. repeat constructor. apply Qle_refl.
  - destruct (IH (Qmax x y)) as [Hin Hall]. split.
    + apply elem_of_cons in Hin as [-> | Hin].
      * destruct (Qmax_cases x y) as [-> | ->]; [left | right; left].
      * right; right; exact Hin.
    + apply Forall_cons in Hall as [Hm Hall].
      repeat constructor; [| |exact Hall].
      * eapply Qle_trans; [apply Q.le_max_l|exact Hm].
      * eapply Qle_trans; [apply Q.le_max_r|exact Hm].
Qed.

(** [Math.min] of a non-empty array is its least element. *)
Lemma minOf_least (xs : list Q) :
  forall x, leastOf (minOf x xs) (x :: xs).
Proof.
  unfold leastOf, minOf.
  induction xs as [|y ys IH]; intros x; simpl.
  - split; [left|]. repeat constructor. apply Qle_refl.
  - destruct (IH (Qmin x y)) as [Hin Hall]. split.
    + apply elem_of_cons in Hin as [-> | Hin].
      * destruct (Qmin_cases x y) as [-> | ->]; [left | right; left].
      * right; right; exact Hin.
    + apply Forall_cons in Hall as [Hm Hall].
      repeat constructor; [| |exact Hall].
      * eapply Qle_trans; [exact Hm|apply Q.le_min_l].
      * eapply Qle_trans; [exact Hm|apply Q.le_min_r].
Qed.

(** The [reduce] that adds the volumes up computes their sum. *)
Lemma reduce_volume (batch : list Candle) :
  forall sum,
    foldl (fun sum c => sum + volume c) sum batch
    == sum + total (volume <$> batch).
Proof.
  induction batch as [|c batch IH]; intros sum.
  - unfold total. simpl. ring.
  - simpl. rewrite IH. symmetry. apply Qplus_assoc.
Qed.

(** The last element, with and without a default. *)
Lemma last_default (l : list Candle) (d cN : Candle) :
  last l = Some cN -> List.last l d = cN.
Proof.
  induction l as [|c l IH]; [discriminate|].
  destruct l as [|c' l].
  - intros [= <-]. reflexivity.
  - intros H. apply IH. exact H.
Qed.

(** What one batch aggregates to. *)
Lemma aggregatedCandle_spec (c0 : Candle) (rest : list Candle) (cN : Candle) :
  last (c0 :: rest) = Some cN ->
  let a := aggregatedCandle c0 rest in
  timestamp a = timestamp c0
  /\ open a = open c0
  /\ close a = close cN
  /\ greatestOf (high a) (high <$> c0 :: rest)
  /\ leastOf (low a) (low <$> c0 :: rest)
  /\ volume a == total (volume <$> c0 :: rest).
Proof.
  intros Hlast. cbv zeta. unfold aggregatedCandle.
  cbn [timestamp open close high low volume].
  split; [reflexivity|]. split; [reflexivity|].
  split; [rewrite (last_default (c0 :: rest) c0 cN Hlast); reflexivity|].
  split; [apply maxOf_greatest|]. split; [apply minOf_least|].
  rewrite reduce_volume. ring.
Qed.

(** A store read at the hour timeframe aggregates the sorted tail of its
    candles, 60 to a batch. *)
Lemma getCandleData_hour svc symbol m limit :
  candleData svc !! symbol = Some m ->
  getCandleData svc symbol hour limit
  = aggregateCandles (lastN limit (merge_sort byTimestamp (JsMap.values m))) 60.
Proof. intros H. unfold getCandleData. rewrite H. reflexivity. Qed.

(** With 60 candles in the store and the default limit of 100 (or any
    limit of 60 or more), that tail is all 60 of them. *)
Lemma sorted_tail_of_sixty (m : list (Z * Candle)) (limit : nat) :
  JsMap.size m = 60%nat -> (60 <= limit)%nat ->
  length (lastN limit (merge_sort byTimestamp (JsMap.values m))) = 60%nat.
Proof.
  intros Hm Hl.
  assert (Hs : length (merge_sort byTimestamp (JsMap.values m)) = 60%nat).
  { rewrite (Permutation_length (merge_sort_Permutation byTimestamp _)).
    unfold JsMap.values. rewrite length_fmap. exact Hm. }
  unfold lastN. destruct limit; [lia|].
  rewrite Hs. replace (60 - S limit)%nat with 0%nat by lia.
  rewrite drop_0. exact Hs.
Qed.

(** C6.  Sixty one-minute candles aggregate, at the hour timeframe (60
    minutes to a batch), to exactly one candle: timestamp and open of the
    first, close of the last, the greatest high, the least low and the sum
    of the volumes.  This is what [getCandleData] returns for 'hour' when
    the sixty candles are the ones it has selected. *)
Theorem sixty_minutes_make_one_hour_candle (candles : list Candle) :
  length candles = 60%nat ->
  exists first final hourCandle,
    head candles = Some first
    /\ last candles = Some final
    /\ aggregateCandles candles 60 = Some [hourCandle]
    /\ timestamp hourCandle = timestamp first
    /\ open hourCandle = open first
    /\ close hourCandle = close final
    /\ greatestOf (high hourCandle) (high <$> candles)
    /\ leastOf (low hourCandle) (low <$> candles)
    /\ volume hourCandle == total (volume <$> candles)
    /\ (forall svc symbol m limit,
          candleData svc !! symbol = Some m ->
          lastN limit (merge_sort byTimestamp (JsMap.values m)) = candles ->
          getCandleData svc symbol hour limit = Some [hourCandle]).
Proof.
  intros Hlen.
  destruct candles as [|c0 rest]; [discriminate|].
  destruct (last (c0 :: rest)) as [cN|] eqn:Hlast;
    [|apply last_None in Hlast; discriminate].
  exists c0, cN, (aggregatedCandle c0 rest).
  assert (Hagg : aggregateCandles (c0 :: rest) 60
                 = Some [aggregatedCandle c0 rest]).
  { unfold aggregateCandles.
    rewrite aggregateLoop_unfold, Hlen.
    change (0 <? 60)%nat with true. cbv iota.
    unfold slice. rewrite drop_0, take_ge by (rewrite Hlen; lia).
    rewrite aggregateLoop_unfold, Hlen.
    reflexivity. }
  split; [reflexivity|]. split; [reflexivity|]. split; [exact Hagg|].
  destruct (aggregatedCandle_spec c0 rest cN Hlast)
    as (Ht & Ho & Hc & Hh & Hl & Hv).
  repeat (split; [assumption|]).
  intros svc symbol m limit Hm Hsel.
  rewrite (getCandleData_hour svc symbol m limit Hm), Hsel. exact Hagg.
Qed.

Lemma sixty_minutes_make_one_hour_candle_sample :
  length (minuteCandles 60) = 60%nat
  /\ exists first final hourCandle,
       head (minuteCandles 60) = Some first
       /\ last (minuteCandles 60) = Some final
       /\ aggregateCandles (minuteCandles 60) 60 = Some [hourCandle]
       /\ timestamp hourCandle = timestamp first
       /\ open hourCandle = open first
       /\ close hourCandle = close final
       /\ greatestOf (high hourCandle) (high <$> minuteCandles 60)
       /\ leastOf (low hourCandle) (low <$> minuteCandles 60)
       /\ volume hourCandle == total (volume <$> minuteCandles 60).
Proof.
  split; [reflexivity|].
  destruct (sixty_minutes_make_one_hour_candle (minuteCandles 60) eq_refl)
    as (first & final & hourCandle & H1 & H2 & H3 & H4 & H5 & H6 & H7 & H8 & H9 & _).
  exists first, final, hourCandle.
  repeat (split; [assumption|]). assumption.
Defined.

(** The same sample, evaluated: the hour candle of minutes 0 to 59. *)
Example sample_hour_candle :
  exists hourCandle,
    aggregateCandles (minuteCandles 60) 60 = Some [hourCandle]
    /\ timestamp hourCandle = 0%Z
    /\ open hourCandle == 100 /\ close hourCandle == 160
    /\ high hourCandle == 161 /\ low hourCandle == 99
    /\ volume hourCandle == 600.
Proof.
  eexists. split; [vm_compute; reflexivity|].
  split; [reflexivity|]. repeat split; qcompute.
Qed.

(** One candle more, and there are two candles at the hour timeframe. *)
Example sixty_one_minutes_make_two :
  length <$> aggregateCandles (minuteCandles 61) 60 = Some 2%nat.
Proof. vm_compute. reflexivity. Qed.

(** *** Retention *)

Section JsMapFacts.
Context {V : Type}.
Implicit Types (m : list (Z * V)) (k : Z) (v : V).

Lemma get_is_Some m k : k ∈ JsMap.keys m -> is_Some (JsMap.get m k).
Proof.
  unfold JsMap.keys. induction m as [|[k' v'] m IH]; simpl.
  - intros H. inversion H.
  - intros H. destruct (k' =? k)%Z eqn:E; [eauto|].
    apply elem_of_cons in H as [->|H]; [|auto].
    rewrite Z.eqb_refl in E. discriminate.
Qed.

Lemma size_set m k v :
  JsMap.size (JsMap.set m k v)
  = match JsMap.get m k with
    | Some _ => JsMap.size m
    | None => S (JsMap.size m)
    end.
Proof.
  unfold JsMap.size. induction m as [|[k' v'] m IH]; simpl; [reflexivity|].
  destruct (k' =? k)%Z; simpl; [reflexivity|].
  rewrite IH. destruct (JsMap.get m k); reflexivity.
Qed.

Lemma size_set_le m k v :
  (JsMap.size m <= JsMap.size (JsMap.set m k v) <= S (JsMap.size m))%nat.
Proof. rewrite size_set. destruct (JsMap.get m k); lia. Qed.

Lemma size_delete m k :
  is_Some (JsMap.get m k) ->
  S (JsMap.size (JsMap.delete m k)) = JsMap.size m.
Proof.
  unfold JsMap.size. induction m as [|[k' v'] m IH]; simpl.
  - intros [? [=]].
  - destruct (k' =? k)%Z; simpl; [reflexivity|].
    intros H. rewrite IH by exact H. reflexivity.
Qed.

Lemma foldl_min_spec (ks : list Z) :
  forall k, foldl Z.min k ks ∈ k :: ks
            /\ Forall (fun k' => (foldl Z.min k ks <= k')%Z) (k :: ks).
Proof.
  induction ks as [|k1 ks IH]; intros k; simpl.
  - split; [left|]. repeat constructor. lia.
  - destruct (IH (Z.min k k1)) as [Hin Hall]. split.
    + apply elem_of_cons in Hin as [-> | Hin].
      * destruct (Z.min_spec k k1) as [[_ ->] | [_ ->]]; [left | right; left].
      * right; right; exact Hin.
    + apply Forall_cons in Hall as [Hm Hall].
      repeat constructor; [lia|lia|exact Hall].
Qed.

(** [Math.min(...m.keys())] is a key of the map, and the oldest. *)
Lemma minKey_oldest m k :
  JsMap.minKey m = Some k ->
  k ∈ JsMap.keys m /\ Forall (fun k' => (k <= k')%Z) (JsMap.keys m).
Proof.
  unfold JsMap.minKey. destruct (JsMap.keys m) as [|k0 ks]; [discriminate|].
  intros [= <-]. apply foldl_min_spec.
Qed.

Lemma minKey_nonempty m :
  (0 < JsMap.size m)%nat -> is_Some (JsMap.minKey m).
Proof.
  unfold JsMap.minKey, JsMap.keys, JsMap.size.
  destruct m; simpl; [lia|eauto].
Qed.

End JsMapFacts.

(** The store a tick leaves behind, before the eviction. *)
Lemma updateCandles_cases m data now :
  exists candle,
    let m1 := JsMap.set m (currentMinute now) candle in
    updateCandles m data now
    = if (1000 <? JsMap.size m1)%nat
      then match JsMap.minKey m1 with
           | Some oldestKey => JsMap.delete m1 oldestKey
           | None => m1
           end
      else m1.
Proof.
  unfold updateCandles.
  destruct (JsMap.get m (currentMinute now)); eexists; reflexivity.
Qed.

(** A tick keeps a store that holds at most 1000 candles within 1000. *)
Lemma updateCandles_keeps_bound m data now :
  (JsMap.size m <= 1000)%nat ->
  (JsMap.size (updateCandles m data now) <= 1000)%nat.
Proof.
  intros Hm. destruct (updateCandles_cases m data now) as [candle ->].
  cbv zeta.
  pose proof (size_set_le m (currentMinute now) candle) as [_ Hs].
  destruct (1000 <? _)%nat eqn:E.
  - apply Nat.ltb_lt in E.
    destruct (minKey_nonempty (JsMap.set m (currentMinute now) candle))
      as [k Hk]; [lia|].
    rewrite Hk. apply minKey_oldest in Hk as [Hin _].
    pose proof (size_delete _ _ (get_is_Some _ _ Hin)). lia.
  - apply Nat.ltb_ge in E. exact E.
Qed.

(** When a tick evicts, it evicts one candle, the one with the oldest
    key. *)
Lemma updateCandles_evicts_oldest m data now :
  (1000 <= JsMap.size m)%nat ->
  JsMap.get m (currentMinute now) = None ->
  exists candle oldestKey,
    let m1 := JsMap.set m (currentMinute now) candle in
    updateCandles m data now = JsMap.delete m1 oldestKey
    /\ oldestKey ∈ JsMap.keys m1
    /\ Forall (fun k => (oldestKey <= k)%Z) (JsMap.keys m1)
    /\ JsMap.size (updateCandles m data now) = JsMap.size m.
Proof.
  intros Hm Hget. destruct (updateCandles_cases m data now) as [candle Hu].
  cbv zeta in Hu.
  pose proof (size_set m (currentMinute now) candle) as Hs.
  rewrite Hget in Hs.
  assert (E : (1000 <? JsMap.size (JsMap.set m (currentMinute now) candle))%nat
              = true) by (apply Nat.ltb_lt; lia).
  rewrite E in Hu.
  destruct (minKey_nonempty (JsMap.set m (currentMinute now) candle))
    as [k Hk]; [lia|].
  rewrite Hk in Hu. apply minKey_oldest in Hk as [Hin Hall].
  exists candle, k. cbv zeta. repeat split; try done.
  rewrite Hu.
  pose proof (size_delete _ _ (get_is_Some _ _ Hin)). lia.
Qed.

(** A historical load never evicts. *)
Lemma storeHistory_never_evicts (historicalData : list Candle) :
  forall m, (JsMap.size m <= JsMap.size (storeHistory m historicalData))%nat.
Proof.
  unfold storeHistory.
  induction historicalData as [|c h IH]; intros m; simpl; [lia|].
  etransitivity; [|apply IH]. apply size_set_le.
Qed.

(** C7.  Loading a history of 1001 one-minute candles into an empty
    store leaves 1001 candles in it; the tick that follows adds one
    candle and evicts one, so the store still holds 1001. *)
Theorem historical_load_exceeds_retention :
  let symbol := "NSE:NIFTY 50"%string in
  let afterTick :=
    updateCandleData loadedService symbol tick1001 (1001 * 60000 + 5000) in
  JsMap.size (symbolCandles emptyService symbol) = 0%nat
  /\ JsMap.size (symbolCandles loadedService symbol) = 1001%nat
  /\ JsMap.size (symbolCandles afterTick symbol) = 1001%nat
  /\ JsMap.minKey (symbolCandles loadedService symbol) = Some 0%Z
  /\ JsMap.minKey (symbolCandles afterTick symbol) = Some 60000%Z.
Proof.
  cbv zeta. repeat (split; [vm_compute; reflexivity|]).
  vm_compute; reflexivity.
Qed.

(** *** More on the JavaScript [Map] *)

Section JsMapMoreFacts.
Context {V : Type}.
Implicit Types (m : list (Z * V)) (k : Z) (v : V).

Lemma get_set_eq m k v : JsMap.get (JsMap.set m k v) k = Some v.
Proof.
  induction m as [|[k' v'] m IH]; simpl.
  - rewrite Z.eqb_refl. reflexivity.
  - destruct (k' =? k)%Z eqn:E; simpl.
    + rewrite Z.eqb_refl. reflexivity.
    + rewrite E. exact IH.
Qed.

Lemma get_delete_ne m k k' :
  k <> k' -> JsMap.get (JsMap.delete m k') k = JsMap.get m k.
Proof.
  intros Hne. induction m as [|[k1 v1] m IH]; simpl; [reflexivity|].
  destruct (k1 =? k')%Z eqn:E; simpl.
  - apply Z.eqb_eq in E. subst k1.
    destruct (k' =? k)%Z eqn:E'; [apply Z.eqb_eq in E'; congruence|reflexivity].
  - rewrite IH. reflexivity.
Qed.

Lemma get_Some_elem m k v : JsMap.get m k = Some v -> (k, v) ∈ m.
Proof.
  induction m as [|[k' v'] m IH]; simpl; [discriminate|].
  destruct (k' =? k)%Z eqn:E.
  - apply Z.eqb_eq in E. intros [= ->]. subst. left.
  - intros H. right. apply IH. exact H.
Qed.

Lemma get_None_keys m k : JsMap.get m k = None <-> k ∉ JsMap.keys m.
Proof.
  split.
  - intros H Hin. apply get_is_Some in Hin as [v Hv]. congruence.
  - unfold JsMap.keys. induction m as [|[k' v'] m IH]; simpl; [reflexivity|].
    intros Hn. destruct (k' =? k)%Z eqn:E.
    + apply Z.eqb_eq in E. subst. exfalso. apply Hn. left.
    + apply IH. intros Hin. apply Hn. right. exact Hin.
Qed.

Lemma set_fresh m k v : JsMap.get m k = None -> JsMap.set m k v = m ++ [(k, v)].
Proof.
  induction m as [|[k' v'] m IH]; simpl; [reflexivity|].
  destruct (k' =? k)%Z; [discriminate|]. intros H. rewrite IH by exact H.
  reflexivity.
Qed.

Lemma keys_set_present m k v :
  is_Some (JsMap.get m k) -> JsMap.keys (JsMap.set m k v) = JsMap.keys m.
Proof.
  unfold JsMap.keys. induction m as [|[k' v'] m IH]; simpl.
  - intros [? [=]].
  - destruct (k' =? k)%Z eqn:E; simpl.
    + apply Z.eqb_eq in E. subst. reflexivity.
    + intros H. f_equal. apply IH. exact H.
Qed.

Lemma Forall_set (P : Z * V -> Prop) m k v :
  Forall P m -> P (k, v) -> Forall P (JsMap.set m k v).
Proof.
  intros Hm Hv. induction Hm as [|[k' v'] m Hx Hm IH]; simpl.
  - repeat constructor. exact Hv.
  - destruct (k' =? k)%Z; constructor; assumption.
Qed.

Lemma delete_sublist m k : JsMap.delete m k `sublist_of` m.
Proof.
  induction m as [|[k' v'] m IH]; simpl; [constructor|].
  destruct (k' =? k)%Z; [apply sublist_cons; reflexivity|].
  apply sublist_skip. exact IH.
Qed.

Lemma delete_snoc_fresh m k v :
  k ∉ JsMap.keys m -> JsMap.delete (m ++ [(k, v)]) k = m.
Proof.
  unfold JsMap.keys. induction m as [|[k' v'] m IH]; simpl.
  - rewrite Z.eqb_refl. reflexivity.
  - intros Hn. destruct (k' =? k)%Z eqn:E.
    + apply Z.eqb_eq in E. subst. exfalso. apply Hn. left.
    + rewrite IH; [reflexivity|]. intros Hin. apply Hn. right. exact Hin.
Qed.

Lemma NoDup_keys_set m k v :
  NoDup (JsMap.keys m) -> NoDup (JsMap.keys (JsMap.set m k v)).
Proof.
  intros Hm. destruct (JsMap.get m k) as [v0|] eqn:G.
  - rewrite keys_set_present by eauto. exact Hm.
  - rewrite set_fresh by exact G. unfold JsMap.keys. rewrite fmap_app.
    apply NoDup_app. split; [exact Hm|]. split; [|apply NoDup_singleton].
    intros x Hx Hin. apply list_elem_of_singleton in Hin. subst x.
    apply get_None_keys in G. apply G. exact Hx.
Qed.

Lemma NoDup_keys_delete m k :
  NoDup (JsMap.keys m) -> NoDup (JsMap.keys (JsMap.delete m k)).
Proof.
  intros Hm. eapply sublist_NoDup; [exact Hm|].
  unfold JsMap.keys. apply fmap_sublist, delete_sublist.
Qed.

Lemma Forall_delete (P : Z * V -> Prop) m k :
  Forall P m -> Forall P (JsMap.delete m k).
Proof.
  intros Hm. apply Forall_forall. intros x Hx.
  eapply Forall_forall; [exact Hm|].
  eapply elem_of_sublist; [exact Hx|apply delete_sublist].
Qed.

End JsMapMoreFacts.

(** *** Candles built from ticks *)

Lemma currentMinute_aligned now : (currentMinute now mod 60000 = 0)%Z.
Proof. unfold currentMinute. Z.to_euclidean_division_equations. lia. Qed.

(** The eviction step keeps whatever holds of the store and its entries. *)
Lemma eviction_keeps (P : Z * Candle -> Prop) (m1 : list (Z * Candle)) :
  NoDup (JsMap.keys m1) /\ Forall P m1 ->
  let m2 := if (1000 <? JsMap.size m1)%nat
            then match JsMap.minKey m1 with
                 | Some oldestKey => JsMap.delete m1 oldestKey
                 | None => m1
                 end
            else m1 in
  NoDup (JsMap.keys m2) /\ Forall P m2.
Proof.
  intros [Hd Hp]. cbv zeta.
  destruct (1000 <? _)%nat; [|split; assumption].
  destruct (JsMap.minKey m1); [|split; assumption].
  split; [apply NoDup_keys_delete; exact Hd|apply Forall_delete; exact Hp].
Qed.

Lemma updateCandles_keeps_entries m data now :
  NoDup (JsMap.keys m) /\ Forall tickEntry m ->
  NoDup (JsMap.keys (updateCandles m data now))
  /\ Forall tickEntry (updateCandles m data now).
Proof.
  intros [Hd Hp]. unfold updateCandles. cbv zeta.
  destruct (JsMap.get m (currentMinute now)) as [c0|] eqn:G.
  - apply eviction_keeps. split; [apply NoDup_keys_set; exact Hd|].
    apply Forall_set; [exact Hp|].
    apply get_Some_elem in G.
    pose proof (proj1 (Forall_forall _ _) Hp _ G) as (Ht & Hk & Ho & Ho' & Hc & Hc').
    cbn [fst snd] in *.
    split; [exact Ht|]. split; [exact Hk|].
    unfold wellFormed. cbn [open high low close].
    split; [eapply Qle_trans; [apply Q.le_min_l|exact Ho]|].
    split; [eapply Qle_trans; [exact Ho'|apply Q.le_max_l]|].
    split; [apply Q.le_min_r|apply Q.le_max_r].
  - apply eviction_keeps. split; [apply NoDup_keys_set; exact Hd|].
    apply Forall_set; [exact Hp|].
    split; [reflexivity|]. split; [apply currentMinute_aligned|].
    unfold wellFormed. cbn [fst snd open high low close].
    repeat split; apply Qle_refl.
Qed.

Lemma afterTicks_keeps ticks :
  forall m,
    (JsMap.size m <= 1000)%nat -> NoDup (JsMap.keys m) /\ Forall tickEntry m ->
    (JsMap.size (afterTicks m ticks) <= 1000)%nat
    /\ NoDup (JsMap.keys (afterTicks m ticks))
    /\ Forall tickEntry (afterTicks m ticks).
Proof.
  unfold afterTicks.
  induction ticks as [|[data now] ticks IH]; intros m Hs Hm; simpl.
  - split; [exact Hs|exact Hm].
  - apply IH; [apply updateCandles_keeps_bound; exact Hs|].
    apply updateCandles_keeps_entries; exact Hm.
Qed.

(** X21.  Whatever ticks arrive at whatever times, the candle store they
    build from an empty one stays within 1000 candles, keeps each candle
    under its own timestamp, the start of a minute, with no minute twice,
    and every candle has its open and its close between its low and its
    high. *)
Theorem ticks_build_well_formed_candles (ticks : list (Tick * Z)) :
  let m := afterTicks [] ticks in
  (JsMap.size m <= 1000)%nat
  /\ keyedByMinute m
  /\ Forall wellFormed (JsMap.values m).
Proof.
  cbv zeta.
  destruct (afterTicks_keeps ticks []) as (Hs & Hd & Hp).
  { unfold JsMap.size. simpl. lia. }
  { split; constructor. }
  split; [exact Hs|]. split.
  - split; [exact Hd|]. eapply Forall_impl; [exact Hp|].
    intros entry (Ht & Hk & _). split; assumption.
  - unfold JsMap.values. apply Forall_fmap.
    eapply Forall_impl; [exact Hp|]. intros entry (_ & _ & Hw). exact Hw.
Qed.

(** X22.  A tick can be read back: when the store holds fewer than 1000
    candles, or holds a candle older than the minute of the tick (so that
    the eviction, if there is one, takes another candle), the store then
    holds a candle for the minute of the tick, whose close and volume are
    the tick's and whose range contains the tick's price; it is the
    minute's former candle with its range widened, or a new one at the
    price. *)
Theorem tick_is_readable (m : list (Z * Candle)) (data : Tick) (now : Z) :
  ((JsMap.size m < 1000)%nat
   \/ exists k, k ∈ JsMap.keys m /\ (k < currentMinute now)%Z) ->
  exists candle,
    JsMap.get (updateCandles m data now) (currentMinute now) = Some candle
    /\ close candle = ltp data
    /\ volume candle = tick_volume data
    /\ low candle <= ltp data /\ ltp data <= high candle
    /\ match JsMap.get m (currentMinute now) with
       | Some before =>
         timestamp candle = timestamp before
         /\ open candle = open before
         /\ high candle = Qmax (high before) (ltp data)
         /\ low candle = Qmin (low before) (ltp data)
       | None =>
         timestamp candle = currentMinute now
         /\ open candle = ltp data
         /\ high candle = ltp data
         /\ low candle = ltp data
       end.
Proof.
  intros Hroom.
  assert (Hkeep : forall candle,
    let m1 := JsMap.set m (currentMinute now) candle in
    JsMap.get (if (1000 <? JsMap.size m1)%nat
               then match JsMap.minKey m1 with
                    | Some oldestKey => JsMap.delete m1 oldestKey
                    | None => m1
                    end
               else m1) (currentMinute now) = Some candle).
  { intros candle. cbv zeta.
    destruct (1000 <? _)%nat eqn:E; [|apply get_set_eq].
    destruct (JsMap.minKey _) as [oldestKey|] eqn:Hk; [|apply get_set_eq].
    apply Nat.ltb_lt in E.
    pose proof (size_set_le m (currentMinute now) candle) as [_ Hs].
    destruct Hroom as [Hlt | (k & Hin & Hlt)]; [lia|].
    apply minKey_oldest in Hk as [_ Hall].
    assert (Hin1 : k ∈ JsMap.keys (JsMap.set m (currentMinute now) candle)).
    { destruct (JsMap.get m (currentMinute now)) eqn:G.
      - rewrite keys_set_present by eauto. exact Hin.
      - rewrite set_fresh by exact G. unfold JsMap.keys in *.
        rewrite fmap_app. apply elem_of_app. left. exact Hin. }
    pose proof (proj1 (Forall_forall _ _) Hall _ Hin1) as Hle. cbv beta in Hle.
    rewrite get_delete_ne by lia. apply get_set_eq. }
  unfold updateCandles. cbv zeta.
  destruct (JsMap.get m (currentMinute now)) as [before|] eqn:G.
  - eexists. split; [apply Hkeep|]. cbn [close volume low high timestamp open].
    split; [reflexivity|]. split; [reflexivity|].
    split; [apply Q.le_min_r|]. split; [apply Q.le_max_r|].
    repeat split.
  - eexists. split; [apply Hkeep|]. cbn [close volume low high timestamp open].
    split; [reflexivity|]. split; [reflexivity|].
    split; [apply Qle_refl|]. split; [apply Qle_refl|].
    repeat split.
Qed.

Lemma tick_is_readable_sample :
  let updating := (500 * 60000 + 5000)%Z in
  let evicting := (1001 * 60000 + 5000)%Z in
  JsMap.size fullStore = 1000%nat
  /\ (exists k, k ∈ JsMap.keys fullStore /\ (k < currentMinute updating)%Z)
  /\ (exists before candle,
        JsMap.get fullStore (currentMinute updating) = Some before
        /\ JsMap.get (updateCandles fullStore tick1001 updating)
             (currentMinute updating) = Some candle
        /\ close candle = ltp tick1001
        /\ open candle = open before
        /\ high candle = Qmax (high before) (ltp tick1001)
        /\ low candle = Qmin (low before) (ltp tick1001))
  /\ (exists candle,
        JsMap.get fullStore (currentMinute evicting) = None
        /\ JsMap.get (updateCandles fullStore tick1001 evicting)
             (currentMinute evicting) = Some candle
        /\ close candle = ltp tick1001
        /\ open candle = ltp tick1001
        /\ JsMap.size (updateCandles fullStore tick1001 evicting) = 1000%nat
        /\ JsMap.get (updateCandles fullStore tick1001 evicting) 60000%Z = None).
Proof.
  cbv zeta.
  assert (Hin : 60000%Z ∈ JsMap.keys fullStore)
    by (apply (bool_decide_unpack _); vm_compute; exact I).
  assert (Ho1 : exists k, k ∈ JsMap.keys fullStore
                          /\ (k < currentMinute (500 * 60000 + 5000))%Z).
  { exists 60000%Z. split; [exact Hin|]. vm_compute. reflexivity. }
  assert (Ho2 : exists k, k ∈ JsMap.keys fullStore
                          /\ (k < currentMinute (1001 * 60000 + 5000))%Z).
  { exists 60000%Z. split; [exact Hin|]. vm_compute. reflexivity. }
  split; [vm_compute; reflexivity|]. split; [exact Ho1|]. split.
  - destruct (tick_is_readable fullStore tick1001 (500 * 60000 + 5000)
                (or_intror Ho1)) as (candle & Hg & Hc & _ & _ & _ & Hm).
    destruct (JsMap.get fullStore (currentMinute (500 * 60000 + 5000)))
      as [before|] eqn:G; [|vm_compute in G; discriminate].
    destruct Hm as (_ & Hop & Hh & Hl).
    exists before, candle. split; [reflexivity|]. split; [exact Hg|].
    split; [exact Hc|]. split; [exact Hop|]. split; [exact Hh|exact Hl].
  - destruct (tick_is_readable fullStore tick1001 (1001 * 60000 + 5000)
                (or_intror Ho2)) as (candle & Hg & Hc & _ & _ & _ & Hm).
    destruct (JsMap.get fullStore (currentMinute (1001 * 60000 + 5000)))
      as [before|] eqn:G; [vm_compute in G; discriminate|].
    destruct Hm as (_ & Hop & _).
    exists candle. split; [reflexivity|]. split; [exact Hg|].
    split; [exact Hc|]. split; [exact Hop|].
    split; vm_compute; reflexivity.
Defined.

(** X23.  A tick whose minute is older than every candle of a store that
    holds exactly 1000 leaves no trace: its candle is created and evicted
    in the same call, and the store is what it was. *)
Theorem stale_tick_in_a_full_store_is_lost (m : list (Z * Candle))
    (data : Tick) (now : Z) :
  JsMap.size m = 1000%nat ->
  Forall (fun k => (currentMinute now < k)%Z) (JsMap.keys m) ->
  updateCandles m data now = m.
Proof.
  intros Hs Hall.
  assert (Hfresh : currentMinute now ∉ JsMap.keys m).
  { intros Hin. pose proof (proj1 (Forall_forall _ _) Hall _ Hin). cbv beta in *. lia. }
  assert (G : JsMap.get m (currentMinute now) = None)
    by (apply get_None_keys; exact Hfresh).
  unfold updateCandles. cbv zeta. rewrite G, set_fresh by exact G.
  set (candle := {| timestamp := currentMinute now |}).
  assert (E : (1000 <? JsMap.size (m ++ [(currentMinute now, candle)]))%nat = true).
  { apply Nat.ltb_lt. unfold JsMap.size in *. rewrite length_app. simpl. lia. }
  rewrite E.
  destruct (JsMap.minKey (m ++ [(currentMinute now, candle)])) as [k|] eqn:Hk.
  - apply minKey_oldest in Hk as [Hin Hmin].
    assert (k = currentMinute now) as ->.
    { unfold JsMap.keys in *. rewrite fmap_app in Hin, Hmin.
      apply Forall_app in Hmin as [_ Hmin].
      apply Forall_cons in Hmin as [Hmin _]. cbn [fst] in Hmin.
      apply elem_of_app in Hin as [Hin | Hin].
      - pose proof (proj1 (Forall_forall _ _) Hall _ Hin). cbv beta in *. lia.
      - apply list_elem_of_singleton in Hin. exact Hin. }
    apply delete_snoc_fresh. exact Hfresh.
  - exfalso.
    destruct (minKey_nonempty (m ++ [(currentMinute now, candle)])) as [k Hk'];
      [apply Nat.ltb_lt in E; lia|congruence].
Qed.

Lemma stale_tick_in_a_full_store_is_lost_sample :
  JsMap.size fullStore = 1000%nat
  /\ updateCandles fullStore tick1001 5000 = fullStore.
Proof.
  assert (Hs : JsMap.size fullStore = 1000%nat) by (vm_compute; reflexivity).
  assert (Hall : Forall (fun k => (currentMinute 5000 < k)%Z) (JsMap.keys fullStore)).
  { apply (bool_decide_unpack _). vm_compute. exact I. }
  split; [exact Hs|].
  exact (stale_tick_in_a_full_store_is_lost fullStore tick1001 5000 Hs Hall).
Defined.

(** *** Reading candles back *)

#[local] Instance byTimestamp_transitive : Transitive byTimestamp.
Proof. intros a b c. unfold byTimestamp. lia. Qed.

#[local] Instance byTimestamp_total : Total byTimestamp.
Proof. intros a b. unfold byTimestamp. lia. Qed.

Lemma lastN_split (limit : nat) (l : list Candle) :
  exists older,
    older ++ lastN limit l = l
    /\ length (lastN limit l) = selected limit (length l).
Proof.
  unfold lastN, selected. destruct limit as [|limit].
  - exists []. split; reflexivity.
  - exists (take (length l - S limit) l). split; [apply take_drop|].
    rewrite length_drop. lia.
Qed.

Lemma sorted_length (m : list (Z * Candle)) :
  length (merge_sort byTimestamp (JsMap.values m)) = JsMap.size m.
Proof.
  rewrite (Permutation_length (merge_sort_Permutation byTimestamp _)).
  unfold JsMap.values, JsMap.size. apply length_fmap.
Qed.

(** X24.  At the minute timeframe [getCandleData] returns the newest
    candles of the symbol in ascending order of time: the stored candles
    are the returned ones preceded by older ones, and [limit] of them are
    returned, or all there are if fewer; a limit of 0 returns them all, and
    a symbol without a store none. *)
Theorem getCandleData_minute_newest_in_order (svc : t) (symbol : string)
    (limit : nat) :
  exists candles older,
    getCandleData svc symbol minute limit = Some candles
    /\ older ++ candles ≡ₚ JsMap.values (symbolCandles svc symbol)
    /\ StronglySorted byTimestamp (older ++ candles)
    /\ length candles = selected limit (JsMap.size (symbolCandles svc symbol)).
Proof.
  unfold getCandleData, symbolCandles.
  destruct (candleData svc !! symbol) as [m|]; simpl.
  - destruct (lastN_split limit (merge_sort byTimestamp (JsMap.values m)))
      as (older & Happ & Hlen).
    exists (lastN limit (merge_sort byTimestamp (JsMap.values m))), older.
    split; [reflexivity|]. rewrite Happ.
    split; [apply merge_sort_Permutation|].
    split; [apply StronglySorted_merge_sort; apply _|].
    rewrite Hlen, sorted_length. reflexivity.
  - exists [], []. split; [reflexivity|]. split; [reflexivity|].
    split; [constructor|]. unfold selected. destruct limit; reflexivity.
Qed.

(** *** Aggregation in general *)

Lemma total_app (xs ys : list Q) : total (xs ++ ys) == total xs + total ys.
Proof.
  unfold total. induction xs as [|x xs IH]; simpl; [ring|].
  rewrite IH. ring.
Qed.

Lemma batchCount_0 m : batchCount 0 (S m) = 0%nat.
Proof.
  unfold batchCount. rewrite Nat.sub_succ, Nat.sub_0_r, Nat.add_0_l.
  apply Nat.div_small. lia.
Qed.

Lemma batchCount_step n m :
  (0 < n)%nat -> batchCount n (S m) = S (batchCount (n - S m) (S m)).
Proof.
  intros Hn. unfold batchCount. rewrite Nat.sub_succ, Nat.sub_0_r.
  destruct (le_lt_dec (S m) n) as [Hle | Hlt].
  - replace (n + m)%nat with ((n - S m + m) + 1 * S m)%nat by lia.
    rewrite Nat.div_add by lia. lia.
  - replace (n - S m)%nat with 0%nat by lia. rewrite Nat.add_0_l.
    rewrite (Nat.div_small m (S m)) by lia.
    symmetry. apply (Nat.div_unique (n + m) (S m) 1 (n - 1)); lia.
Qed.

Lemma aggregated_volume (batches : list (Candle * list Candle)) :
  total (volume <$> ((fun b => aggregatedCandle b.1 b.2) <$> batches))
  == total (volume <$> concat (batchCandles <$> batches)).
Proof.
  induction batches as [|[c0 rest] batches IH].
  - reflexivity.
  - rewrite !fmap_cons, concat_cons, fmap_app, total_app.
    change (total (?x :: ?xs)) with (x + total xs). rewrite IH.
    apply Qplus_inj_r. unfold aggregatedCandle, batchCandles.
    cbn [volume fst snd]. rewrite reduce_volume. ring.
Qed.

Lemma aggregateLoop_batches (candles : list Candle) (m : nat) :
  forall n i aggregated,
    (length candles - i <= n)%nat ->
    exists batches : list (Candle * list Candle),
      aggregateLoop candles m i aggregated
      = aggregated ++ ((fun b => aggregatedCandle b.1 b.2) <$> batches)
      /\ (forall j b, batches !! j = Some b ->
            batchCandles b
            = slice candles (i + j * S m) (i + j * S m + S m))
      /\ concat (batchCandles <$> batches) = drop i candles
      /\ length batches = batchCount (length candles - i) (S m).
Proof.
  induction n as [|n IH]; intros i aggregated Hn;
    rewrite aggregateLoop_unfold.
  - destruct (i <? length candles)%nat eqn:E; [apply Nat.ltb_lt in E; lia|].
    apply Nat.ltb_ge in E. exists []. rewrite app_nil_r.
    split; [reflexivity|]. split; [intros j b [=]|].
    split; [symmetry; apply drop_ge; exact E|].
    replace (length candles - i)%nat with 0%nat by lia.
    rewrite batchCount_0. reflexivity.
  - destruct (i <? length candles)%nat eqn:E.
    + apply Nat.ltb_lt in E.
      assert (Hslice : slice candles i (i + S m) = take (S m) (drop i candles)).
      { unfold slice. f_equal. lia. }
      destruct (slice candles i (i + S m)) as [|c0 rest] eqn:Hb.
      { exfalso. symmetry in Hslice.
        apply (f_equal length) in Hslice.
        rewrite length_take, length_drop in Hslice.
        change (length (@nil Candle)) with 0%nat in Hslice. lia. }
      destruct (IH (i + S m)%nat (aggregated ++ [aggregatedCandle c0 rest]))
        as (batches & Hloop & Hidx & Hcat & Hlen); [lia|].
      exists ((c0, rest) :: batches).
      split; [rewrite Hloop, <- app_assoc; reflexivity|].
      split.
      { intros [|j] b Hj.
        - injection Hj as <-. rewrite Nat.mul_0_l, Nat.add_0_r.
          rewrite Hb. reflexivity.
        - rewrite (Hidx j b Hj). f_equal; lia. }
      split.
      { rewrite fmap_cons, concat_cons, Hcat.
        change (batchCandles (c0, rest)) with (c0 :: rest).
        rewrite Hslice, <- drop_drop. apply take_drop. }
      rewrite length_cons, Hlen.
      rewrite (batchCount_step (length candles - i)) by lia.
      do 2 f_equal. lia.
    + apply Nat.ltb_ge in E. exists []. rewrite app_nil_r.
      split; [reflexivity|]. split; [intros j b [=]|].
      split; [symmetry; apply drop_ge; exact E|].
      replace (length candles - i)%nat with 0%nat by lia.
      rewrite batchCount_0. reflexivity.
Qed.

(** X25.  For a positive number of minutes, [aggregateCandles] cuts the
    candles, in order, into consecutive batches of that many (the last one
    holding what is left) and returns one aggregated candle per batch:
    the batches put together are the candles, there are
    ceil(candles / minutes) of them, and the volumes add up to the same
    total. *)
Theorem aggregateCandles_batches (candles : list Candle) (m : nat) :
  exists batches : list (Candle * list Candle),
    aggregateCandles candles (S m)
    = Some ((fun b => aggregatedCandle b.1 b.2) <$> batches)
    /\ (forall j b, batches !! j = Some b ->
          batchCandles b = slice candles (j * S m) (j * S m + S m))
    /\ concat (batchCandles <$> batches) = candles
    /\ length batches = batchCount (length candles) (S m)
    /\ total (volume <$> ((fun b => aggregatedCandle b.1 b.2) <$> batches))
       == total (volume <$> candles).
Proof.
  destruct (aggregateLoop_batches candles m (length candles) 0 [])
    as (batches & Hloop & Hidx & Hcat & Hlen); [lia|].
  exists batches. unfold aggregateCandles. rewrite Hloop.
  split; [reflexivity|]. split; [exact Hidx|].
  rewrite drop_0 in Hcat. split; [exact Hcat|].
  rewrite Nat.sub_0_r in Hlen. split; [exact Hlen|].
  rewrite aggregated_volume, Hcat. reflexivity.
Qed.

Lemma aggregateCandles_length (candles : list Candle) (m : nat) :
  exists result,
    aggregateCandles candles (S m) = Some result
    /\ length result = batchCount (length candles) (S m).
Proof.
  destruct (aggregateLoop_batches candles m (length candles) 0 [])
    as (batches & Hloop & _ & _ & Hlen); [lia|].
  eexists. unfold aggregateCandles. rewrite Hloop.
  split; [reflexivity|]. simpl. rewrite length_fmap, Hlen, Nat.sub_0_r.
  reflexivity.
Qed.

(** X26.  At the hour and day timeframes the limit of [getCandleData]
    counts one-minute candles, not returned candles: the newest [limit]
    minute candles (all of them for a limit of 0) are cut into batches of
    60, or 1440, so the call returns ceil(selected / 60), or
    ceil(selected / 1440), candles; with the default limit of 100 that is
    at most two hour candles and at most one day candle. *)
Theorem limit_counts_minute_candles (svc : t) (symbol : string) (limit : nat) :
  let n := selected limit (JsMap.size (symbolCandles svc symbol)) in
  (exists hours,
      getCandleData svc symbol hour limit = Some hours
      /\ length hours = batchCount n 60)
  /\ (exists days,
        getCandleData svc symbol day limit = Some days
        /\ length days = batchCount n 1440)
  /\ (limit = 100%nat -> (batchCount n 60 <= 2)%nat /\ (batchCount n 1440 <= 1)%nat).
Proof.
  cbv zeta. unfold getCandleData, symbolCandles.
  change (60 * 24)%nat with 1440%nat.
  destruct (candleData svc !! symbol) as [m|].
  - change (default [] (Some m)) with m.
    destruct (lastN_split limit (merge_sort byTimestamp (JsMap.values m)))
      as (older & _ & Hlen).
    rewrite sorted_length in Hlen. rewrite <- Hlen.
    split; [apply (aggregateCandles_length _ 59)|].
    split; [apply (aggregateCandles_length _ 1439)|].
    intros ->. rewrite Hlen. unfold selected, batchCount.
    split.
    + apply Nat.lt_succ_r, Nat.Div0.div_lt_upper_bound. lia.
    + apply Nat.lt_succ_r, Nat.Div0.div_lt_upper_bound. lia.
  - change (default [] (@None (list (Z * Candle)))) with (@nil (Z * Candle)).
    assert (H0 : selected limit (JsMap.size (@nil (Z * Candle))) = 0%nat)
      by (unfold selected; destruct limit; reflexivity).
    rewrite H0.
    split; [exists []; split; [reflexivity|]; symmetry; apply batchCount_0|].
    split; [exists []; split; [reflexivity|]; symmetry; apply (batchCount_0 1439)|].
    intros _. rewrite (batchCount_0 59), (batchCount_0 1439). lia.
Qed.

End MarketDataServiceSpec.

(** ** The backtester *)

Module BacktesterSpec.
Import Js JsFacts Backtester.
Local Open Scope Q_scope.

(** *** Simulated fills *)

Lemma simulateOrder_buy b order marketData :
  OrderManager.transaction_type order = "BUY"%string ->
  simulateOrder b order marketData
  = match calculateExecutionPrice b order marketData with
    | None => None
    | Some executionPrice =>
      let quantity := OrderManager.quantity order in
      let commission := calculateCommission b quantity executionPrice in
      Some {| config := config b; trades := trades b; equity := equity b;
              currentCapital :=
                currentCapital b - (quantity * executionPrice + commission);
              currentPosition :=
                Some {| id := tradeId b;
                        symbol := OrderManager.symbol order;
                        quantity := quantity;
                        entryPrice := executionPrice;
                        entryTime := timestamp marketData;
                        position_commission := commission |};
              tradeId := S (tradeId b) |}
    end.
Proof. intros H. unfold simulateOrder. rewrite H. reflexivity. Qed.

Lemma simulateOrder_sell b order marketData position exitPrice :
  OrderManager.transaction_type order = "SELL"%string ->
  currentPosition b = Some position ->
  calculateExecutionPrice b order marketData = Some exitPrice ->
  simulateOrder b order marketData
  = let quantity := OrderManager.quantity order in
    let exitCommission := calculateCommission b quantity exitPrice in
    let grossPnL := (exitPrice - entryPrice position) * quantity in
    let netPnL := grossPnL - position_commission position - exitCommission in
    Some {| config := config b;
            trades := trades b
              ++ [{| opened := position; exitPrice := exitPrice;
                     exitTime := timestamp marketData;
                     grossPnL := grossPnL; netPnL := netPnL;
                     trade_commission :=
                       position_commission position + exitCommission |}];
            equity := equity b;
            currentCapital :=
              currentCapital b + (quantity * exitPrice - exitCommission);
            currentPosition := None;
            tradeId := tradeId b |}.
Proof.
  intros H Hp Hx. unfold simulateOrder. rewrite H, Hp, Hx. reflexivity.
Qed.

Lemma marketPrice b order marketData :
  OrderManager.order_type order = "MARKET"%string ->
  calculateExecutionPrice b order marketData
  = Some (close marketData
          + (if String.eqb (OrderManager.transaction_type order) "BUY"
             then close marketData * slippage (config b)
             else - (close marketData * slippage (config b)))).
Proof. intros H. unfold calculateExecutionPrice. rewrite H. reflexivity. Qed.

(** X27.  A simulated round trip by market orders, a buy then a sell of
    the same quantity at a close that is no higher, never gains: it
    records one trade for the position the buy opened and leaves no
    position; slippage puts the entry price at or above the first close
    and the exit price at or below the second, so the gross P&L is at most
    0, and the commissions only lower it: the net P&L is at most the gross
    P&L.  (Quantity, closes, slippage and commission non-negative, the
    slippage at most 1.) *)
Theorem round_trip_at_no_higher_close_never_gains (b : t)
    (buy sell : OrderManager.OrderParams) (bar1 bar2 : Bar) :
  OrderManager.transaction_type buy = "BUY"%string ->
  OrderManager.order_type buy = "MARKET"%string ->
  OrderManager.transaction_type sell = "SELL"%string ->
  OrderManager.order_type sell = "MARKET"%string ->
  OrderManager.quantity sell == OrderManager.quantity buy ->
  0 <= OrderManager.quantity buy ->
  0 <= close bar2 -> close bar2 <= close bar1 ->
  0 <= slippage (config b) -> slippage (config b) <= 1 ->
  0 <= commission (config b) ->
  exists b1 b2 trade,
    simulateOrder b buy bar1 = Some b1
    /\ simulateOrder b1 sell bar2 = Some b2
    /\ trades b2 = trades b ++ [trade]
    /\ currentPosition b2 = None
    /\ currentPosition b1 = Some (opened trade)
    /\ close bar1 <= entryPrice (opened trade)
    /\ exitPrice trade <= close bar2
    /\ grossPnL trade <= 0
    /\ netPnL trade <= grossPnL trade
    /\ currentCapital b1 <= currentCapital b.
Proof.
  intros Hbuy Mbuy Hsell Msell Hq Hqb Hc2 Hc Hs Hs1 Hk.
  rewrite (simulateOrder_buy b buy bar1 Hbuy), (marketPrice b buy bar1 Mbuy), Hbuy.
  change (String.eqb "BUY" "BUY") with true. cbv iota zeta.
  eexists. eexists. eexists.
  split; [reflexivity|].
  split.
  { erewrite simulateOrder_sell; [reflexivity|exact Hsell|reflexivity|].
    rewrite (marketPrice _ sell bar2 Msell), Hsell.
    change (String.eqb "SELL" "BUY") with false. cbv iota. reflexivity. }
  cbn [trades currentPosition].
  split; [reflexivity|]. split; [reflexivity|]. split; [reflexivity|].
  unfold calculateCommission.
  cbn [currentCapital netPnL grossPnL exitPrice opened entryPrice config
       position_commission].
  set (qs := OrderManager.quantity sell) in *.
  set (qb := OrderManager.quantity buy) in *.
  set (capital := currentCapital b). set (k := commission (config b)) in *.
  set (slip := slippage (config b)) in *.
  set (c1 := close bar1) in *. set (c2 := close bar2) in *.
  clearbody qs qb capital k slip c1 c2.
  assert (Hqs : 0 <= qs) by (rewrite Hq; exact Hqb).
  assert (Hc1 : 0 <= c1) by lra.
  assert (P1 : 0 <= c1 * slip) by (apply Qmult_le_0_compat; assumption).
  assert (P2 : 0 <= c2 * slip) by (apply Qmult_le_0_compat; assumption).
  assert (P3 : 0 <= c2 * (1 - slip)) by (apply Qmult_le_0_compat; lra).
  assert (E3 : c2 * (1 - slip) == c2 - c2 * slip) by ring.
  assert (Hentry : 0 <= c1 + c1 * slip) by lra.
  assert (Hexit : 0 <= c2 + - (c2 * slip)) by lra.
  assert (Hfall : 0 <= (c1 + c1 * slip) - (c2 + - (c2 * slip))) by lra.
  assert (P4 : 0 <= ((c1 + c1 * slip) - (c2 + - (c2 * slip))) * qs)
    by (apply Qmult_le_0_compat; assumption).
  assert (E4 : ((c2 + - (c2 * slip)) - (c1 + c1 * slip)) * qs
               == - (((c1 + c1 * slip) - (c2 + - (c2 * slip))) * qs)) by ring.
  assert (P5 : 0 <= qb * (c1 + c1 * slip)) by (apply Qmult_le_0_compat; assumption).
  assert (P6 : 0 <= qb * (c1 + c1 * slip) * k) by (apply Qmult_le_0_compat; assumption).
  assert (P7 : 0 <= qs * (c2 + - (c2 * slip))) by (apply Qmult_le_0_compat; assumption).
  assert (P8 : 0 <= qs * (c2 + - (c2 * slip)) * k) by (apply Qmult_le_0_compat; assumption).
  split; [lra|]. split; [lra|]. split; [lra|]. split; [lra|]. lra.
Qed.

Lemma round_trip_at_no_higher_close_never_gains_sample :
  let b := new noOptions in
  0 <= slippage (config b) /\ slippage (config b) <= 1
  /\ 0 <= commission (config b)
  /\ exists b1 b2 trade,
       simulateOrder b (marketOrder "BUY" 10) (bar 0 100) = Some b1
       /\ simulateOrder b1 (marketOrder "SELL" 10) (bar 60000 100) = Some b2
       /\ trades b2 = [trade]
       /\ currentPosition b2 = None
       /\ 100 <= entryPrice (opened trade)
       /\ exitPrice trade <= 100
       /\ grossPnL trade <= 0
       /\ netPnL trade <= grossPnL trade.
Proof.
  cbv zeta.
  assert (Hs : 0 <= slippage (config (new noOptions))) by (vm_compute; discriminate).
  assert (Hs1 : slippage (config (new noOptions)) <= 1) by (vm_compute; discriminate).
  assert (Hk : 0 <= commission (config (new noOptions))) by (vm_compute; discriminate).
  assert (Hq : 0 <= OrderManager.quantity (marketOrder "BUY" 10))
    by (vm_compute; discriminate).
  assert (Hc2 : 0 <= close (bar 60000 100)) by (vm_compute; discriminate).
  assert (Hc : close (bar 60000 100) <= close (bar 0 100)) by (vm_compute; discriminate).
  destruct (round_trip_at_no_higher_close_never_gains (new noOptions)
              (marketOrder "BUY" 10) (marketOrder "SELL" 10)
              (bar 0 100) (bar 60000 100)
              eq_refl eq_refl eq_refl eq_refl (Qeq_refl _) Hq Hc2 Hc Hs Hs1 Hk)
    as (b1 & b2 & trade & H1 & H2 & H3 & H4 & _ & H5 & H6 & H7 & H8 & _).
  split; [exact Hs|]. split; [exact Hs1|]. split; [exact Hk|].
  exists b1, b2, trade.
  split; [exact H1|]. split; [exact H2|]. split; [exact H3|].
  split; [exact H4|]. split; [exact H5|]. split; [exact H6|].
  split; [exact H7|exact H8].
Defined.

(** *** The equity curve and its drawdown *)

Lemma drawdownStep_spec peak maxDrawdown percent point :
  exists peak1 maxDrawdown1 percent1,
    drawdownStep (peak, maxDrawdown, percent) point
    = (peak1, maxDrawdown1, percent1)
    /\ peak <= peak1 /\ value point <= peak1
    /\ maxDrawdown <= maxDrawdown1
    /\ peak1 - value point <= maxDrawdown1.
Proof.
  unfold drawdownStep.
  destruct (gtb (value point) peak) eqn:Ep.
  - apply gtb_true in Ep.
    destruct (gtb (value point - value point) maxDrawdown) eqn:Ed.
    + apply gtb_true in Ed. eexists _, _, _. split; [reflexivity|].
      repeat split; lra.
    + apply gtb_false in Ed. eexists _, _, _. split; [reflexivity|].
      repeat split; lra.
  - apply gtb_false in Ep.
    destruct (gtb (peak - value point) maxDrawdown) eqn:Ed.
    + apply gtb_true in Ed. eexists _, _, _. split; [reflexivity|].
      repeat split; lra.
    + apply gtb_false in Ed. eexists _, _, _. split; [reflexivity|].
      repeat split; lra.
Qed.

Lemma drawdown_loop (points : list EquityPoint) :
  forall peak maxDrawdown percent,
  exists peak1 maxDrawdown1 percent1,
    foldl drawdownStep (peak, maxDrawdown, percent) points
    = (peak1, maxDrawdown1, percent1)
    /\ peak <= peak1
    /\ maxDrawdown <= maxDrawdown1
    /\ Forall (fun point => value point <= peak1) points
    /\ (peak1 = peak \/ exists point, point ∈ points /\ peak1 = value point).
Proof.
  induction points as [|point points IH]; intros peak maxDrawdown percent.
  - exists peak, maxDrawdown, percent. split; [reflexivity|].
    split; [lra|]. split; [lra|]. split; [constructor|left; reflexivity].
  - destruct (drawdownStep_spec peak maxDrawdown percent point)
      as (p1 & d1 & c1 & Hs & Hp & Hv & Hd & _).
    assert (Hp1 : p1 = peak \/ p1 = value point).
    { unfold drawdownStep in Hs.
      destruct (gtb (value point) peak);
        destruct (gtb _ maxDrawdown); injection Hs as <- _ _; auto. }
    destruct (IH p1 d1 c1) as (p2 & d2 & c2 & Hl & Hp2 & Hd2 & Hall & Hfrom).
    exists p2, d2, c2.
    split; [rewrite <- Hl, <- Hs; reflexivity|]. split; [lra|]. split; [lra|].
    split; [constructor; [lra|exact Hall]|].
    destruct Hfrom as [-> | (point' & Hin & ->)].
    + destruct Hp1 as [-> | ->]; [left; reflexivity|].
      right. exists point. split; [left|reflexivity].
    + right. exists point'. split; [right; exact Hin|reflexivity].
Qed.

(** X28.  The equity curve counts an open position as worth nothing: the
    point recorded after a buy is the cash that is left, so
    [calculateDrawdown] reports at least the fall from its peak to that
    cash, the peak being the highest of the initial capital and the
    curve's values; and when the curve or the initial capital has been as
    high as the capital before the buy, that peak is at least the capital
    before the buy: the money spent on the position shows as a drawdown. *)
Theorem open_position_counts_as_drawdown (b b1 : t)
    (order : OrderManager.OrderParams) (marketData : Bar) (timestamp : Z) :
  capitalSeen b ->
  OrderManager.transaction_type order = "BUY"%string ->
  simulateOrder b order marketData = Some b1 ->
  let b2 := updateEquityCurve b1 timestamp in
  exists point peak executionPrice,
    last (equity b2) = Some point
    /\ value point == currentCapital b1
    /\ (peak = initialCapital (config b)
        \/ exists seen, seen ∈ equity b2 /\ peak = value seen)
    /\ initialCapital (config b) <= peak
    /\ Forall (fun seen => value seen <= peak) (equity b2)
    /\ currentCapital b <= peak
    /\ peak - value point <= (calculateDrawdown b2).1
    /\ calculateExecutionPrice b order marketData = Some executionPrice
    /\ (0 <= OrderManager.quantity order -> 0 <= executionPrice ->
        0 <= commission (config b) ->
        currentCapital b1 <= currentCapital b).
Proof.
  intros Hseen Hbuy Hsim. cbv zeta.
  rewrite (simulateOrder_buy b order marketData Hbuy) in Hsim.
  destruct (calculateExecutionPrice b order marketData) as [px|];
    [|discriminate].
  cbv zeta in Hsim. injection Hsim as <-.
  unfold updateEquityCurve, calculateDrawdown, calculateCommission.
  cbn [currentCapital currentPosition equity config].
  set (cash := currentCapital b
               - (OrderManager.quantity order * px
                  + OrderManager.quantity order * px * commission (config b))).
  set (point := {| point_timestamp := timestamp; value := cash + 0 |}).
  destruct (drawdown_loop (equity b ++ [point]) (initialCapital (config b)) 0 0)
    as (p2 & d2 & c2 & Hl & Hp & _ & Hall & Hfrom).
  pose proof Hl as Hl'. rewrite foldl_app in Hl'.
  destruct (foldl drawdownStep (initialCapital (config b), 0, 0) (equity b))
    as [[p1 d1] c1] eqn:E1.
  change (foldl drawdownStep (p1, d1, c1) [point])
    with (drawdownStep (p1, d1, c1) point) in Hl'.
  destruct (drawdownStep_spec p1 d1 c1 point)
    as (p2' & d2' & c2' & Hs & _ & _ & _ & Hd2).
  rewrite Hs in Hl'. injection Hl' as -> -> ->.
  rewrite Hl. cbn [fst].
  exists point, p2, px.
  split; [apply last_snoc|]. split; [unfold point; cbn [value]; ring|].
  split.
  { destruct Hfrom as [-> | (seen & Hin & ->)]; [left; reflexivity|].
    right. exists seen. split; [exact Hin|reflexivity]. }
  split; [exact Hp|]. split; [exact Hall|].
  split.
  { destruct Hseen as [Hinit | Hex]; [lra|].
    apply Exists_exists in Hex as (seen & Hin & Hle).
    apply Forall_app in Hall as [Hall _].
    pose proof (proj1 (Forall_forall _ _) Hall _ Hin) as Hv. cbv beta in Hv.
    lra. }
  split; [exact Hd2|]. split; [reflexivity|].
  intros Hq Hpx Hk. unfold cash.
  assert (P1 : 0 <= OrderManager.quantity order * px)
    by (apply Qmult_le_0_compat; assumption).
  assert (P2 : 0 <= OrderManager.quantity order * px * commission (config b))
    by (apply Qmult_le_0_compat; assumption).
  lra.
Qed.

Lemma open_position_counts_as_drawdown_sample :
  let b := new noOptions in
  capitalSeen b
  /\ exists b1 point peak,
       simulateOrder b (marketOrder "BUY" 10) (bar 0 100) = Some b1
       /\ last (equity (updateEquityCurve b1 0)) = Some point
       /\ value point == currentCapital b1
       /\ currentCapital b <= peak
       /\ peak - value point <= (calculateDrawdown (updateEquityCurve b1 0)).1
       /\ 1000 <= (calculateDrawdown (updateEquityCurve b1 0)).1.
Proof.
  cbv zeta.
  assert (Hseen : capitalSeen (new noOptions)) by (left; apply Qle_refl).
  destruct (simulateOrder (new noOptions) (marketOrder "BUY" 10) (bar 0 100))
    as [b1|] eqn:E; [|vm_compute in E; discriminate].
  destruct (open_position_counts_as_drawdown (new noOptions) b1
              (marketOrder "BUY" 10) (bar 0 100) 0 Hseen eq_refl E)
    as (point & peak & px & H1 & H2 & _ & _ & _ & H3 & H4 & _).
  split; [exact Hseen|]. exists b1, point, peak. split; [reflexivity|].
  split; [exact H1|]. split; [exact H2|]. split; [exact H3|].
  split; [exact H4|].
  vm_compute in E. injection E as <-. vm_compute. discriminate.
Defined.

(** *** Runs of wins and losses *)

Lemma snoc_cases {A} (l : list A) : l = [] \/ exists l' x, l = l' ++ [x].
Proof. induction l using rev_ind; [left; reflexivity|right; eauto]. Qed.

(** A run that ends the list is no longer than the longest one that
    does. *)
Lemma final_run_bound (condition : Trade -> bool)
    (trades front final before run : list Trade) :
  trades = front ++ final ->
  (front = [] \/ exists front' y, front = front' ++ [y] /\ condition y = false) ->
  trades = before ++ run ->
  Forall (fun trade => condition trade = true) run ->
  (length run <= length final)%nat.
Proof.
  intros -> Hfront Heq Hrun.
  apply app_eq_app in Heq as [l [[-> ->] | [-> ->]]].
  - destruct (snoc_cases l) as [-> | (l' & z & ->)]; [simpl; lia|].
    exfalso. destruct Hfront as [Hnil | (front' & y & Hf & Hy)].
    + apply (f_equal length) in Hnil. rewrite !length_app in Hnil.
      simpl in Hnil. lia.
    + rewrite app_assoc in Hf. apply app_inj_tail in Hf as [_ ->].
      apply Forall_app in Hrun as [Hrun _].
      apply Forall_app in Hrun as [_ Hrun].
      apply Forall_cons in Hrun as [Hrun _]. congruence.
  - rewrite length_app. lia.
Qed.

Lemma isRun_snoc condition trades run x :
  isRun condition trades run -> isRun condition (trades ++ [x]) run.
Proof.
  intros [(before & after & ->) Hall]. split; [|exact Hall].
  exists before, (after ++ [x]). rewrite <- !app_assoc. reflexivity.
Qed.

(** The runs of a list with one more trade: those of the list, and those
    that end with the new trade. *)
Lemma isRun_snoc_inv condition trades run x :
  isRun condition (trades ++ [x]) run ->
  isRun condition trades run
  \/ run = []
  \/ exists before run', run = run' ++ [x] /\ trades = before ++ run'
       /\ Forall (fun trade => condition trade = true) run'
       /\ condition x = true.
Proof.
  intros [(before & after & Heq) Hall].
  destruct (snoc_cases after) as [-> | (after' & a & ->)].
  - rewrite app_nil_r in Heq.
    destruct (snoc_cases run) as [-> | (run' & a & ->)]; [right; left; reflexivity|].
    rewrite app_assoc in Heq. apply app_inj_tail in Heq as [-> ->].
    apply Forall_app in Hall as [Hall Ha].
    apply Forall_cons in Ha as [Ha _].
    right; right. exists before, run'. repeat split; assumption.
  - rewrite !app_assoc in Heq. apply app_inj_tail in Heq as [-> _].
    left. split; [|exact Hall]. exists before, after'.
    rewrite <- app_assoc. reflexivity.
Qed.

Lemma findMaxConsecutive_loop (condition : Trade -> bool) (trades : list Trade) :
  let step := fun '(maxConsecutive, currentConsecutive) trade =>
    if condition trade
    then (Nat.max maxConsecutive (S currentConsecutive), S currentConsecutive)
    else (maxConsecutive, 0%nat) in
  exists maxConsecutive currentConsecutive,
    foldl step (0%nat, 0%nat) trades = (maxConsecutive, currentConsecutive)
    /\ (currentConsecutive <= maxConsecutive)%nat
    /\ (exists front final,
          trades = front ++ final
          /\ length final = currentConsecutive
          /\ Forall (fun trade => condition trade = true) final
          /\ (front = []
              \/ exists front' y, front = front' ++ [y] /\ condition y = false))
    /\ (exists run, isRun condition trades run /\ length run = maxConsecutive)
    /\ (forall run, isRun condition trades run ->
          (length run <= maxConsecutive)%nat).
Proof.
  intros step. induction trades as [|x trades IH] using rev_ind.
  - exists 0%nat, 0%nat. split; [reflexivity|]. split; [lia|].
    split; [exists [], []; repeat split; [constructor|left; reflexivity]|].
    split.
    + exists []. split; [|reflexivity]. split; [exists [], []; reflexivity|constructor].
    + intros run [(before & after & Heq) _].
      symmetry in Heq. apply app_eq_nil in Heq as [_ Heq].
      apply app_eq_nil in Heq as [-> _]. simpl. lia.
  - destruct IH as (mx & cur & Hfold & Hle & (front & final & Heq & Hlen & Hfin & Hfront)
                    & (best & Hbest & Hbl) & Hub).
    rewrite foldl_app, Hfold. cbn [foldl]. unfold step at 1.
    destruct (condition x) eqn:Cx.
    + exists (Nat.max mx (S cur)), (S cur). split; [reflexivity|].
      split; [lia|]. split.
      { exists front, (final ++ [x]). rewrite Heq, <- app_assoc.
        split; [reflexivity|]. split; [rewrite length_app; simpl; lia|].
        split; [|exact Hfront].
        apply Forall_app. split; [exact Hfin|]. repeat constructor. exact Cx. }
      split.
      { destruct (le_lt_dec (S cur) mx) as [H | H].
        - exists best. split; [apply isRun_snoc; exact Hbest|lia].
        - exists (final ++ [x]). split.
          + split.
            * exists front, []. rewrite Heq, app_nil_r, <- app_assoc. reflexivity.
            * apply Forall_app. split; [exact Hfin|]. repeat constructor. exact Cx.
          + rewrite length_app. simpl. lia. }
      intros run Hrun.
      apply isRun_snoc_inv in Hrun
        as [Hrun | [-> | (before & run' & -> & Hb & Hall & _)]].
      * specialize (Hub run Hrun). lia.
      * simpl. lia.
      * pose proof (final_run_bound condition trades front final before run'
                      Heq Hfront Hb Hall).
        rewrite length_app. simpl. lia.
    + exists mx, 0%nat. split; [reflexivity|]. split; [lia|]. split.
      { exists (trades ++ [x]), []. rewrite app_nil_r.
        split; [reflexivity|]. split; [reflexivity|]. split; [constructor|].
        right. exists trades, x. split; [reflexivity|exact Cx]. }
      split; [exists best; split; [apply isRun_snoc; exact Hbest|exact Hbl]|].
      intros run Hrun.
      apply isRun_snoc_inv in Hrun
        as [Hrun | [-> | (before & run' & -> & _ & _ & Hx)]].
      * apply Hub. exact Hrun.
      * simpl. lia.
      * congruence.
Qed.

(** X29.  [findMaxConsecutive] returns the length of the longest run of
    consecutive trades that satisfy the condition: there is such a run of
    that length, and none is longer.  [analyzeTradePatterns] reports it
    for the winning trades and for the losing ones. *)
Theorem findMaxConsecutive_is_the_longest_run (trades : list Trade)
    (condition : Trade -> bool) :
  (exists run,
      isRun condition trades run
      /\ length run = findMaxConsecutive trades condition)
  /\ (forall run,
        isRun condition trades run ->
        (length run <= findMaxConsecutive trades condition)%nat)
  /\ (forall b,
        analyzeTradePatterns b
        = (findMaxConsecutive (Backtester.trades b) isWin,
           findMaxConsecutive (Backtester.trades b) isLoss)).
Proof.
  destruct (findMaxConsecutive_loop condition trades)
    as (mx & cur & Hfold & _ & _ & Hbest & Hub).
  unfold findMaxConsecutive. rewrite Hfold. cbn [fst].
  split; [exact Hbest|]. split; [exact Hub|]. reflexivity.
Qed.

End BacktesterSpec.

(** ** The logger *)

Module TradingLoggerSpec.
Import TradingLogger.

Section LoggerFacts.
Context {Data : Type}.
Implicit Types (lg : @t Data) (entries : list (@LogEntry Data)).

(** One more entry, on a log that holds the newest [n]. *)
Lemma addToLogs_newest (cfg : Config) entries (logEntry : @LogEntry Data) :
  logs (addToLogs {| config := cfg; logs := newest (maxLogSize cfg) entries |}
          logEntry)
  = newest (maxLogSize cfg) (entries ++ [logEntry]).
Proof.
  unfold addToLogs, newest, slice. cbn [config logs].
  set (n := maxLogSize cfg).
  destruct (n <? 0)%Z eqn:Eneg.
  - apply Z.ltb_lt in Eneg. cbn [app length].
    assert (E : (n <? Z.of_nat 1)%Z = true) by (apply Z.ltb_lt; lia).
    rewrite E.
    assert (E' : (- n <? 0)%Z = false) by (apply Z.ltb_ge; lia).
    rewrite E'.
    replace (Z.to_nat (Z.min (- n) (Z.of_nat 1))) with 1%nat by lia.
    reflexivity.
  - apply Z.ltb_ge in Eneg. destruct (n =? 0)%Z eqn:Ez.
    + apply Z.eqb_eq in Ez. rewrite Ez.
      assert (E : (0 <? Z.of_nat (length (entries ++ [logEntry])))%Z = true).
      { apply Z.ltb_lt. rewrite length_app. simpl. lia. }
      rewrite E. change (- 0 <? 0)%Z with false. cbv iota.
      replace (Z.to_nat (Z.min 0 _)) with 0%nat by lia.
      reflexivity.
    + apply Z.eqb_neq in Ez.
      assert (Hlen : length (drop (length entries - Z.to_nat n) entries ++ [logEntry])
                     = S (Nat.min (length entries) (Z.to_nat n))).
      { rewrite length_app, length_drop. simpl. lia. }
      rewrite Hlen, length_app. cbn [length].
      destruct (le_lt_dec (Z.to_nat n) (length entries)) as [Hfull | Hroom].
      * assert (E : (n <? Z.of_nat (S (Nat.min (length entries) (Z.to_nat n))))%Z
                    = true) by (apply Z.ltb_lt; lia).
        rewrite E.
        assert (E' : (- n <? 0)%Z = true) by (apply Z.ltb_lt; lia).
        rewrite E'.
        replace (Z.to_nat (Z.max (Z.of_nat (S (Nat.min (length entries) (Z.to_nat n)))
                                  + - n) 0)) with 1%nat by lia.
        rewrite drop_app_le by (rewrite length_drop; lia).
        rewrite drop_drop.
        rewrite (drop_app_le entries) by lia.
        do 2 f_equal. lia.
      * assert (E : (n <? Z.of_nat (S (Nat.min (length entries) (Z.to_nat n))))%Z
                    = false) by (apply Z.ltb_ge; lia).
        rewrite E.
        replace (length entries - Z.to_nat n)%nat with 0%nat by lia.
        replace (length entries + 1 - Z.to_nat n)%nat with 0%nat by lia.
        reflexivity.
Qed.

Lemma afterCalls_snoc lg (calls : list (@LogCall Data)) call :
  afterCalls lg (calls ++ [call])
  = log (afterCalls lg calls) (call_level call) (call_message call)
      (call_data call) (call_now call) (call_id call).
Proof. unfold afterCalls. rewrite foldl_app. reflexivity. Qed.

Lemma log_config lg level message (data : Data) now id :
  config (log lg level message data now id) = config lg.
Proof.
  unfold log. destruct (logLevels _); [|reflexivity].
  destruct (_ <=? _)%nat; reflexivity.
Qed.

Lemma afterCalls_config (calls : list (@LogCall Data)) :
  forall lg, config (afterCalls lg calls) = config lg.
Proof.
  unfold afterCalls. induction calls as [|call calls IH]; intros lg; simpl;
    [reflexivity|].
  rewrite IH. apply log_config.
Qed.

(** X30.  The stored log of a new logger, after any run of [debug],
    [info], [warn] and [error] calls: with a level name that is not one of
    the four it stores nothing; otherwise it holds the entries of the
    calls at or above the level, in the order of the calls, cut down to
    the newest [maxLogSize] of them.  A [maxLogSize] of 0 never cuts, and
    a negative one keeps nothing. *)
Theorem log_keeps_the_newest_entries (options : Options)
    (calls : list (@LogCall Data)) :
  let lg := afterCalls (new options) calls in
  config lg = config (@new Data options)
  /\ logs lg
     = match logLevels (logLevel (config lg)) with
       | None => []
       | Some threshold =>
         newest (maxLogSize (config lg))
           (entryOf <$> filter (fun call => (threshold <= rank (call_level call))%nat)
                          calls)
       end.
Proof.
  cbv zeta. split; [apply afterCalls_config|].
  rewrite afterCalls_config.
  set (cfg := config (@new Data options)).
  assert (Hrun : forall calls', config (afterCalls (@new Data options) calls') = cfg)
    by (intros; apply afterCalls_config).
  destruct (logLevels (logLevel cfg)) as [threshold|] eqn:El.
  - induction calls as [|call calls IH] using rev_ind.
    + unfold newest. rewrite filter_nil. cbn [fmap list_fmap length afterCalls foldl new logs].
      destruct (_ <? 0)%Z; [reflexivity|]. destruct (_ =? 0)%Z; reflexivity.
    + rewrite afterCalls_snoc, filter_app, fmap_app. unfold log.
      rewrite Hrun, El.
      destruct (threshold <=? rank (call_level call))%nat eqn:Ea.
      * apply Nat.leb_le in Ea.
        rewrite (filter_cons_True _ call []) by exact Ea. rewrite filter_nil.
        specialize (Hrun calls).
        destruct (afterCalls (new options) calls) as [cfg' entries].
        cbn [config logs] in Hrun, IH. rewrite Hrun, IH.
        apply addToLogs_newest.
      * apply Nat.leb_gt in Ea.
        rewrite (filter_cons_False _ call []) by lia. rewrite filter_nil.
        rewrite app_nil_r. exact IH.
  - induction calls as [|call calls IH] using rev_ind; [reflexivity|].
    rewrite afterCalls_snoc. unfold log. rewrite Hrun, El. exact IH.
Qed.

End LoggerFacts.
End TradingLoggerSpec.
